(** * AetherX: the resource-allocation workflow of the dashboard

  A shallow embedding of the parts of the AetherX front end
  (frontend-react/src) that talk to the resource-allocation engine,
  together with the engine operations they call.

  Conventions.
  - JavaScript strings are [string]; only ASCII letters change case.
  - A JavaScript number is an IEEE 754 double ([float]).  Where the
    language computes on the exact value of a number ([Math.floor],
    [Math.round], [%], [toFixed]) the value is taken as a rational.
    Fields the design document types as integers are [Z] or [nat].
  - The HTTP back end is not part of the front-end sources.  Its
    operations are written down from the design document and marked
    as such. *)

From Stdlib Require Import ZArith QArith Qround Qabs Reals Lra Lia Floats.
From Stdlib Require Import String Ascii List DecimalString Bool Sorted.
From stdpp Require Import gmap strings list fin_maps.
Import ListNotations.

#[global] Set Warnings "-inexact-float".

Local Open Scope string_scope.

(** ** JavaScript primitives used by the sources *)

Module Js.

(** The exact value of a number; the sign of zero is dropped. *)
Inductive num :=
| Fin (q : Q)
| NaN
| PosInf
| NegInf.

Definition to_num (x : float) : num :=
  match Prim2SF x with
  | S754_zero _ => Fin 0
  | S754_infinity s => if s then NegInf else PosInf
  | S754_nan => NaN
  | S754_finite s m e =>
      Fin ((if s then - inject_Z (Zpos m) else inject_Z (Zpos m)) * 2 ^ e)%Q
  end.

(** [Math.floor]. *)
Definition Math_floor (x : num) : num :=
  match x with
  | Fin q => Fin (inject_Z (Qfloor q))
  | _ => x
  end.

(** [Math.round]: the nearest integer, ties towards plus infinity. *)
Definition Math_round (x : num) : num :=
  match x with
  | Fin q => Fin (inject_Z (Qfloor (q + (1 # 2))))
  | _ => x
  end.

(** Truncation towards zero, the quotient behind [%]. *)
Definition trunc (x : Q) : Z :=
  if Qle_bool 0 x then Qfloor x else Qceiling x.

(** [x % y]: exact, with the sign of the dividend. *)
Definition rem (x y : num) : num :=
  match x, y with
  | Fin a, Fin b =>
      if Qeq_bool b 0 then NaN
      else Fin (a - b * inject_Z (trunc (a / b)))%Q
  | Fin a, (PosInf | NegInf) => Fin a
  | _, _ => NaN
  end.

(** [String(n)] for an integral number and for the numbers that are not
    finite.  Every digit of the integer is printed, which is what
    JavaScript prints up to [Number.MAX_SAFE_INTEGER]; beyond, JavaScript
    prints the shortest digits that read back as the same double. *)
Definition show_int (z : Z) : string :=
  NilZero.string_of_int (Z.to_int z).

Definition show (x : num) : string :=
  match x with
  | Fin q => show_int (Qfloor q)
  | NaN => "NaN"
  | PosInf => "Infinity"
  | NegInf => "-Infinity"
  end.

Fixpoint zeros (n : nat) : string :=
  match n with
  | O => EmptyString
  | S n' => String "0" (zeros n')
  end.

(** [Number.prototype.toFixed(d)] below 1e21: the nearest number with
    [d] decimals, the larger one on a tie, the sign in front. *)
Definition toFixed (x : float) (d : nat) : string :=
  match to_num x with
  | Fin q =>
      let n := Qfloor (Qabs q * inject_Z (10 ^ Z.of_nat d) + (1 # 2)) in
      let digits := show_int n in
      let padded := zeros (S d - String.length digits) ++ digits in
      let cut := (String.length padded - d)%nat in
      (if Qle_bool 0 q then "" else "-")
      ++ substring 0 cut padded
      ++ (if (d =? 0)%nat then "" else "." ++ substring cut d padded)
  | other => show other
  end.

(** [Math.pow(x, 2)], taken as the correctly rounded square [x * x]. *)
Definition square (x : float) : float := (x * x)%float.

(** [Number.MAX_SAFE_INTEGER], 2^53 - 1: up to it every integer is a
    double. *)
Definition MAX_SAFE_INTEGER : Z := 9007199254740991.

(** The number of an integer of the engine: the integer itself up to
    [MAX_SAFE_INTEGER], the nearest double below 2^63; from 2^63 on the
    conversion wraps and is not the number any more. *)
Definition of_Z (z : Z) : float :=
  if (z <? 0)%Z then (- PrimFloat.of_uint63 (Uint63.of_Z (- z)))%float
  else PrimFloat.of_uint63 (Uint63.of_Z z).

Definition lower_ascii (c : ascii) : ascii :=
  let n := nat_of_ascii c in
  if ((65 <=? n) && (n <=? 90))%nat then ascii_of_nat (n + 32) else c.

(** [String.prototype.toLowerCase] on ASCII text. *)
Fixpoint toLowerCase (s : string) : string :=
  match s with
  | EmptyString => EmptyString
  | String c s' => String (lower_ascii c) (toLowerCase s')
  end.

(** [Math.min(x, y)]: NaN when an argument is; the negative zero is the
    lesser of the two zeros. *)
Definition Math_min (x y : float) : float :=
  if is_nan x || is_nan y then nan
  else if PrimFloat.ltb x y then x
  else if PrimFloat.ltb y x then y
  else if get_sign x then x else y.

(** [s.includes(search)]: [search] occurs in [s]. *)
Fixpoint includes (s search : string) : bool :=
  String.prefix search s
  || match s with
     | EmptyString => false
     | String _ s' => includes s' search
     end.

(** The line feed of a template literal. *)
Definition LF : string := String (ascii_of_nat 10) EmptyString.

End Js.

(** ** utils/mapUtils.ts *)

Module MapUtils.

Definition green : string := "#22c55e".
Definition red : string := "#ef4444".
Definition yellow : string := "#eab308".
Definition blue : string := "#3b82f6".
Definition gray : string := "#6b7280".

(** [getResourceStatusColor]: a [switch] on the lower-cased status. *)
Definition getResourceStatusColor (status : string) : string :=
  let s := Js.toLowerCase status in
  if String.eqb s "available" then green
  else if String.eqb s "deployed" then red
  else if String.eqb s "returning" then yellow
  else if String.eqb s "en route" then blue
  else gray.

(** The two numbers [formatETA] prints when it takes the hour branch:
    [Math.floor(minutes / 60)] and [Math.round(minutes % 60)]. *)
Definition eta_hours (minutes : float) : Js.num :=
  Js.Math_floor (Js.to_num (minutes / 60)%float).

Definition eta_mins (minutes : float) : Js.num :=
  Js.Math_round (Js.rem (Js.to_num minutes) (Js.Fin 60)).

(** [formatETA]. *)
Definition formatETA (minutes : float) : string :=
  if PrimFloat.ltb minutes 60 then
    Js.show (Js.Math_round (Js.to_num minutes)) ++ "m"
  else
    let hours := eta_hours minutes in
    let mins := eta_mins minutes in
    Js.show hours ++ "h " ++ Js.show mins ++ "m".

Definition orange : string := "#f97316".

(** [getSeverityColor] *)
Definition getSeverityColor (severity : float) : string :=
  if PrimFloat.leb 8 severity then red
  else if PrimFloat.leb 5 severity then orange
  else if PrimFloat.leb 3 severity then yellow
  else green.

(** [getSeverityLabel] *)
Definition getSeverityLabel (severity : float) : string :=
  if PrimFloat.leb 8 severity then "Critical"
  else if PrimFloat.leb 5 severity then "High"
  else if PrimFloat.leb 3 severity then "Medium"
  else "Low".

(** [shouldClusterResources] *)
Definition shouldClusterResources (zoomLevel : float) : bool :=
  PrimFloat.ltb zoomLevel 12.

(** [getMarkerSize] *)
Definition getMarkerSize (zoomLevel : float) : Z :=
  if PrimFloat.leb 13 zoomLevel then 40
  else if PrimFloat.leb 10 zoomLevel then 32
  else 24.

End MapUtils.

(** ** lib/api.ts: the data exchanged with the allocation engine *)

Module Location.
Record t := mk { lat : float; lng : float }.
End Location.

Module Resource.
Record t := mk {
  id : string;
  type : string;
  location : Location.t;
  capacity : Z;
  status : string;
  specialization : list string;
  speed_kmh : float
}.
End Resource.

Module DisasterZone.
Record t := mk {
  id : string;
  type : string;
  severity : Z;
  location : Location.t;
  affected_population : Z;
  vulnerability_score : float;
  required_resources : list (string * nat);
  status : option string
}.
End DisasterZone.

(** [zones.find(z => z.id === zoneId)] *)
Definition find_zone (zoneId : string) (zones : list DisasterZone.t)
  : option DisasterZone.t :=
  List.find (fun z => String.eqb (DisasterZone.id z) zoneId) zones.

Module Allocation.
Record t := mk {
  resource_id : string;
  zone_id : string;
  eta_minutes : float;
  distance_km : float;
  explanation : string
}.
End Allocation.

Module AllocationPlan.
Record t := mk {
  allocations : list Allocation.t;
  unallocated_resources : list string;
  unserved_zones : list string;
  total_score : float;
  computation_time_ms : float;
  ai_rationale : option string
}.
End AllocationPlan.

Module SafeArea.
Record t := mk {
  id : string;
  location : Location.t;
  capacity : Z;
  type : string
}.
End SafeArea.

(** The resource statuses, with the labels the front end shows and
    compares against (components/MapLegend.tsx, "Resource Status"). *)
Inductive ResourceStatus := Available | EnRoute | Deployed | Returning.

Definition status_label (s : ResourceStatus) : string :=
  match s with
  | Available => "Available"
  | Deployed => "Deployed"
  | EnRoute => "En Route"
  | Returning => "Returning"
  end.

(** The colour the legend of MapLegend.tsx pairs with each label. *)
Definition legend_color (s : ResourceStatus) : string :=
  match s with
  | Available => "#22c55e"
  | Deployed => "#ef4444"
  | EnRoute => "#3b82f6"
  | Returning => "#eab308"
  end.

(** utils/mapUtils.ts, [generateHeatmapData]: a point
    [[lat, lng, intensity]] for every zone. *)
Definition generateHeatmapData (zones : list DisasterZone.t)
  : list (float * float * float) :=
  List.map
    (fun zone =>
       let intensity :=
         (Js.of_Z (DisasterZone.severity zone) / 10
          * (Js.of_Z (DisasterZone.affected_population zone) / 10000))%float in
       (Location.lat (DisasterZone.location zone),
        Location.lng (DisasterZone.location zone),
        Js.Math_min intensity 1))
    zones.

(** utils/mapUtils.ts, [calculateRoutePoints]: the two ends and, between
    them, the midpoint moved by 0.05 degrees in both coordinates. *)
Definition calculateRoutePoints (from to : Location.t) : list (float * float) :=
  let midLat := ((Location.lat from + Location.lat to) / 2)%float in
  let midLng := ((Location.lng from + Location.lng to) / 2)%float in
  let offset := 0.05%float in
  let curveLat := (midLat + offset)%float in
  let curveLng := (midLng + offset)%float in
  [ (Location.lat from, Location.lng from);
    (curveLat, curveLng);
    (Location.lat to, Location.lng to) ].

(** ** components/MapLegend.tsx: the "Zone Severity" legend *)

Module MapLegend.

Record entry := mk_entry { label : string; severity : float; range : string }.

Definition zone_severity : list entry :=
  [ mk_entry "Critical" 9 "8-10";
    mk_entry "High" 6 "5-7";
    mk_entry "Medium" 4 "3-4";
    mk_entry "Low" 2 "1-2" ].

(** The colour of an entry's disc:
    [backgroundColor: getSeverityColor(severity)]. *)
Definition backgroundColor (e : entry) : string :=
  MapUtils.getSeverityColor (severity e).

End MapLegend.

(** ** components/Dashboard/Map.tsx: the colours of the markers *)

Module DisasterMap.

(** The two colours [createResourceIcon(status, type)] puts in the html
    of a resource marker: the disc and the status badge on it.  The
    glyph of the resource type is left out. *)
Record resource_colors := mk_colors { disc : string; status_badge : string }.

Definition createResourceIcon (status : string) : resource_colors :=
  mk_colors
    (MapUtils.getResourceStatusColor status)
    (if String.eqb status "Available" then "#22c55e"
     else if String.eqb status "Deployed" then "#ef4444"
     else "#eab308").

(** The colour of a zone marker: [createDisasterIcon(severity, type)]
    takes [getSeverityColor(severity)]. *)
Definition createDisasterIcon (severity : float) : string :=
  MapUtils.getSeverityColor severity.

(** The [fillColor] of the circle the heat-map overlay draws on a zone. *)
Definition heat_fillColor (severity : float) : string :=
  if PrimFloat.leb 8 severity then "#ef4444"
  else if PrimFloat.leb 5 severity then "#f97316"
  else "#eab308".

End DisasterMap.

(** ** components/ResourceSidebar.tsx: the proximity check of
       [handleAnalyzeSituation] *)

Module Sidebar.

Local Open Scope float_scope.

(** [Math.sqrt(Math.pow(r.lat - zone.lat, 2) + Math.pow(r.lng - zone.lng, 2)) * 111] *)
Definition dist (r zone : Location.t) : float :=
  PrimFloat.sqrt (Js.square (Location.lat r - Location.lat zone)
                  + Js.square (Location.lng r - Location.lng zone)) * 111.

(** [Array.prototype.sort((a, b) => a.dist - b.dist)]: stable; [x] goes
    before the first element it is strictly nearer than. *)
Fixpoint insert_by_dist (x : Resource.t * float) (l : list (Resource.t * float))
  : list (Resource.t * float) :=
  match l with
  | [] => [x]
  | y :: l' =>
      if PrimFloat.ltb (snd x - snd y) 0 then x :: y :: l'
      else y :: insert_by_dist x l'
  end.

Definition sort_by_dist (l : list (Resource.t * float)) : list (Resource.t * float) :=
  foldr insert_by_dist [] (reverse l).

(** [nearby]: every resource with its distance to the zone, those under
    200 km kept, nearest first. *)
Definition nearby (resources : list Resource.t) (zone : DisasterZone.t)
  : list (Resource.t * float) :=
  sort_by_dist
    (List.filter (fun p => PrimFloat.ltb (snd p) 200)
       (List.map (fun r => (r, dist (Resource.location r) (DisasterZone.location zone)))
          resources)).

(** The tolerance of the distance-symmetry property, in km. *)
Definition tolerance : float := 1e-6.

(** The line of a nearby resource in the briefing:
    [- ${r.type} (${r.status}) at ${r.dist.toFixed(0)}km]. *)
Definition nearby_line (p : Resource.t * float) : string :=
  "- " ++ Resource.type (fst p) ++ " (" ++ Resource.status (fst p) ++ ") at "
  ++ Js.toFixed (snd p) 0 ++ "km".

Definition assets_header : string :=
  Js.LF ++ "AVAILABLE ASSETS WITHIN 200KM:" ++ Js.LF.

Definition no_assets_warning : string :=
  Js.LF ++ "WARNING: NO ASSETS WITHIN 200KM RANGE.".

(** [contextMsg] and [nearbyResourcesContext], as [handleAnalyzeSituation]
    builds them from the props [resources], [zones] and [selectedZoneId]
    (an empty id counts as none). *)
Definition briefing (resources : list Resource.t) (zones : list DisasterZone.t)
    (selectedZoneId : option string) : string * string :=
  let overview :=
    ("OVERVIEW OF ACTIVE INCIDENTS:" ++ Js.LF
     ++ String.concat Js.LF
          (List.map
             (fun z => "- " ++ DisasterZone.type z ++ " (Sev "
                       ++ Js.show_int (DisasterZone.severity z) ++ ")")
             zones),
     Js.LF ++ "Fleet Status: "
     ++ Js.show_int
          (Z.of_nat (length (List.filter
                               (fun r => String.eqb (Resource.status r) "Available")
                               resources)))
     ++ " units available out of "
     ++ Js.show_int (Z.of_nat (length resources)) ++ ".") in
  match selectedZoneId with
  | Some zid =>
      if String.eqb zid "" then overview
      else
        match find_zone zid zones with
        | Some zone =>
            ("URGENT FOCUS: " ++ DisasterZone.type zone ++ " (Severity "
             ++ Js.show_int (DisasterZone.severity zone) ++ ") at ["
             ++ Js.toFixed (Location.lat (DisasterZone.location zone)) 2 ++ ", "
             ++ Js.toFixed (Location.lng (DisasterZone.location zone)) 2 ++ "].",
             let nearby := nearby resources zone in
             if (0 <? length nearby)%nat
             then assets_header ++ String.concat Js.LF (List.map nearby_line nearby)
             else no_assets_warning)
        | None => ("", "")
        end
  | None => overview
  end.

End Sidebar.

(** The great-circle distance the design document asks for, to compare
    the sidebar's distance with. *)
Module GreatCircle.

Local Open Scope R_scope.

Definition earth_radius_km : R := 6371.

(** The real number a finite double stands for (0 otherwise). *)
Definition real (x : float) : R :=
  match Js.to_num x with
  | Js.Fin q => Q2R q
  | _ => 0
  end.

Definition radians (deg : R) : R := deg * PI / 180.

(** Modelled from the spec: [distance(a, b)] of section 4.1, the
    haversine formula on a sphere of radius 6371 km, over the reals, on
    the exact values of the coordinates in degrees. *)
Definition haversine (a b : Location.t) : R :=
  let phi1 := radians (real (Location.lat a)) in
  let phi2 := radians (real (Location.lat b)) in
  let dphi := radians (real (Location.lat b) - real (Location.lat a)) in
  let dlambda := radians (real (Location.lng b) - real (Location.lng a)) in
  let h := pow (sin (dphi / 2)) 2 + cos phi1 * cos phi2 * pow (sin (dlambda / 2)) 2 in
  2 * earth_radius_km * asin (R_sqrt.sqrt h).

End GreatCircle.

(** ** components/Dashboard/WeatherWidget.tsx: the weather cache *)

(** What [JSON.parse] can return. *)
Module Json.

#[local] Set Warnings "-register-all".

Inductive value :=
| Null
| Bool (b : bool)
| Num (x : float)
| Str (s : string)
| Arr (items : list value)
| Obj (fields : list (string * value)).

Fixpoint assoc (k : string) (fields : list (string * value)) : option value :=
  match fields with
  | [] => None
  | (k', v) :: rest => if String.eqb k k' then Some v else assoc k rest
  end.

(** [v.k] for one of the keys [city], [timestamp], [data].  The outer
    [None] is the TypeError of reading a property of [null]; the inner
    [None] is [undefined]. *)
Definition prop (v : value) (k : string) : option (option value) :=
  match v with
  | Null => None
  | Obj fields => Some (assoc k fields)
  | _ => Some None
  end.

(** [x === s] for a string [s]. *)
Definition strict_eq_string (x : option value) (s : string) : bool :=
  match x with
  | Some (Str s') => String.eqb s' s
  | _ => false
  end.

End Json.

Module WeatherWidget.

Definition CACHE_KEY : string := "weather_cache".

(** [5 * 60 * 1000] milliseconds. *)
Definition CACHE_DURATION : float := (5 * 60 * 1000)%float.

(** What one call of [getCachedWeather] does: the value it returns
    ([None] is [undefined], [Some Json.Null] is [null]), the timestamp it
    hands to [setLastUpdated] if it does, and whether it logged through
    [console.error]. *)
Record outcome := mk_outcome {
  returned : option Json.value;
  lastUpdated : option (option Json.value);
  logged : bool
}.

Definition miss : outcome := mk_outcome (Some Json.Null) None false.
Definition caught : outcome := mk_outcome (Some Json.Null) None true.
Definition hit (data timestamp : option Json.value) : outcome :=
  mk_outcome data (Some timestamp) false.

Section Cache.

(** The library functions, left abstract: [JSON.parse] ([None] when it
    throws), the number a string converts to and the string an array or
    object converts to. *)
Variable JSON_parse : string -> option Json.value.
Variable StringToNumber : string -> float.
Variable ToPrimitiveString : Json.value -> string.

(** The number an operand of [-] converts to. *)
Definition ToNumber (x : option Json.value) : float :=
  match x with
  | None => PrimFloat.nan
  | Some Json.Null => 0%float
  | Some (Json.Bool b) => if b then 1%float else 0%float
  | Some (Json.Num n) => n
  | Some (Json.Str s) => StringToNumber s
  | Some v => StringToNumber (ToPrimitiveString v)
  end.

(** [now - timestamp < CACHE_DURATION] *)
Definition fresh (now : float) (timestamp : option Json.value) : bool :=
  PrimFloat.ltb (now - ToNumber timestamp)%float CACHE_DURATION.

(** [getCachedWeather], reading [localStorage], the selected [city] and
    [Date.now()]. *)
Definition getCachedWeather (localStorage : gmap string string)
    (city : string) (now : float) : outcome :=
  match localStorage !! CACHE_KEY with
  | Some cached =>
      if String.eqb cached "" then miss
      else
        match JSON_parse cached with
        | None => caught
        | Some parsedCache =>
            match Json.prop parsedCache "city" with
            | None => caught
            | Some c =>
                if Json.strict_eq_string c city then
                  match Json.prop parsedCache "timestamp" with
                  | Some ts =>
                      if fresh now ts then
                        match Json.prop parsedCache "data" with
                        | Some d => hit d ts
                        | None => caught
                        end
                      else miss
                  | None => caught
                  end
                else miss
            end
        end
  | None => miss
  end.

(** [if (x)]: [undefined], [null], [false], zeros, NaN and the empty
    string are falsy. *)
Definition truthy (x : option Json.value) : bool :=
  match x with
  | None | Some Json.Null => false
  | Some (Json.Bool b) => b
  | Some (Json.Num n) => negb (PrimFloat.eqb n 0 || is_nan n)
  | Some (Json.Str s) => negb (String.eqb s "")
  | Some _ => true
  end.

(** The weather service behind [fetchWeather] ([None] when the request
    fails) and [JSON.stringify]. *)
Variable fetchWeather : string -> option Json.value.
Variable JSON_stringify : Json.value -> string.

(** [setCachedWeather(data)], writing at [Date.now() = now]. *)
Definition setCachedWeather (localStorage : gmap string string)
    (city : string) (now : float) (data : Json.value) : gmap string string :=
  <[CACHE_KEY :=
      JSON_stringify
        (Json.Obj [("data", data); ("timestamp", Json.Num now); ("city", Json.Str city)])]>
    localStorage.

(** The state of the widget that [loadWeather] sets. *)
Record widget := mk_widget {
  weather : option Json.value;
  loading : bool;
  error : option string;
  lastUpdatedAt : option (option Json.value)
}.

(** What one call of [loadWeather] leaves: the storage, the widget and
    the cities it asked the weather service for. *)
Record loaded := mk_loaded {
  storage : gmap string string;
  shown : widget;
  fetched : list string
}.

(** [loadWeather]: the cache first, then the service in every case.
    [now] is the time of the cache lookup, [later] the time the answer
    of the service arrives. *)
Definition loadWeather (localStorage : gmap string string) (w : widget)
    (city : string) (now later : float) : loaded :=
  let cached := getCachedWeather localStorage city now in
  let cachedData := returned cached in
  let seen := match lastUpdated cached with Some ts => Some ts | None => lastUpdatedAt w end in
  let w1 :=
    if truthy cachedData then mk_widget cachedData false None seen
    else mk_widget (weather w) true (error w) seen in
  match fetchWeather city with
  | Some data =>
      mk_loaded (setCachedWeather localStorage city later data)
        (mk_widget (Some data) false None (Some (Some (Json.Num later))))
        [city]
  | None =>
      mk_loaded localStorage
        (mk_widget (if truthy cachedData then weather w1 else Some Json.Null)
           false (Some "Failed to fetch weather data") (lastUpdatedAt w1))
        [city]
  end.

(** The stored entry is one [getCachedWeather] serves: it parses, its
    city is the selected one and its timestamp is less than
    [CACHE_DURATION] before [now]. *)
Definition served (localStorage : gmap string string) (city : string)
    (now : float) (entry : Json.value) (ts : option Json.value) : Prop :=
  exists cached,
    localStorage !! CACHE_KEY = Some cached
    /\ JSON_parse cached = Some entry
    /\ Json.prop entry "city" = Some (Some (Json.Str city))
    /\ Json.prop entry "timestamp" = Some ts
    /\ fresh now ts = true.

End Cache.

(** The icon [getWeatherIcon] draws for a weather condition. *)
Inductive icon := CloudRain | Cloud | CloudSnow | Sun.

Definition getWeatherIcon (condition : string) : icon :=
  let cond := Js.toLowerCase condition in
  if Js.includes cond "rain" || Js.includes cond "storm" then CloudRain
  else if Js.includes cond "cloud" then Cloud
  else if Js.includes cond "snow" then CloudSnow
  else Sun.

End WeatherWidget.

(** ** The allocation engine behind the HTTP API

    The engine itself (planner, registry, dispatch, reinforcement) is
    served by the back end.  The front end only holds its callers in
    lib/api.ts, so the operations below follow the design document. *)

Module ResourceCreate.
Record t := mk {
  type : string;
  location : Location.t;
  capacity : Z;
  specialization : option (list string)
}.
End ResourceCreate.

Module DisasterCreate.
Record t := mk {
  type : string;
  location : Location.t;
  severity : string
}.
End DisasterCreate.

(** The registry of resources and zones, keyed by id. *)
Module Registry.
Record t := mk {
  resources : gmap string Resource.t;
  zones : gmap string DisasterZone.t
}.
End Registry.

(** The summary [dispatch] reports. *)
Module DispatchResult.
Record t := mk {
  status : string;
  message : string;
  committed_count : nat;
  dropped_count : nat
}.
End DispatchResult.

(** The requests of lib/api.ts that reach the engine. *)
Inductive ApiCall :=
| GetSimulationData
| GetSafeAreas
| PostAllocate (resources : list Resource.t) (zones : list DisasterZone.t)
| PostDispatch (plan : AllocationPlan.t)
| PostReinforce (zone_ids : list string)
| PostResource (data : ResourceCreate.t)
| DeleteResource (resourceId : string)
| PostDisaster (data : DisasterCreate.t)
| DeleteDisaster (zoneId : string)
| PostBulkDelete (resource_ids : list string).

(** What a request resolves to; [Rejected] is the error axios throws. *)
Inductive Response :=
| SimulationData (resources : list Resource.t) (zones : list DisasterZone.t)
| SafeAreas (areas : list SafeArea.t)
| Plan (plan : AllocationPlan.t)
| Dispatched (result : DispatchResult.t)
| Reinforced (message : string) (added_count : nat)
| CreatedResource (resource : Resource.t)
| CreatedZone (message : string) (zone : DisasterZone.t)
| Message (message : string)
| BulkDeleted (message : string) (deleted_count : nat)
| Rejected.

(** The requests that ask the engine to change the registry. *)
Definition is_mutation (c : ApiCall) : bool :=
  match c with
  | GetSimulationData | GetSafeAreas | PostAllocate _ _ => false
  | _ => true
  end.

Module Backend.

(** What the design document leaves to policy or to collaborators. *)
Record config := mk_config {
  (** the great-circle distance in km between two coordinates *)
  distance : Location.t -> Location.t -> float;
  (** the ETA ceiling in minutes, if any (none by default) *)
  max_eta : option float;
  (** how a distance is printed in an explanation *)
  show_km : float -> string;
  (** what an explanation adds when the ETA exceeds 180 minutes *)
  eta_flag : string;
  (** the measured duration of a planning pass *)
  clock_ms : float;
  (** the rationale generator; [None] when it fails or times out *)
  summarize : list Allocation.t -> option string;
  (** the resources a reinforcement manufactures for the given zones *)
  synthesize : Registry.t -> list string -> list Resource.t;
  (** the entity a create request adds *)
  new_resource : Registry.t -> ResourceCreate.t -> Resource.t;
  new_zone : Registry.t -> DisasterCreate.t -> DisasterZone.t;
  safe_areas : list SafeArea.t;
  (** the texts of the replies; those of a dispatch may depend on the
      numbers of committed and dropped allocations *)
  dispatch_status : nat -> nat -> string;
  dispatch_message : nat -> nat -> string;
  reply_message : ApiCall -> string
}.

Section Engine.

Variable cfg : config.

(** *** Modelled from the spec: 4.1, the ETA in minutes *)

(** Modelled from the spec: [eta(distance_km, speed_kmh)]; a speed of
    zero is an [InvalidResourceConfig] error, here [None]. *)
Definition eta (distance_km speed_kmh : float) : option float :=
  if PrimFloat.eqb speed_kmh 0 then None
  else Some (distance_km / speed_kmh * 60)%float.

(** *** Modelled from the spec: 4.3, the planner *)

(** Modelled from the spec: a resource with zero or negative speed or
    capacity is malformed and takes no part in planning. *)
Definition well_formed (r : Resource.t) : bool :=
  PrimFloat.ltb 0 (Resource.speed_kmh r) && (0 <? Resource.capacity r)%Z.

(** Modelled from the spec: step 1, the pool of a planning pass. *)
Definition is_available (r : Resource.t) : bool :=
  String.eqb (Resource.status r) (status_label Available).

Definition initial_pool (resources : list Resource.t) : list Resource.t :=
  List.filter (fun r => is_available r && well_formed r) resources.

(** Modelled from the spec: the non-fatal warning list of a pass. *)
Definition warnings (resources : list Resource.t) : list string :=
  List.map Resource.id
    (List.filter (fun r => is_available r && negb (well_formed r)) resources).

(** Modelled from the spec: step 2, [a] is planned strictly before [b]:
    higher severity, then larger population, then smaller id. *)
Definition zone_before (a b : DisasterZone.t) : bool :=
  if (DisasterZone.severity b <? DisasterZone.severity a)%Z then true
  else if (DisasterZone.severity a <? DisasterZone.severity b)%Z then false
  else if (DisasterZone.affected_population b <? DisasterZone.affected_population a)%Z then true
  else if (DisasterZone.affected_population a <? DisasterZone.affected_population b)%Z then false
  else String.ltb (DisasterZone.id a) (DisasterZone.id b).

Fixpoint insert_zone (z : DisasterZone.t) (l : list DisasterZone.t)
  : list DisasterZone.t :=
  match l with
  | [] => [z]
  | y :: l' => if zone_before z y then z :: y :: l' else y :: insert_zone z l'
  end.

Definition sort_zones (zones : list DisasterZone.t) : list DisasterZone.t :=
  foldr insert_zone [] (reverse zones).

(** Modelled from the spec: step 3a, a resource serves a required type
    when its type is that type or its specialization lists it. *)
Definition compatible (r : Resource.t) (required : string) : bool :=
  String.eqb (Resource.type r) required
  || existsb (String.eqb required) (Resource.specialization r).

(** Modelled from the spec: step 3b, [a] is chosen over [b]: nearer to
    the zone, the smaller id on a tie. *)
Definition closer (z : DisasterZone.t) (a b : Resource.t) : bool :=
  let da := distance cfg (Resource.location a) (DisasterZone.location z) in
  let db := distance cfg (Resource.location b) (DisasterZone.location z) in
  if PrimFloat.ltb da db then true
  else if PrimFloat.ltb db da then false
  else String.ltb (Resource.id a) (Resource.id b).

Fixpoint nearest (z : DisasterZone.t) (required : string)
    (pool : list Resource.t) : option Resource.t :=
  match pool with
  | [] => None
  | r :: rest =>
      let best := nearest z required rest in
      if compatible r required then
        match best with
        | Some b => if closer z b r then Some b else Some r
        | None => Some r
        end
      else best
  end.

(** Modelled from the spec: step 3d, the chosen resource leaves the pool. *)
Fixpoint take_out (rid : string) (pool : list Resource.t) : list Resource.t :=
  match pool with
  | [] => []
  | r :: rest =>
      if String.eqb (Resource.id r) rid then rest else r :: take_out rid rest
  end.

Definition over_ceiling (eta_minutes : float) : bool :=
  match max_eta cfg with
  | Some ceiling => PrimFloat.ltb ceiling eta_minutes
  | None => false
  end.

(** Modelled from the spec: step 3d, the allocation of [r] to [z]; the
    explanation carries [Proximity: <distance>km]. *)
Definition allocate (r : Resource.t) (z : DisasterZone.t) (eta_minutes : float)
  : Allocation.t :=
  let d := distance cfg (Resource.location r) (DisasterZone.location z) in
  Allocation.mk (Resource.id r) (DisasterZone.id z) eta_minutes d
    ("Proximity: " ++ show_km cfg d ++ "km"
     ++ (if PrimFloat.ltb 180 eta_minutes then eta_flag cfg else "")).

(** Modelled from the spec: step 3, the [n] slots of one required type
    of one zone; returns the allocations, the pool left and the number
    of slots left unmet. *)
Fixpoint fill_slots (z : DisasterZone.t) (required : string) (n : nat)
    (pool : list Resource.t) : list Allocation.t * list Resource.t * nat :=
  match n with
  | O => ([], pool, O)
  | S n' =>
      match nearest z required pool with
      | None => ([], pool, n)
      | Some r =>
          match eta (distance cfg (Resource.location r) (DisasterZone.location z))
                    (Resource.speed_kmh r) with
          | None => ([], pool, n)
          | Some e =>
              if over_ceiling e then
                let '(al, pool', unmet) := fill_slots z required n' pool in
                (al, pool', S unmet)
              else
                let '(al, pool', unmet) :=
                  fill_slots z required n' (take_out (Resource.id r) pool) in
                (allocate r z e :: al, pool', unmet)
          end
      end
  end.

(** Modelled from the spec: step 3, every required type of one zone. *)
Fixpoint fill_zone (z : DisasterZone.t) (reqs : list (string * nat))
    (pool : list Resource.t) : list Allocation.t * list Resource.t * nat :=
  match reqs with
  | [] => ([], pool, O)
  | (required, n) :: rest =>
      let '(al1, pool1, unmet1) := fill_slots z required n pool in
      let '(al2, pool2, unmet2) := fill_zone z rest pool1 in
      ((al1 ++ al2)%list, pool2, (unmet1 + unmet2)%nat)
  end.

Definition required_total (z : DisasterZone.t) : nat :=
  foldr (fun p acc => (snd p + acc)%nat) O (DisasterZone.required_resources z).

(** Modelled from the spec: step 5, what one zone adds to the score. *)
Definition zone_score (z : DisasterZone.t) (assigned unmet : nat) : float :=
  if (unmet =? 0)%nat then
    (Js.of_Z (DisasterZone.severity z)
     * (Js.of_Z (Z.of_nat assigned) / Js.of_Z (Z.of_nat (required_total z))))%float
  else (- (Js.of_Z (DisasterZone.severity z) * 2))%float.

(** Modelled from the spec: steps 3 to 5 over the zones in priority
    order; returns the allocations, the pool left, the unserved zones
    and the score. *)
Fixpoint plan_zones (zones : list DisasterZone.t) (pool : list Resource.t)
  : list Allocation.t * list Resource.t * list string * float :=
  match zones with
  | [] => ([], pool, [], 0%float)
  | z :: rest =>
      let '(al1, pool1, unmet) :=
        fill_zone z (DisasterZone.required_resources z) pool in
      let '(al2, pool2, unserved, score) := plan_zones rest pool1 in
      ((al1 ++ al2)%list, pool2,
       (if (unmet =? 0)%nat then unserved else DisasterZone.id z :: unserved),
       (zone_score z (length al1) unmet + score)%float)
  end.

Definition allocated (al : list Allocation.t) (rid : string) : bool :=
  existsb (fun a => String.eqb (Allocation.resource_id a) rid) al.

(** Modelled from the spec: [plan(resources, zones)]. *)
Definition plan (resources : list Resource.t) (zones : list DisasterZone.t)
  : AllocationPlan.t :=
  let '(al, _, unserved, score) :=
    plan_zones (sort_zones zones) (initial_pool resources) in
  AllocationPlan.mk al
    (List.map Resource.id
       (List.filter (fun r => negb (allocated al (Resource.id r))) resources))
    unserved score (clock_ms cfg) (summarize cfg al).

(** *** Modelled from the spec: 4.2, the registry *)

(** Modelled from the spec: [createResource] and [createZone]. *)
Definition createResource (r : Resource.t) (reg : Registry.t) : Registry.t :=
  Registry.mk (<[Resource.id r := r]> (Registry.resources reg)) (Registry.zones reg).

Definition createZone (z : DisasterZone.t) (reg : Registry.t) : Registry.t :=
  Registry.mk (Registry.resources reg) (<[DisasterZone.id z := z]> (Registry.zones reg)).

(** Modelled from the spec: [deleteResource(id)] and [deleteZone(id)];
    [None] is the [EntityNotFound] error. *)
Definition deleteResource (rid : string) (reg : Registry.t) : option Registry.t :=
  match Registry.resources reg !! rid with
  | Some _ => Some (Registry.mk (delete rid (Registry.resources reg)) (Registry.zones reg))
  | None => None
  end.

Definition deleteZone (zid : string) (reg : Registry.t) : option Registry.t :=
  match Registry.zones reg !! zid with
  | Some _ => Some (Registry.mk (Registry.resources reg) (delete zid (Registry.zones reg)))
  | None => None
  end.

(** Modelled from the spec: [bulkDeleteResources(ids)]; a missing id
    does not stop the batch.  Returns the number of resources deleted. *)
Fixpoint bulkDeleteResources (ids : list string) (reg : Registry.t)
  : Registry.t * nat :=
  match ids with
  | [] => (reg, O)
  | rid :: rest =>
      match deleteResource rid reg with
      | Some reg' =>
          let '(reg'', n) := bulkDeleteResources rest reg' in (reg'', S n)
      | None => bulkDeleteResources rest reg
      end
  end.

(** Modelled from the spec: [snapshot()]. *)
Definition snapshot (reg : Registry.t) : list Resource.t * list DisasterZone.t :=
  (List.map snd (map_to_list (Registry.resources reg)),
   List.map snd (map_to_list (Registry.zones reg))).

(** *** Modelled from the spec: 4.4, the dispatch coordinator *)

Definition set_resource_status (s : ResourceStatus) (r : Resource.t) : Resource.t :=
  Resource.mk (Resource.id r) (Resource.type r) (Resource.location r)
    (Resource.capacity r) (status_label s) (Resource.specialization r)
    (Resource.speed_kmh r).

Definition set_zone_status (s : string) (z : DisasterZone.t) : DisasterZone.t :=
  DisasterZone.mk (DisasterZone.id z) (DisasterZone.type z) (DisasterZone.severity z)
    (DisasterZone.location z) (DisasterZone.affected_population z)
    (DisasterZone.vulnerability_score z) (DisasterZone.required_resources z)
    (Some s).

(** Modelled from the spec: the revalidation at commit time: the
    resource of the allocation still exists and is still available. *)
Definition still_valid (reg : Registry.t) (a : Allocation.t) : bool :=
  match Registry.resources reg !! Allocation.resource_id a with
  | Some r => is_available r
  | None => false
  end.

(** Modelled from the spec: a surviving allocation sends its resource
    en route and marks its zone as being processed. *)
Definition commit (a : Allocation.t) (reg : Registry.t) : Registry.t :=
  Registry.mk
    (alter (set_resource_status EnRoute) (Allocation.resource_id a) (Registry.resources reg))
    (alter (set_zone_status "Processing") (Allocation.zone_id a) (Registry.zones reg)).

(** Modelled from the spec: the allocations of a plan, one after the
    other; returns the registry, the committed and the dropped ones. *)
Fixpoint dispatch_all (al : list Allocation.t) (reg : Registry.t)
  : Registry.t * list Allocation.t * list Allocation.t :=
  match al with
  | [] => (reg, [], [])
  | a :: rest =>
      if still_valid reg a then
        let '(reg', committed, dropped) := dispatch_all rest (commit a reg) in
        (reg', a :: committed, dropped)
      else
        let '(reg', committed, dropped) := dispatch_all rest reg in
        (reg', committed, a :: dropped)
  end.

(** Modelled from the spec: [dispatch(plan)]. *)
Definition dispatch (p : AllocationPlan.t) (reg : Registry.t)
  : Registry.t * DispatchResult.t :=
  let '(reg', committed, dropped) := dispatch_all (AllocationPlan.allocations p) reg in
  (reg',
   DispatchResult.mk
     (dispatch_status cfg (length committed) (length dropped))
     (dispatch_message cfg (length committed) (length dropped))
     (length committed) (length dropped)).

(** *** Modelled from the spec: 4.5, the reinforcement handler *)

(** Modelled from the spec: [reinforce(zoneIds)] inserts the new
    resources, all available, and reports how many; it plans nothing. *)
Definition reinforce (zone_ids : list string) (reg : Registry.t)
  : Registry.t * nat :=
  let added := List.map (set_resource_status Available) (synthesize cfg reg zone_ids) in
  (foldr createResource reg added, length added).

(** *** Modelled from the spec: 6, the operations behind the requests *)

(** Modelled from the spec: how the engine answers one request and what
    it leaves in the registry.  A missing id rejects the request. *)
Definition serve (c : ApiCall) (reg : Registry.t) : Registry.t * Response :=
  match c with
  | GetSimulationData =>
      let '(rs, zs) := snapshot reg in (reg, SimulationData rs zs)
  | GetSafeAreas => (reg, SafeAreas (safe_areas cfg))
  | PostAllocate rs zs => (reg, Plan (plan rs zs))
  | PostDispatch p =>
      let '(reg', result) := dispatch p reg in (reg', Dispatched result)
  | PostReinforce zone_ids =>
      let '(reg', n) := reinforce zone_ids reg in
      (reg', Reinforced (reply_message cfg c) n)
  | PostResource data =>
      let r := new_resource cfg reg data in
      (createResource r reg, CreatedResource r)
  | DeleteResource rid =>
      match deleteResource rid reg with
      | Some reg' => (reg', Message (reply_message cfg c))
      | None => (reg, Rejected)
      end
  | PostDisaster data =>
      let z := new_zone cfg reg data in
      (createZone z reg, CreatedZone (reply_message cfg c) z)
  | DeleteDisaster zid =>
      match deleteZone zid reg with
      | Some reg' => (reg', Message (reply_message cfg c))
      | None => (reg, Rejected)
      end
  | PostBulkDelete ids =>
      let '(reg', n) := bulkDeleteResources ids reg in
      (reg', BulkDeleted (reply_message cfg c) n)
  end.

End Engine.

End Backend.

(** ** lib/api.ts: the client of the engine *)

Module Api.

(** The engine's registry and the requests sent to it so far. *)
Definition world : Type := Registry.t * list ApiCall.

(** An [async] handler of a page with state [S]: it reads and sets the
    page state, sends requests, and resolves ([Some]) or throws ([None]). *)
Definition Client (S A : Type) : Type := S -> world -> option A * S * world.

Definition ret {S A} (a : A) : Client S A := fun s w => (Some a, s, w).

Definition bind {S A B} (m : Client S A) (k : A -> Client S B) : Client S B :=
  fun s w =>
    match m s w with
    | (Some a, s', w') => k a s' w'
    | (None, s', w') => (None, s', w')
    end.

(** [try { m } catch { h }] *)
Definition try_catch {S A} (m h : Client S A) : Client S A :=
  fun s w =>
    match m s w with
    | (None, s', w') => h s' w'
    | r => r
    end.

(** [try { m } finally { f }] *)
Definition finally {S A} (m : Client S A) (f : Client S unit) : Client S A :=
  fun s w =>
    let '(r, s', w') := m s w in
    let '(_, s'', w'') := f s' w' in
    (r, s'', w'').

Definition get {S} : Client S S := fun s w => (Some s, s, w).

Definition modify {S} (f : S -> S) : Client S unit := fun s w => (Some tt, f s, w).

(** [Promise.all]: every request is sent; one rejection rejects the whole. *)
Fixpoint all {S A} (ms : list (Client S A)) : Client S (list A) :=
  match ms with
  | [] => ret []
  | m :: rest =>
      fun s w =>
        let '(r, s', w') := m s w in
        let '(rs, s'', w'') := all rest s' w' in
        (match r, rs with
         | Some a, Some l => Some (a :: l)
         | _, _ => None
         end, s'', w'')
  end.

Declare Scope client_scope.
Delimit Scope client_scope with client.
Notation "x <- m ;; k" := (bind m (fun x => k))
  (at level 100, m at next level, right associativity) : client_scope.
Notation "m ;;; k" := (bind m (fun _ => k))
  (at level 100, right associativity) : client_scope.

(** The reply of [POST /resources/dispatch] as lib/api.ts types it. *)
Record DispatchReply := mk_reply { status : string; message : string }.

Section Requests.

Variable cfg : Backend.config.
Context {S : Type}.

Local Open Scope client_scope.

(** One axios request: the engine serves it; a rejection throws. *)
Definition request (c : ApiCall) : Client S Response :=
  fun s '(reg, sent) =>
    let '(reg', resp) := Backend.serve cfg c reg in
    (match resp with Rejected => None | _ => Some resp end,
     s, (reg', (sent ++ [c])%list)).

Definition throw {A} : Client S A := fun s w => (None, s, w).

Definition fetchSimulationData : Client S (list Resource.t * list DisasterZone.t) :=
  r <- request GetSimulationData ;;
  match r with SimulationData rs zs => ret (rs, zs) | _ => throw end.

Definition fetchSafeAreas : Client S (list SafeArea.t) :=
  r <- request GetSafeAreas ;;
  match r with SafeAreas areas => ret areas | _ => throw end.

Definition allocateResources (resources : list Resource.t)
    (zones : list DisasterZone.t) : Client S AllocationPlan.t :=
  r <- request (PostAllocate resources zones) ;;
  match r with Plan p => ret p | _ => throw end.

Definition dispatchResources (plan : AllocationPlan.t) : Client S DispatchReply :=
  r <- request (PostDispatch plan) ;;
  match r with
  | Dispatched result =>
      ret (mk_reply (DispatchResult.status result) (DispatchResult.message result))
  | _ => throw
  end.

Definition requestReinforcements (zoneIds : list string) : Client S (string * nat) :=
  r <- request (PostReinforce zoneIds) ;;
  match r with Reinforced msg n => ret (msg, n) | _ => throw end.

Definition deleteResource (resourceId : string) : Client S string :=
  r <- request (DeleteResource resourceId) ;;
  match r with Message msg => ret msg | _ => throw end.

Definition deleteDisaster (zoneId : string) : Client S string :=
  r <- request (DeleteDisaster zoneId) ;;
  match r with Message msg => ret msg | _ => throw end.

Definition deleteResourcesBulk (resourceIds : list string) : Client S (string * nat) :=
  r <- request (PostBulkDelete resourceIds) ;;
  match r with BulkDeleted msg n => ret (msg, n) | _ => throw end.

End Requests.

End Api.

(** ** pages/Simulation.tsx *)

Module Simulation.

(** The state of [SimulationPage] that its engine handlers use. *)
Record state := mk_state {
  resources : list Resource.t;
  zones : list DisasterZone.t;
  safeAreas : list SafeArea.t;
  allocationPlan : option AllocationPlan.t;
  loading : bool;
  message : option string;
  error : option string
}.

Definition setResources v (s : state) : state :=
  mk_state v (zones s) (safeAreas s) (allocationPlan s) (loading s) (message s) (error s).
Definition setZones v (s : state) : state :=
  mk_state (resources s) v (safeAreas s) (allocationPlan s) (loading s) (message s) (error s).
Definition setSafeAreas v (s : state) : state :=
  mk_state (resources s) (zones s) v (allocationPlan s) (loading s) (message s) (error s).
Definition setAllocationPlan v (s : state) : state :=
  mk_state (resources s) (zones s) (safeAreas s) v (loading s) (message s) (error s).
Definition setLoading v (s : state) : state :=
  mk_state (resources s) (zones s) (safeAreas s) (allocationPlan s) v (message s) (error s).
Definition setMessage v (s : state) : state :=
  mk_state (resources s) (zones s) (safeAreas s) (allocationPlan s) (loading s) v (error s).
Definition setError v (s : state) : state :=
  mk_state (resources s) (zones s) (safeAreas s) (allocationPlan s) (loading s) (message s) v.

(** [prev => ({ ...prev, allocations: prev.allocations.filter(a => a.zone_id !== zoneId) })] *)
Definition without_zone (zoneId : string) (p : AllocationPlan.t) : AllocationPlan.t :=
  AllocationPlan.mk
    (List.filter (fun a => negb (String.eqb (Allocation.zone_id a) zoneId))
       (AllocationPlan.allocations p))
    (AllocationPlan.unallocated_resources p) (AllocationPlan.unserved_zones p)
    (AllocationPlan.total_score p) (AllocationPlan.computation_time_ms p)
    (AllocationPlan.ai_rationale p).

Section Handlers.

Variable cfg : Backend.config.

Import Api.
Local Open Scope client_scope.

Definition loadData : Client state unit :=
  try_catch
    (simData <- fetchSimulationData cfg ;;
     modify (setResources (fst simData)) ;;;
     modify (setZones (snd simData)) ;;;
     safeData <- fetchSafeAreas cfg ;;
     modify (setSafeAreas safeData))
    (ret tt).

Definition handleAllocate : Client state unit :=
  st <- get ;;
  modify (setLoading true) ;;;
  finally
    (try_catch
       (plan <- allocateResources cfg (resources st) (zones st) ;;
        modify (setAllocationPlan (Some plan)) ;;;
        modify (setMessage (Some ("Allocation Plan Generated! Score: "
                                  ++ Js.toFixed (AllocationPlan.total_score plan) 2))))
       (modify (setError (Some "Failed to generate allocation plan."))))
    (modify (setLoading false)).

Definition handleDispatch : Client state unit :=
  st <- get ;;
  match allocationPlan st with
  | None => ret tt
  | Some plan =>
      modify (setLoading true) ;;;
      finally
        (try_catch
           (dispatchResources cfg plan ;;;
            modify (setMessage (Some "Resources Dispatched Successfully (Simulation)!")) ;;;
            modify (setAllocationPlan None))
           (modify (setError (Some "Failed to dispatch resources."))))
        (modify (setLoading false))
  end.

(** [handleDeleteZone]: "1. Delete ALL resources (not just allocated
    ones)", "2. Delete Zone", "3. Update UI". *)
Definition handleDeleteZone (zoneId : string) : Client state unit :=
  st <- get ;;
  match find_zone zoneId (zones st) with
  | None => ret tt
  | Some zone =>
      modify (setLoading true) ;;;
      finally
        (try_catch
           (all (List.map (fun res => deleteResource cfg (Resource.id res)) (resources st)) ;;;
            deleteDisaster cfg zoneId ;;;
            match allocationPlan st with
            | Some _ =>
                modify (fun prev =>
                  setAllocationPlan (option_map (without_zone zoneId) (allocationPlan prev)) prev)
            | None => ret tt
            end ;;;
            modify (setMessage (Some ("✅ Disaster zone and "
                                      ++ Js.show_int (Z.of_nat (length (resources st)))
                                      ++ " resources removed."))) ;;;
            loadData)
           (modify (setError (Some "Failed to remove disaster data."))))
        (modify (setLoading false))
  end.

(** The "Discard" button: [onClick={() => setAllocationPlan(null)}]. *)
Definition discard : Client state unit :=
  modify (setAllocationPlan None).

End Handlers.

End Simulation.

(** ** pages/OperationOffice.tsx *)

Module OperationOffice.

Record state := mk_state {
  resources : list Resource.t;
  zones : list DisasterZone.t;
  safeAreas : list SafeArea.t;
  allocationPlan : option AllocationPlan.t;
  loading : bool;
  dispatchStatus : option string;
  selectedZoneId : option string
}.

Definition setResources v (s : state) : state :=
  mk_state v (zones s) (safeAreas s) (allocationPlan s) (loading s) (dispatchStatus s) (selectedZoneId s).
Definition setZones v (s : state) : state :=
  mk_state (resources s) v (safeAreas s) (allocationPlan s) (loading s) (dispatchStatus s) (selectedZoneId s).
Definition setSafeAreas v (s : state) : state :=
  mk_state (resources s) (zones s) v (allocationPlan s) (loading s) (dispatchStatus s) (selectedZoneId s).
Definition setAllocationPlan v (s : state) : state :=
  mk_state (resources s) (zones s) (safeAreas s) v (loading s) (dispatchStatus s) (selectedZoneId s).
Definition setLoading v (s : state) : state :=
  mk_state (resources s) (zones s) (safeAreas s) (allocationPlan s) v (dispatchStatus s) (selectedZoneId s).
Definition setDispatchStatus v (s : state) : state :=
  mk_state (resources s) (zones s) (safeAreas s) (allocationPlan s) (loading s) v (selectedZoneId s).

(** [selectedZoneId ? zones.filter(z => z.id === selectedZoneId) : zones];
    the empty string is falsy. *)
Definition filteredZones (s : state) : list DisasterZone.t :=
  match selectedZoneId s with
  | Some zid =>
      if String.eqb zid "" then zones s
      else List.filter (fun z => String.eqb (DisasterZone.id z) zid) (zones s)
  | None => zones s
  end.

Section Handlers.

Variable cfg : Backend.config.

Import Api.
Local Open Scope client_scope.

Definition loadSimulationData : Client state unit :=
  modify (setLoading true) ;;;
  try_catch
    (data <- fetchSimulationData cfg ;;
     modify (setResources (fst data)) ;;;
     modify (setZones (snd data)) ;;;
     safe <- fetchSafeAreas cfg ;;
     modify (setSafeAreas safe))
    (ret tt) ;;;
  modify (setLoading false).

Definition handleAllocate : Client state unit :=
  st <- get ;;
  modify (setLoading true) ;;;
  finally
    (try_catch
       (plan <- allocateResources cfg (resources st) (filteredZones st) ;;
        modify (setAllocationPlan (Some plan)))
       (ret tt))
    (modify (setLoading false)).

Definition handleDispatch : Client state unit :=
  st <- get ;;
  match allocationPlan st with
  | None => ret tt
  | Some plan =>
      modify (setLoading true) ;;;
      finally
        (try_catch
           (res <- dispatchResources cfg plan ;;
            modify (setDispatchStatus (Some (Api.message res))) ;;;
            modify (setAllocationPlan None) ;;;
            loadSimulationData)
           (ret tt))
        (modify (setLoading false))
  end.

(** [handleDeleteZone]; [confirmed] is the answer to [window.confirm]
    ("This will remove: the disaster alert, ALL resources (cleanup)"). *)
Definition handleDeleteZone (confirmed : bool) (zoneId : string) : Client state unit :=
  st <- get ;;
  match find_zone zoneId (zones st) with
  | None => ret tt
  | Some zone =>
      if negb confirmed then ret tt
      else
        modify (setLoading true) ;;;
        finally
          (try_catch
             (let allResourceIds := List.map Resource.id (resources st) in
              (if (0 <? length allResourceIds)%nat
               then deleteResourcesBulk cfg allResourceIds ;;; ret tt
               else ret tt) ;;;
              deleteDisaster cfg zoneId ;;;
              match allocationPlan st with
              | Some _ => modify (setAllocationPlan None)
              | None => ret tt
              end ;;;
              loadSimulationData)
             (ret tt))
          (modify (setLoading false))
  end.

End Handlers.

Definition setSelectedZoneId v (s : state) : state :=
  mk_state (resources s) (zones s) (safeAreas s) (allocationPlan s) (loading s)
    (dispatchStatus s) v.

(** [onAlertClick={(_, __, id) => setSelectedZoneId(id || null)}] *)
Definition onAlertClick (id : option string) : Api.Client state unit :=
  Api.modify
    (setSelectedZoneId
       match id with
       | Some zid => if String.eqb zid "" then None else Some zid
       | None => None
       end).

(** [onClearSelection={() => setSelectedZoneId(null)}] *)
Definition onClearSelection : Api.Client state unit :=
  Api.modify (setSelectedZoneId None).

End OperationOffice.

(** ** components/ResourceSidebar.tsx: the reinforcement workflow *)

Module ResourceSidebar.

(** The "Request National Reinforcements" button is rendered when
    [allocationPlan && allocationPlan.unserved_zones.length > 0]. *)
Definition reinforce_rendered (allocationPlan : option AllocationPlan.t) : bool :=
  match allocationPlan with
  | Some p => (0 <? length (AllocationPlan.unserved_zones p))%nat
  | None => false
  end.

Section Handlers.

Variable cfg : Backend.config.
Context {S : Type}.

Import Api.
Local Open Scope client_scope.

(** Its [onClick]: request reinforcements for the unserved zones, then,
    after a delay, [onAllocate()]. *)
Definition reinforce_onClick (allocationPlan : AllocationPlan.t)
    (onAllocate : Client S unit) : Client S unit :=
  if (0 <? length (AllocationPlan.unserved_zones allocationPlan))%nat then
    requestReinforcements cfg (AllocationPlan.unserved_zones allocationPlan) ;;;
    onAllocate
  else ret tt.

(** The handler behind the button, if the button is rendered:
    [{allocationPlan && ... {allocationPlan.unserved_zones.length > 0 && <button onClick=.../>}}]. *)
Definition reinforce_button (allocationPlan : option AllocationPlan.t)
    (onAllocate : Client S unit) : option (Client S unit) :=
  match allocationPlan with
  | Some p =>
      if reinforce_rendered (Some p) then Some (reinforce_onClick p onAllocate)
      else None
  | None => None
  end.

(** A click on a button: its handler runs, if there is a button. *)
Definition click (button : option (Client S unit)) : Client S unit :=
  match button with
  | Some handler => handler
  | None => ret tt
  end.

End Handlers.

(** The classes of the "Lv" badge of an incident in the list of current
    incidents. *)
Definition severity_badge (severity : float) : string :=
  if PrimFloat.leb 8 severity then "bg-red-900/50 text-red-500"
  else if PrimFloat.leb 5 severity then "bg-orange-900/50 text-orange-500"
  else "bg-blue-900/50 text-blue-500".

End ResourceSidebar.

(** [OperationOffice] renders the sidebar with
    [allocationPlan={allocationPlan}] and [onAllocate={handleAllocate}]. *)
Definition office_reinforce_button (cfg : Backend.config)
    (st : OperationOffice.state) : option (Api.Client OperationOffice.state unit) :=
  ResourceSidebar.reinforce_button cfg (OperationOffice.allocationPlan st)
    (OperationOffice.handleAllocate cfg).

(** * The vocabulary of the properties *)

(** Two doubles of which one is the other with the sign changed, or
    which are both the positive zero. *)
Definition mirrored (u v : spec_float) : Prop :=
  v = SFopp u \/ (u = S754_zero false /\ v = S754_zero false).

(** Every registry a handler can leave is related by [R] to the one it
    found. *)
Definition respects {S A} (R : Registry.t -> Registry.t -> Prop)
    (m : Api.Client S A) : Prop :=
  forall s w, R w.1 (m s w).2.1.

(** Whatever happens, the handler leaves a registry with property [P]. *)
Definition establishes {S A} (P : Registry.t -> Prop) (m : Api.Client S A) : Prop :=
  forall s w, P (m s w).2.1.

(** What the cleanup of a zone may do to the registry: delete resources
    whose id is among [ids], delete the zone [zoneId], nothing else. *)
Definition cleanup (ids : list string) (zoneId : string)
    (reg reg' : Registry.t) : Prop :=
  (forall rid,
     Registry.resources reg' !! rid = Registry.resources reg !! rid
     \/ (In rid ids /\ Registry.resources reg' !! rid = None))
  /\ (forall zid, zid <> zoneId ->
        Registry.zones reg' !! zid = Registry.zones reg !! zid).

(** None of the resources [ids] is in the registry. *)
Definition gone (ids : list string) (reg : Registry.t) : Prop :=
  forall rid, In rid ids -> Registry.resources reg !! rid = None.

(** The registry [reg'] has lost every resource [ids] and, apart from
    that and from the zone [zoneId], equals [reg]. *)
Definition cleaned_up (ids : list string) (zoneId : string)
    (reg reg' : Registry.t) : Prop :=
  (forall rid, In rid ids -> Registry.resources reg' !! rid = None)
  /\ (forall rid, ~ In rid ids ->
        Registry.resources reg' !! rid = Registry.resources reg !! rid)
  /\ (forall zid, zid <> zoneId ->
        Registry.zones reg' !! zid = Registry.zones reg !! zid).

(** [rid] is allocated to [zoneId] in the plan the page holds. *)
Definition tied_to (plan : option AllocationPlan.t) (rid zoneId : string) : bool :=
  match plan with
  | Some p =>
      existsb (fun a => String.eqb (Allocation.resource_id a) rid
                        && String.eqb (Allocation.zone_id a) zoneId)
        (AllocationPlan.allocations p)
  | None => false
  end.

(** [a] may stand before [b] under the comparator
    [(a, b) => a.dist - b.dist]: [b] is not strictly nearer than [a]. *)
Definition in_order (a b : Resource.t * float) : Prop :=
  PrimFloat.ltb (snd b - snd a) 0 = false.

(** The comparison of [x] with [z] when [x] compares to [y] as [c1] and
    [y] to [z] as [c2], neither of them [Gt]. *)
Definition below (c1 c2 : comparison) : comparison :=
  match c1, c2 with
  | Eq, Eq => Eq
  | Gt, _ | _, Gt => Gt
  | _, _ => Lt
  end.

(** A double that is not below zero: a zero, NaN, or a number with the
    positive sign. *)
Definition unsigned (v : spec_float) : bool :=
  match v with
  | S754_zero _ | S754_nan => true
  | S754_infinity s | S754_finite s _ _ => negb s
  end.

(** The place of a severity label in the legend, from "Low" upwards. *)
Definition label_rank (label : string) : nat :=
  if String.eqb label "Critical" then 3
  else if String.eqb label "High" then 2
  else if String.eqb label "Medium" then 1
  else 0.

(** The bounds a printed range such as "8-10" stands for. *)
Definition range_bounds (range : string) : option (Z * Z) :=
  match index 0 "-" range with
  | Some i =>
      match NilZero.uint_of_string (substring 0 i range),
            NilZero.uint_of_string
              (substring (S i) (String.length range - S i) range) with
      | Some lo, Some hi => Some (Z.of_uint lo, Z.of_uint hi)
      | _, _ => None
      end
  | None => None
  end.

(** * Sample data *)

(** Two points at latitude 60 on opposite meridians: the great circle
    between them crosses the pole. *)
Definition north_a : Location.t := Location.mk 60 0.
Definition north_b : Location.t := Location.mk 60 180.

(** A cache entry for Mumbai, written at 1700000000000 ms, and a parser
    that knows it. *)
Definition sample_parse (s : string) : option Json.value :=
  if String.eqb s "mumbai-entry" then
    Some (Json.Obj [("data", Json.Obj [("temperature", Json.Num 31)]);
                    ("timestamp", Json.Num 1700000000000);
                    ("city", Json.Str "Mumbai")])
  else None.

Definition sample_storage : gmap string string :=
  {[ WeatherWidget.CACHE_KEY := "mumbai-entry" ]}.

(** A configuration of the engine to run it on examples: the flat-map
    estimate stands in for the great-circle distance. *)
Definition sample_cfg : Backend.config :=
  Backend.mk_config
    Sidebar.dist None (fun d => Js.toFixed d 1) " (over 3 hours)" 0%float
    (fun _ => None) (fun _ _ => [])
    (fun _ d =>
       Resource.mk "resource-new" (ResourceCreate.type d) (ResourceCreate.location d)
         (ResourceCreate.capacity d) (status_label Available) [] 60)
    (fun _ d =>
       DisasterZone.mk "zone-new" (DisasterCreate.type d) 5 (DisasterCreate.location d)
         0 0 [] (Some "Active"))
    [] (fun _ _ => "success") (fun _ _ => "Resources dispatched") (fun _ => "ok").

Definition ambulance_1 : Resource.t :=
  Resource.mk "ambulance-1" "Ambulance" (Location.mk 19 73) 4 (status_label Available) [] 60.
Definition ambulance_2 : Resource.t :=
  Resource.mk "ambulance-2" "Ambulance" (Location.mk 19.5 73) 4 (status_label Available) [] 60.
Definition truck_1 : Resource.t :=
  Resource.mk "truck-1" "Fire Truck" (Location.mk 28 77) 6 (status_label Available) [] 50.

Definition flood : DisasterZone.t :=
  DisasterZone.mk "zone-flood" "Flood" 9 (Location.mk 19 73.0625) 12000 0.5
    [("Ambulance", 2%nat)] (Some "Active").
Definition wildfire : DisasterZone.t :=
  DisasterZone.mk "zone-fire" "Wildfire" 6 (Location.mk 28 77.25) 3000 0.25
    [("Fire Truck", 1%nat)] (Some "Active").

Definition sample_resources : list Resource.t := [ambulance_1; ambulance_2; truck_1].
Definition sample_zones : list DisasterZone.t := [wildfire; flood].

Definition sample_registry : Registry.t :=
  Registry.mk
    (list_to_map (List.map (fun r => (Resource.id r, r)) sample_resources))
    (list_to_map (List.map (fun z => (DisasterZone.id z, z)) sample_zones)).

Definition sample_plan : AllocationPlan.t :=
  Backend.plan sample_cfg sample_resources sample_zones.

(** The simulation page after it loaded the registry and generated a plan. *)
Definition sample_page : Simulation.state :=
  Simulation.mk_state sample_resources sample_zones [] (Some sample_plan) false None None.

(** A weather service that answers with 31 degrees, a serializer that
    writes the entry [sample_parse] reads, and a widget that has shown
    nothing yet. *)
Definition sample_weather : Json.value := Json.Obj [("temperature", Json.Num 31)].
Definition sample_fetch (city : string) : option Json.value := Some sample_weather.
Definition sample_stringify (v : Json.value) : string := "mumbai-entry".
Definition sample_widget : WeatherWidget.widget :=
  WeatherWidget.mk_widget (Some Json.Null) true None None.

(** A resource the registry does not hold, and pages whose lists still
    show it. *)
Definition ghost : Resource.t :=
  Resource.mk "ambulance-9" "Ambulance" (Location.mk 19 73) 4 (status_label Available) [] 60.

Definition stale_page : Simulation.state :=
  Simulation.mk_state (sample_resources ++ [ghost]) sample_zones [] (Some sample_plan)
    false None None.

Definition stale_office : OperationOffice.state :=
  OperationOffice.mk_state (sample_resources ++ [ghost]) sample_zones [] None
    false None None.

(** * Properties *)

(** ** Status colours *)

Lemma toLowerCase_idempotent (s : string) :
  Js.toLowerCase (Js.toLowerCase s) = Js.toLowerCase s.
Proof.
  induction s as [|c s IH]; simpl; [reflexivity|].
  rewrite IH. f_equal.
  destruct c as [[] [] [] [] [] [] [] []]; reflexivity.
Qed.

(** The colour depends on the status up to letter case only. *)
Lemma status_color_ignores_case (s : string) :
  MapUtils.getResourceStatusColor (Js.toLowerCase s)
  = MapUtils.getResourceStatusColor s.
Proof.
  unfold MapUtils.getResourceStatusColor.
  now rewrite toLowerCase_idempotent.
Qed.

(** C8. Every status of the resource status enumeration (Available,
    EnRoute, Deployed, Returning), as the front end spells it, gets the
    colour the legend shows for it: one of the four status colours, and
    never the gray of the [default] branch. *)
Theorem status_color_never_default (s : ResourceStatus) :
  MapUtils.getResourceStatusColor (status_label s) = legend_color s
  /\ In (MapUtils.getResourceStatusColor (status_label s))
        [MapUtils.green; MapUtils.red; MapUtils.yellow; MapUtils.blue]
  /\ MapUtils.getResourceStatusColor (status_label s) <> MapUtils.gray.
Proof.
  destruct s; (split; [reflexivity|split; [|discriminate]]).
  - now left.
  - now right; right; right; left.
  - now right; left.
  - now right; right; left.
Qed.

(** The label must carry its space: the spelling without it is not a
    case of the [switch]. *)
Example status_color_without_space :
  MapUtils.getResourceStatusColor "EnRoute" = MapUtils.gray.
Proof. reflexivity. Qed.

(** ** formatETA *)

(** C9. At 119.5 minutes [formatETA] prints a minutes part of 60: the
    remainder 59.5 is rounded after the hours were taken out. *)
Theorem formatETA_renders_sixty_minutes :
  MapUtils.formatETA 119.5%float = "1h 60m"
  /\ Js.show (MapUtils.eta_hours 119.5%float) = "1"
  /\ Js.show (MapUtils.eta_mins 119.5%float) = "60".
Proof. repeat split; vm_compute; reflexivity. Qed.

Example formatETA_90 : MapUtils.formatETA 90%float = "1h 30m".
Proof. vm_compute; reflexivity. Qed.

Example formatETA_45 : MapUtils.formatETA 45%float = "45m".
Proof. vm_compute; reflexivity. Qed.

Lemma Qfloor_inject_half (m : Z) : Qfloor (inject_Z m + (1 # 2)) = m.
Proof.
  unfold Qplus, inject_Z, Qfloor. simpl.
  symmetry. apply (Z.div_unique _ _ _ 1); lia.
Qed.

(** X17. On whole minutes, from 60 upwards, the minutes part that
    [formatETA] prints is the number of minutes modulo 60, hence below
    60: the rounding can only reach 60 when the remainder has a
    fraction. *)
Lemma eta_mins_whole (minutes : float) (q : Q) (n : Z) :
  Js.to_num minutes = Js.Fin q -> q == inject_Z n -> (60 <= n)%Z ->
  exists m : Z,
    MapUtils.eta_mins minutes = Js.Fin (inject_Z m)
    /\ m = (n mod 60)%Z /\ (0 <= m < 60)%Z.
Proof.
  intros Hnum Hq Hn. exists (n mod 60)%Z.
  split; [|split; [reflexivity|apply Z.mod_pos_bound; lia]].
  unfold MapUtils.eta_mins, Js.rem, Js.Math_round. rewrite Hnum.
  change (Qeq_bool 60 0) with false. cbv beta iota.
  assert (Hdiv : (q / 60 == inject_Z n / inject_Z 60)%Q) by (rewrite Hq; reflexivity).
  assert (Hpos : Qle_bool 0 (q / 60) = true).
  { apply Qle_bool_iff. rewrite Hdiv. apply Qle_shift_div_l; [reflexivity|].
    rewrite Qmult_0_l. change 0%Q with (inject_Z 0). rewrite <- Zle_Qle. lia. }
  unfold Js.trunc. rewrite Hpos.
  assert (Hfl : Qfloor (q / 60) = (n / 60)%Z).
  { rewrite (Qfloor_comp _ _ Hdiv). symmetry. apply Zdiv_Qdiv. }
  rewrite Hfl. do 2 f_equal.
  rewrite <- (Qfloor_inject_half (n mod 60)).
  apply Qfloor_comp. rewrite Hq.
  apply Qplus_comp; [|reflexivity].
  rewrite (Z.mod_eq n 60) by lia.
  unfold Zminus. rewrite inject_Z_plus, inject_Z_opp, inject_Z_mult.
  unfold Qminus. reflexivity.
Qed.

Lemma eta_mins_whole_witness :
  exists m : Z,
    MapUtils.eta_mins 125 = Js.Fin (inject_Z m)
    /\ m = (125 mod 60)%Z /\ (0 <= m < 60)%Z.
Proof.
  refine (eta_mins_whole 125 _ 125 eq_refl _ _); [vm_compute; reflexivity|lia].
Defined.

(** ** The weather cache *)

Section WeatherCache.

Variable JSON_parse : string -> option Json.value.
Variable StringToNumber : string -> float.
Variable ToPrimitiveString : Json.value -> string.

#[local] Abbreviation getCachedWeather :=
  (WeatherWidget.getCachedWeather JSON_parse StringToNumber ToPrimitiveString).
#[local] Abbreviation fresh := (WeatherWidget.fresh StringToNumber ToPrimitiveString).
#[local] Abbreviation served :=
  (WeatherWidget.served JSON_parse StringToNumber ToPrimitiveString).

Variable fetchWeather : string -> option Json.value.
Variable JSON_stringify : Json.value -> string.

#[local] Abbreviation loadWeather :=
  (WeatherWidget.loadWeather JSON_parse StringToNumber ToPrimitiveString
     fetchWeather JSON_stringify).

Lemma strict_eq_string_true (x : option Json.value) (s : string) :
  Json.strict_eq_string x s = true <-> x = Some (Json.Str s).
Proof.
  unfold Json.strict_eq_string. split.
  - destruct x as [[]|]; try discriminate.
    intros H. apply String.eqb_eq in H. now subst.
  - intros ->. apply String.eqb_refl.
Qed.

Lemma returned_not_null_served localStorage city now :
  WeatherWidget.returned (getCachedWeather localStorage city now) <> Some Json.Null ->
  exists entry ts,
    served localStorage city now entry ts
    /\ Json.prop entry "data"
       = Some (WeatherWidget.returned (getCachedWeather localStorage city now)).
Proof.
  unfold WeatherWidget.getCachedWeather.
  destruct (localStorage !! WeatherWidget.CACHE_KEY) as [cached|] eqn:Hget;
    [|intros H; now contradiction H].
  destruct (String.eqb cached ""); [intros H; now contradiction H|].
  destruct (JSON_parse cached) as [entry|] eqn:Hparse;
    [|intros H; now contradiction H].
  destruct (Json.prop entry "city") as [c|] eqn:Hcity;
    [|intros H; now contradiction H].
  destruct (Json.strict_eq_string c city) eqn:Heq;
    [|intros H; now contradiction H].
  apply strict_eq_string_true in Heq. subst c.
  destruct (Json.prop entry "timestamp") as [ts|] eqn:Hts;
    [|intros H; now contradiction H].
  destruct (WeatherWidget.fresh _ _ now ts) eqn:Hfresh;
    [|intros H; now contradiction H].
  destruct (Json.prop entry "data") as [d|] eqn:Hdata;
    [|intros H; now contradiction H].
  intros _. exists entry, ts. split; [|exact Hdata].
  exists cached. repeat split; assumption.
Qed.

(** C10. [getCachedWeather] returns something other than [null] only
    for a stored entry whose city is the selected one and whose
    timestamp is less than [CACHE_DURATION] (5 minutes) before now, and
    then it returns the entry's data.  Conversely, a stored entry (a
    string that is not empty) that parses, names the selected city and
    is that fresh is served: its data is returned, and its timestamp
    goes to [setLastUpdated].  A missing, empty, unparseable,
    other-city or expired entry gives [null].  [loadWeather] asks the
    weather service for the city afterwards, whatever the cache gave. *)
Theorem getCachedWeather_fresh_same_city_only localStorage city now :
  let result := WeatherWidget.returned (getCachedWeather localStorage city now) in
  (result <> Some Json.Null ->
     exists entry ts,
       served localStorage city now entry ts
       /\ Json.prop entry "data" = Some result)
  /\ (forall entry ts data,
        served localStorage city now entry ts ->
        localStorage !! WeatherWidget.CACHE_KEY <> Some "" ->
        Json.prop entry "data" = Some data ->
        result = data
        /\ WeatherWidget.lastUpdated (getCachedWeather localStorage city now) = Some ts
        /\ WeatherWidget.logged (getCachedWeather localStorage city now) = false)
  /\ (localStorage !! WeatherWidget.CACHE_KEY = Some "" -> result = Some Json.Null)
  /\ (localStorage !! WeatherWidget.CACHE_KEY = None -> result = Some Json.Null)
  /\ (forall cached,
        localStorage !! WeatherWidget.CACHE_KEY = Some cached ->
        JSON_parse cached = None -> result = Some Json.Null)
  /\ (forall cached entry,
        localStorage !! WeatherWidget.CACHE_KEY = Some cached ->
        JSON_parse cached = Some entry ->
        Json.prop entry "city" <> Some (Some (Json.Str city)) ->
        result = Some Json.Null)
  /\ (forall cached entry ts,
        localStorage !! WeatherWidget.CACHE_KEY = Some cached ->
        JSON_parse cached = Some entry ->
        Json.prop entry "timestamp" = Some ts ->
        fresh now ts = false ->
        result = Some Json.Null)
  /\ (forall w later,
        WeatherWidget.fetched (loadWeather localStorage w city now later) = [city]).
Proof.
  cbv zeta. split; [apply returned_not_null_served|].
  split.
  { intros entry ts data (cached & Hget & Hparse & Hcity & Hts & Hfresh) Hne Hdata.
    unfold WeatherWidget.getCachedWeather. rewrite Hget.
    destruct (String.eqb_spec cached "") as [->|_]; [now contradiction Hne|].
    rewrite Hparse, Hcity. unfold Json.strict_eq_string.
    rewrite String.eqb_refl, Hts, Hfresh, Hdata. repeat split. }
  split; [intros Hempty; unfold WeatherWidget.getCachedWeather; now rewrite Hempty|].
  unfold WeatherWidget.getCachedWeather at 1 2 3 4.
  split; [intros ->; reflexivity|].
  split; [intros cached -> Hparse; rewrite Hparse; now destruct (String.eqb cached "")|].
  split; [|split].
  - intros cached entry -> Hparse Hcity. rewrite Hparse.
    destruct (String.eqb cached ""); [reflexivity|].
    destruct (Json.prop entry "city") as [c|]; [|reflexivity].
    destruct (Json.strict_eq_string c city) eqn:Heq; [|reflexivity].
    apply strict_eq_string_true in Heq. now subst c.
  - intros cached entry ts -> Hparse Hts Hstale. rewrite Hparse, Hts, Hstale.
    destruct (String.eqb cached ""); [reflexivity|].
    destruct (Json.prop entry "city") as [c|]; [|reflexivity].
    now destruct (Json.strict_eq_string c city).
  - intros w later. unfold WeatherWidget.loadWeather.
    now destruct (fetchWeather city).
Qed.

(** An entry written by [setCachedWeather] is served for its city as
    long as it is fresh, when [JSON.parse] reads back what
    [JSON.stringify] wrote. *)
Lemma written_cache_is_served localStorage city written now (data : Json.value) :
  let entry := Json.Obj [("data", data); ("timestamp", Json.Num written);
                         ("city", Json.Str city)] in
  JSON_parse (JSON_stringify entry) = Some entry ->
  JSON_stringify entry <> "" ->
  PrimFloat.ltb (now - written) WeatherWidget.CACHE_DURATION = true ->
  WeatherWidget.returned
    (getCachedWeather
       (WeatherWidget.setCachedWeather JSON_stringify localStorage city written data)
       city now)
  = Some data.
Proof.
  cbv zeta. intros Hparse Hne Hfresh.
  unfold WeatherWidget.getCachedWeather, WeatherWidget.setCachedWeather.
  rewrite lookup_insert_eq.
  destruct (String.eqb_spec (JSON_stringify
              (Json.Obj [("data", data); ("timestamp", Json.Num written);
                         ("city", Json.Str city)])) "") as [E|_];
    [contradiction|].
  rewrite Hparse.
  change (Json.prop _ "city") with (Some (Some (Json.Str city))).
  change (Json.prop _ "timestamp") with (Some (Some (Json.Num written))).
  change (Json.prop _ "data") with (Some (Some data)).
  unfold Json.strict_eq_string. rewrite String.eqb_refl.
  unfold WeatherWidget.fresh, WeatherWidget.ToNumber. now rewrite Hfresh.
Qed.

End WeatherCache.

(** The entry is served four minutes later for Mumbai, not for Delhi,
    and not five minutes later. *)
Example cache_served_within_five_minutes :
  WeatherWidget.returned
    (WeatherWidget.getCachedWeather sample_parse (fun _ => PrimFloat.nan) (fun _ => "")
       sample_storage "Mumbai" 1700000240000)
  = Some (Json.Obj [("temperature", Json.Num 31)]).
Proof. vm_compute. reflexivity. Qed.

Example cache_not_served_for_other_city :
  WeatherWidget.returned
    (WeatherWidget.getCachedWeather sample_parse (fun _ => PrimFloat.nan) (fun _ => "")
       sample_storage "Delhi" 1700000240000)
  = Some Json.Null.
Proof. vm_compute. reflexivity. Qed.

Example cache_not_served_after_five_minutes :
  WeatherWidget.returned
    (WeatherWidget.getCachedWeather sample_parse (fun _ => PrimFloat.nan) (fun _ => "")
       sample_storage "Mumbai" 1700000300000)
  = Some Json.Null.
Proof. vm_compute. reflexivity. Qed.

(** The sample entry, four minutes old, is one [getCachedWeather] serves
    for Mumbai, and its data is what the call returns. *)
Lemma getCachedWeather_fresh_same_city_only_witness :
  let entry :=
    Json.Obj [("data", Json.Obj [("temperature", Json.Num 31)]);
              ("timestamp", Json.Num 1700000000000);
              ("city", Json.Str "Mumbai")] in
  WeatherWidget.served sample_parse (fun _ => PrimFloat.nan) (fun _ => "")
    sample_storage "Mumbai" 1700000240000 entry (Some (Json.Num 1700000000000))
  /\ WeatherWidget.returned
       (WeatherWidget.getCachedWeather sample_parse (fun _ => PrimFloat.nan) (fun _ => "")
          sample_storage "Mumbai" 1700000240000)
     = Some (Json.Obj [("temperature", Json.Num 31)]).
Proof.
  cbv zeta.
  assert (Hserved :
            WeatherWidget.served sample_parse (fun _ => PrimFloat.nan) (fun _ => "")
              sample_storage "Mumbai" 1700000240000
              (Json.Obj [("data", Json.Obj [("temperature", Json.Num 31)]);
                         ("timestamp", Json.Num 1700000000000);
                         ("city", Json.Str "Mumbai")])
              (Some (Json.Num 1700000000000))).
  { exists "mumbai-entry". repeat split; vm_compute; reflexivity. }
  split; [exact Hserved|].
  pose proof (getCachedWeather_fresh_same_city_only sample_parse (fun _ => PrimFloat.nan)
                (fun _ => "") (fun _ => None) (fun _ => "")
                sample_storage "Mumbai" 1700000240000) as H.
  cbv zeta in H. destruct H as (_ & Hhit & _).
  refine (proj1 (Hhit _ _ _ Hserved _ eq_refl)).
  vm_compute. discriminate.
Defined.

(** ** The proximity distance of the sidebar *)

Lemma binary_round_aux_negb prec emax s m e l :
  binary_round_aux prec emax (negb s) m e l
  = SFopp (binary_round_aux prec emax s m e l).
Proof.
  unfold binary_round_aux.
  destruct (shr_fexp prec emax m e l) as [mrs' e'].
  destruct (shr_fexp prec emax _ e' loc_Exact) as [mrs'' e''].
  destruct (shr_m mrs''); try reflexivity.
  destruct (Z.leb e'' (emax - prec)); reflexivity.
Qed.

Lemma binary_round_negb prec emax s m e :
  binary_round prec emax (negb s) m e = SFopp (binary_round prec emax s m e).
Proof.
  unfold binary_round.
  destruct (shl_align m e _) as [mz ez].
  apply binary_round_aux_negb.
Qed.

Lemma binary_normalize_opp prec emax m e :
  mirrored (binary_normalize prec emax m e false)
           (binary_normalize prec emax (- m) e false).
Proof.
  destruct m as [|p|p]; simpl.
  - right. split; reflexivity.
  - left. apply (binary_round_negb prec emax false).
  - left. rewrite (binary_round_negb prec emax false).
    destruct (binary_round prec emax false p e); simpl;
      rewrite ?negb_involutive; reflexivity.
Qed.

(** Subtraction the other way round gives the mirrored double. *)
Lemma SFsub_swap prec emax x y :
  mirrored (SFsub prec emax x y) (SFsub prec emax y x).
Proof.
  destruct x as [sx|sx| |sx mx ex], y as [sy|sy| |sy my ey]; simpl;
    try (destruct sx, sy; simpl; (left; reflexivity) || (right; split; reflexivity)).
  all: try (left; simpl; rewrite ?negb_involutive; reflexivity).
  rewrite (Z.min_comm ey ex).
  match goal with
  | |- mirrored (binary_normalize _ _ ?m _ _) (binary_normalize _ _ ?m' _ _) =>
      replace m' with (- m)%Z by lia
  end.
  apply binary_normalize_opp.
Qed.

Lemma SFmul_square_mirrored prec emax u v :
  mirrored u v -> SFmul prec emax v v = SFmul prec emax u u.
Proof.
  intros [-> | [-> ->]]; [|reflexivity].
  destruct u as [s|s| |s m e]; simpl; try reflexivity; destruct s; reflexivity.
Qed.

Lemma square_sub_swap (x y : float) : Js.square (y - x) = Js.square (x - y).
Proof.
  apply Prim2SF_inj. unfold Js.square.
  rewrite !mul_spec, !sub_spec.
  apply SFmul_square_mirrored, SFsub_swap.
Qed.

Lemma dist_swap (a b : Location.t) : Sidebar.dist a b = Sidebar.dist b a.
Proof.
  unfold Sidebar.dist.
  now rewrite (square_sub_swap (Location.lat a)), (square_sub_swap (Location.lng a)).
Qed.

(** A finite double minus itself is the positive zero. *)
Lemma sub_diag_finite (x : float) : is_finite x = true -> (x - x = 0)%float.
Proof.
  intros Hfin. apply Prim2SF_inj. rewrite sub_spec.
  change (Prim2SF 0) with (S754_zero false).
  unfold is_finite, is_nan, is_infinity in Hfin.
  rewrite !FloatAxioms.eqb_spec, FloatAxioms.abs_spec in Hfin.
  change (Prim2SF infinity) with (S754_infinity false) in Hfin.
  destruct (Prim2SF x) as [s|s| |s m e];
    try (vm_compute in Hfin; discriminate);
    try (destruct s; vm_compute in Hfin; discriminate).
  - destruct s; reflexivity.
  - unfold SF64sub, SFsub. cbv beta iota zeta. rewrite Z.sub_diag. reflexivity.
Qed.

(** C7. The proximity distance is symmetric: the two doubles are the
    same, so whenever the distance is a finite number the two directions
    differ by no more than the tolerance of 1e-6 km. *)
Theorem proximity_distance_symmetric (a b : Location.t) :
  Sidebar.dist a b = Sidebar.dist b a
  /\ (is_finite (Sidebar.dist a b) = true ->
      PrimFloat.leb (abs (Sidebar.dist a b - Sidebar.dist b a)) Sidebar.tolerance = true).
Proof.
  split; [apply dist_swap|].
  intros Hfin. rewrite <- (dist_swap a b).
  rewrite (sub_diag_finite _ Hfin).
  vm_compute. reflexivity.
Qed.

Example proximity_distance_symmetric_sample :
  Sidebar.dist (Location.mk 19.076 72.8777) (Location.mk 28.6139 77.209)
  = Sidebar.dist (Location.mk 28.6139 77.209) (Location.mk 19.076 72.8777)
  /\ is_finite (Sidebar.dist (Location.mk 19.076 72.8777) (Location.mk 28.6139 77.209)) = true.
Proof. vm_compute. split; reflexivity. Qed.

Lemma real_of_num (x : float) (q : Q) :
  Js.to_num x = Js.Fin q -> GreatCircle.real x = Q2R q.
Proof. unfold GreatCircle.real. now intros ->. Qed.

(** The real number of a double whose exact value is the integer [n]. *)
Lemma real_of_integer (x : float) (q : Q) (n : Z) :
  Js.to_num x = Js.Fin q -> q == inject_Z n -> GreatCircle.real x = IZR n.
Proof.
  intros Hx Hq. rewrite (real_of_num x q Hx), (Qreals.Qeq_eqR _ _ Hq).
  unfold Q2R, inject_Z. cbn [Qnum Qden]. lra.
Qed.

Lemma real_0 : GreatCircle.real 0 = 0%R.
Proof. now apply (real_of_integer 0 0 0). Qed.

Lemma real_60 : GreatCircle.real 60 = 60%R.
Proof.
  apply (real_of_integer 60 ((8444249301319680 # 1) * (1 # 140737488355328)) 60);
    vm_compute; reflexivity.
Qed.

Lemma real_180 : GreatCircle.real 180 = 180%R.
Proof.
  apply (real_of_integer 180 ((6333186975989760 # 1) * (1 # 35184372088832)) 180);
    vm_compute; reflexivity.
Qed.

Lemma real_19980 : GreatCircle.real 19980 = 19980%R.
Proof.
  apply (real_of_integer 19980 ((5492060580741120 # 1) * (1 # 274877906944)) 19980);
    vm_compute; reflexivity.
Qed.

Lemma sidebar_dist_north : Sidebar.dist north_a north_b = 19980%float.
Proof. vm_compute. reflexivity. Qed.

Lemma haversine_north :
  GreatCircle.haversine north_a north_b = (2 * 6371 * (PI / 6))%R.
Proof.
  unfold GreatCircle.haversine, north_a, north_b, GreatCircle.radians,
    GreatCircle.earth_radius_km.
  cbn [Location.lat Location.lng].
  rewrite real_0, real_60, real_180.
  replace ((60 - 60) * PI / 180 / 2)%R with 0%R by lra.
  replace (60 * PI / 180)%R with (PI / 3)%R by lra.
  replace ((180 - 0) * PI / 180 / 2)%R with (PI / 2)%R by lra.
  rewrite sin_0, cos_PI3, sin_PI2.
  replace (0 ^ 2 + 1 / 2 * (1 / 2) * 1 ^ 2)%R with ((1 / 2) * (1 / 2))%R by lra.
  rewrite sqrt_square by lra.
  rewrite <- sin_PI6.
  rewrite asin_sin; [reflexivity|].
  pose proof PI_RGT_0. split; lra.
Qed.

(** At these two points the sidebar computes 19980 km where the
    great-circle distance on a sphere of radius 6371 km is below 8495 km. *)
Lemma proximity_is_not_great_circle :
  (GreatCircle.haversine north_a north_b < 8495
   /\ GreatCircle.real (Sidebar.dist north_a north_b) = 19980)%R.
Proof.
  rewrite haversine_north, sidebar_dist_north, real_19980.
  pose proof PI_4. split; lra.
Qed.

Lemma In_insert_by_dist x y l :
  In x (Sidebar.insert_by_dist y l) <-> x = y \/ In x l.
Proof.
  induction l as [|z l IH]; simpl.
  - intuition.
  - destruct (PrimFloat.ltb _ 0); simpl; rewrite ?IH; intuition.
Qed.

Lemma In_foldr_insert_by_dist x l :
  In x (foldr Sidebar.insert_by_dist [] l) <-> In x l.
Proof.
  induction l as [|y l IH]; simpl; [reflexivity|].
  rewrite In_insert_by_dist, IH. intuition.
Qed.

Lemma In_sort_by_dist x l : In x (Sidebar.sort_by_dist l) <-> In x l.
Proof.
  unfold Sidebar.sort_by_dist.
  rewrite In_foldr_insert_by_dist, <- !list_elem_of_In.
  apply elem_of_reverse.
Qed.

(** C3 (as amended). The distance the sidebar attaches to a resource is
    the flat-map estimate: 111 km times the Euclidean norm of the
    differences in latitude and longitude, in degrees.  [nearby] lists
    exactly the resources whose estimate is below 200 km, each with its
    estimate. *)
Theorem proximity_is_flat_estimate (resources : list Resource.t)
    (zone : DisasterZone.t) (r : Resource.t) (d : float) :
  In (r, d) (Sidebar.nearby resources zone) <->
  In r resources
  /\ PrimFloat.ltb d 200 = true
  /\ d = (PrimFloat.sqrt
            ((Location.lat (Resource.location r) - Location.lat (DisasterZone.location zone))
             * (Location.lat (Resource.location r) - Location.lat (DisasterZone.location zone))
             + (Location.lng (Resource.location r) - Location.lng (DisasterZone.location zone))
               * (Location.lng (Resource.location r) - Location.lng (DisasterZone.location zone)))
          * 111)%float.
Proof.
  unfold Sidebar.nearby.
  rewrite In_sort_by_dist, filter_In, in_map_iff. cbn [snd].
  split.
  - intros [[r' [Heq Hin]] Hlt]. injection Heq as -> <-. now repeat split.
  - intros [Hin [Hlt ->]]. split; [|exact Hlt]. exists r. now split.
Qed.

(** ** The planner *)

Section Planner.

Variable cfg : Backend.config.

Lemma nearest_In z required pool r :
  Backend.nearest cfg z required pool = Some r -> In r pool.
Proof.
  induction pool as [|x pool IH]; simpl; [discriminate|].
  destruct (Backend.compatible x required).
  - destruct (Backend.nearest cfg z required pool) as [b|].
    + destruct (Backend.closer cfg z b x); intros [= <-]; auto.
    + intros [= <-]. now left.
  - auto.
Qed.

(** Taking a resource out of the pool removes its id once. *)
Lemma take_out_ids r pool :
  In r pool ->
  Permutation (List.map Resource.id pool)
    (Resource.id r :: List.map Resource.id (Backend.take_out (Resource.id r) pool)).
Proof.
  induction pool as [|x pool IH]; simpl; [contradiction|].
  destruct (String.eqb_spec (Resource.id x) (Resource.id r)) as [Heq|Hne].
  - intros _. now rewrite Heq.
  - intros [->|Hin]; [contradiction|].
    simpl. rewrite (IH Hin) at 1. apply perm_swap.
Qed.

(** The ids allocated by a pass over the slots of one required type,
    together with the ids left in the pool, are the ids of the pool the
    pass started with. *)
Lemma fill_slots_ids z required n pool :
  Permutation
    (List.map Allocation.resource_id (Backend.fill_slots cfg z required n pool).1.1
     ++ List.map Resource.id (Backend.fill_slots cfg z required n pool).1.2)%list
    (List.map Resource.id pool).
Proof.
  revert pool. induction n as [|n IH]; intros pool; simpl; [reflexivity|].
  destruct (Backend.nearest cfg z required pool) as [r|] eqn:Hnear; [|reflexivity].
  destruct (Backend.eta _ _) as [e|]; [|reflexivity].
  destruct (Backend.over_ceiling cfg e).
  - specialize (IH pool).
    destruct (Backend.fill_slots cfg z required n pool) as [[al pool'] unmet].
    exact IH.
  - specialize (IH (Backend.take_out (Resource.id r) pool)).
    destruct (Backend.fill_slots cfg z required n _) as [[al pool'] unmet].
    simpl in *. rewrite IH.
    symmetry. apply take_out_ids. eapply nearest_In, Hnear.
Qed.

Lemma fill_zone_ids z reqs pool :
  Permutation
    (List.map Allocation.resource_id (Backend.fill_zone cfg z reqs pool).1.1
     ++ List.map Resource.id (Backend.fill_zone cfg z reqs pool).1.2)%list
    (List.map Resource.id pool).
Proof.
  revert pool. induction reqs as [|[required n] reqs IH]; intros pool; simpl;
    [reflexivity|].
  pose proof (fill_slots_ids z required n pool) as H1.
  destruct (Backend.fill_slots cfg z required n pool) as [[al1 pool1] unmet1].
  specialize (IH pool1).
  destruct (Backend.fill_zone cfg z reqs pool1) as [[al2 pool2] unmet2].
  simpl in *. rewrite List.map_app, <- app_assoc, IH. exact H1.
Qed.

Lemma plan_zones_ids zones pool :
  Permutation
    (List.map Allocation.resource_id (Backend.plan_zones cfg zones pool).1.1.1
     ++ List.map Resource.id (Backend.plan_zones cfg zones pool).1.1.2)%list
    (List.map Resource.id pool).
Proof.
  revert pool. induction zones as [|z zones IH]; intros pool; simpl; [reflexivity|].
  pose proof (fill_zone_ids z (DisasterZone.required_resources z) pool) as H1.
  destruct (Backend.fill_zone cfg z _ pool) as [[al1 pool1] unmet1].
  specialize (IH pool1).
  destruct (Backend.plan_zones cfg zones pool1) as [[[al2 pool2] unserved] score].
  simpl in *. rewrite List.map_app, <- app_assoc, IH. exact H1.
Qed.

Lemma NoDup_map_filter {A B} (f : A -> B) (p : A -> bool) (l : list A) :
  NoDup (List.map f l) -> NoDup (List.map f (List.filter p l)).
Proof.
  induction l as [|x l IH]; simpl; [intros; constructor|].
  intros Hnd. apply NoDup_cons_1_1 in Hnd as Hx. apply NoDup_cons_1_2 in Hnd.
  destruct (p x); simpl; [|auto].
  apply NoDup_cons_2; [|auto].
  intros Hin. apply Hx.
  apply list_elem_of_In, in_map_iff in Hin as [y [Hy Hin]].
  apply filter_In in Hin as [Hin _].
  apply list_elem_of_In, in_map_iff. eauto.
Qed.

Lemma plan_allocations resources zones :
  AllocationPlan.allocations (Backend.plan cfg resources zones)
  = (Backend.plan_zones cfg (Backend.sort_zones zones)
       (Backend.initial_pool resources)).1.1.1.
Proof.
  unfold Backend.plan.
  now destruct (Backend.plan_zones cfg _ _) as [[[al pool] unserved] score].
Qed.

(** C1. In the plan of a set of resources with distinct ids, each
    resource id appears in at most one allocation. *)
Theorem plan_no_double_allocation (resources : list Resource.t)
    (zones : list DisasterZone.t) :
  NoDup (List.map Resource.id resources) ->
  NoDup (List.map Allocation.resource_id
           (AllocationPlan.allocations (Backend.plan cfg resources zones))).
Proof.
  intros Hnd. rewrite plan_allocations.
  pose proof (plan_zones_ids (Backend.sort_zones zones)
                (Backend.initial_pool resources)) as Hperm.
  apply (NoDup_map_filter Resource.id
           (fun r => Backend.is_available r && Backend.well_formed r)) in Hnd.
  fold (Backend.initial_pool resources) in Hnd.
  rewrite <- Hperm in Hnd.
  now apply NoDup_app in Hnd as [Hal _].
Qed.

(** Every allocation of a plan names an available resource of the input. *)
Lemma plan_allocates_pool resources zones a :
  In a (AllocationPlan.allocations (Backend.plan cfg resources zones)) ->
  exists r, In r resources /\ Resource.id r = Allocation.resource_id a
            /\ Backend.is_available r = true.
Proof.
  intros Hin. rewrite plan_allocations in Hin.
  pose proof (plan_zones_ids (Backend.sort_zones zones)
                (Backend.initial_pool resources)) as Hperm.
  assert (Hid : In (Allocation.resource_id a)
                  (List.map Resource.id (Backend.initial_pool resources))).
  { apply list_elem_of_In. rewrite <- Hperm. apply list_elem_of_In, in_or_app. left.
    now apply in_map. }
  apply in_map_iff in Hid as [r [Hr Hpool]].
  apply filter_In in Hpool as [Hres Hok]. apply andb_prop in Hok as [Hav _].
  eauto.
Qed.

End Planner.

(** ** The dispatch coordinator *)

Section Dispatch.

Variable cfg : Backend.config.

Lemma en_route_not_available r :
  Backend.is_available (Backend.set_resource_status EnRoute r) = false.
Proof. reflexivity. Qed.

(** Committing an allocation makes no resource valid that was not. *)
Lemma still_valid_commit b reg a :
  Backend.still_valid (Backend.commit b reg) a = true ->
  Backend.still_valid reg a = true.
Proof.
  unfold Backend.still_valid, Backend.commit. cbn [Registry.resources].
  rewrite lookup_alter.
  destruct (decide (Allocation.resource_id b = Allocation.resource_id a)) as [Heq|Hne].
  - rewrite Heq.
    destruct (Registry.resources reg !! Allocation.resource_id a) as [r|]; simpl.
    + rewrite en_route_not_available. discriminate.
    + discriminate.
  - trivial.
Qed.

(** The resource of a committed allocation is en route afterwards, and
    stays so. *)
Lemma commit_en_route a reg :
  Backend.still_valid reg a = true ->
  exists r, Registry.resources (Backend.commit a reg) !! Allocation.resource_id a = Some r
            /\ Resource.status r = status_label EnRoute.
Proof.
  unfold Backend.still_valid, Backend.commit. cbn [Registry.resources].
  rewrite lookup_alter, decide_True by reflexivity.
  destruct (Registry.resources reg !! Allocation.resource_id a) as [r|];
    [|discriminate].
  intros _. eexists. split; reflexivity.
Qed.

Lemma commit_keeps_en_route b reg rid r :
  Registry.resources reg !! rid = Some r ->
  Resource.status r = status_label EnRoute ->
  exists r', Registry.resources (Backend.commit b reg) !! rid = Some r'
             /\ Resource.status r' = status_label EnRoute.
Proof.
  intros Hr Hst. unfold Backend.commit. cbn [Registry.resources].
  rewrite lookup_alter.
  destruct (decide (Allocation.resource_id b = rid)) as [Heq|Hne].
  - rewrite Heq, Hr. eexists. split; reflexivity.
  - eauto.
Qed.

Lemma dispatch_all_keeps_en_route al reg rid r :
  Registry.resources reg !! rid = Some r ->
  Resource.status r = status_label EnRoute ->
  exists r', Registry.resources (Backend.dispatch_all al reg).1.1 !! rid = Some r'
             /\ Resource.status r' = status_label EnRoute.
Proof.
  revert reg r. induction al as [|a al IH]; intros reg r Hr Hst; simpl; [eauto|].
  destruct (Backend.still_valid reg a).
  - destruct (commit_keeps_en_route a reg rid r Hr Hst) as [r' [Hr' Hst']].
    specialize (IH _ _ Hr' Hst').
    now destruct (Backend.dispatch_all al (Backend.commit a reg)) as [[reg' c] d].
  - specialize (IH _ _ Hr Hst).
    now destruct (Backend.dispatch_all al reg) as [[reg' c] d].
Qed.

(** What [dispatch_all] does with the allocations of a plan: each one is
    committed or dropped; one whose resource is missing or not available
    when the dispatch starts is dropped; the resource of a committed one
    was available then and is en route in the end. *)
Lemma dispatch_all_accounts al reg :
  let '(reg', committed, dropped) := Backend.dispatch_all al reg in
  Permutation al (committed ++ dropped)
  /\ (forall a, In a al -> Backend.still_valid reg a = false -> In a dropped)
  /\ (forall a, In a committed ->
        Backend.still_valid reg a = true
        /\ exists r, Registry.resources reg' !! Allocation.resource_id a = Some r
                     /\ Resource.status r = status_label EnRoute).
Proof.
  revert reg. induction al as [|a al IH]; intros reg; simpl.
  - repeat split; [reflexivity|contradiction|contradiction|contradiction].
  - destruct (Backend.still_valid reg a) eqn:Hvalid.
    + specialize (IH (Backend.commit a reg)).
      pose proof (dispatch_all_keeps_en_route al (Backend.commit a reg)) as Hkeep.
      destruct (Backend.dispatch_all al (Backend.commit a reg)) as [[reg' c] d].
      destruct IH as [Hperm [Hdrop Hcommit]]. split; [|split].
      * simpl. now constructor.
      * intros x [<-|Hin] Hx; [congruence|].
        apply Hdrop; [exact Hin|].
        destruct (Backend.still_valid (Backend.commit a reg) x) eqn:E; [|reflexivity].
        apply still_valid_commit in E. congruence.
      * intros x [<-|Hin].
        -- split; [exact Hvalid|].
           destruct (commit_en_route _ _ Hvalid) as [r [Hr Hst]].
           exact (Hkeep _ _ Hr Hst).
        -- destruct (Hcommit x Hin) as [Hv Hr]. split; [|exact Hr].
           now apply still_valid_commit in Hv.
    + specialize (IH reg).
      destruct (Backend.dispatch_all al reg) as [[reg' c] d].
      destruct IH as [Hperm [Hdrop Hcommit]]. split; [|split].
      * rewrite Hperm. apply Permutation_middle.
      * intros x [<-|Hin] Hx; [now left|right; auto].
      * exact Hcommit.
Qed.

(** C4. [dispatch] answers with a summary of four fields, [status],
    [message], [committed_count] and [dropped_count].  Every allocation of
    the plan is either committed or dropped, the two counts are the
    numbers of the two kinds, and an allocation whose resource is gone or
    no longer available is among the dropped ones: it is counted. *)
Theorem dispatch_reports_every_drop (p : AllocationPlan.t) (reg : Registry.t) :
  let summary := (Backend.dispatch cfg p reg).2 in
  let reg' := (Backend.dispatch cfg p reg).1 in
  exists committed dropped : list Allocation.t,
    Permutation (AllocationPlan.allocations p) (committed ++ dropped)
    /\ summary = DispatchResult.mk
                   (Backend.dispatch_status cfg (length committed) (length dropped))
                   (Backend.dispatch_message cfg (length committed) (length dropped))
                   (length committed) (length dropped)
    /\ (forall a, In a (AllocationPlan.allocations p) ->
          Backend.still_valid reg a = false -> In a dropped)
    /\ (forall a, In a committed ->
          Backend.still_valid reg a = true
          /\ exists r, Registry.resources reg' !! Allocation.resource_id a = Some r
                       /\ Resource.status r = status_label EnRoute)
    /\ (DispatchResult.committed_count summary + DispatchResult.dropped_count summary
        = length (AllocationPlan.allocations p))%nat.
Proof.
  cbv zeta. unfold Backend.dispatch.
  pose proof (dispatch_all_accounts (AllocationPlan.allocations p) reg) as H.
  destruct (Backend.dispatch_all (AllocationPlan.allocations p) reg) as [[reg' c] d].
  destruct H as [Hperm [Hdrop Hcommit]].
  exists c, d. cbn [fst snd]. repeat split; try assumption.
  - now apply Hcommit.
  - now apply Hcommit.
  - cbn [DispatchResult.committed_count DispatchResult.dropped_count].
    rewrite (Permutation_length Hperm), length_app. reflexivity.
Qed.

(** Dispatching leaves the set of resource ids as it is: no resource is
    created or deleted. *)
Lemma dispatch_all_same_ids al reg rid :
  is_Some (Registry.resources (Backend.dispatch_all al reg).1.1 !! rid)
  <-> is_Some (Registry.resources reg !! rid).
Proof.
  revert reg. induction al as [|a al IH]; intros reg; simpl; [reflexivity|].
  destruct (Backend.still_valid reg a).
  - specialize (IH (Backend.commit a reg)).
    destruct (Backend.dispatch_all al (Backend.commit a reg)) as [[reg' c] d].
    simpl in *. rewrite IH. unfold Backend.commit. cbn [Registry.resources].
    rewrite lookup_alter.
    destruct (decide (Allocation.resource_id a = rid)) as [Heq|Hne].
    + now rewrite Heq, fmap_is_Some.
    + reflexivity.
  - specialize (IH reg).
    now destruct (Backend.dispatch_all al reg) as [[reg' c] d].
Qed.

End Dispatch.

(** ** Handlers and the registry *)

Section Hoare.

Context {S : Type}.
Variable R : Registry.t -> Registry.t -> Prop.
Hypothesis R_refl : forall reg, R reg reg.
Hypothesis R_trans : forall a b c, R a b -> R b c -> R a c.

Lemma respects_ret {A} (a : A) : respects R (Api.ret (S:=S) a).
Proof. intros s w. apply R_refl. Qed.

Lemma respects_get : respects R (Api.get (S:=S)).
Proof. intros s w. apply R_refl. Qed.

Lemma respects_modify (f : S -> S) : respects R (Api.modify f).
Proof. intros s w. apply R_refl. Qed.

Lemma respects_throw {A} : respects R (Api.throw (S:=S) (A:=A)).
Proof. intros s w. apply R_refl. Qed.

Lemma respects_bind {A B} (m : Api.Client S A) (k : A -> Api.Client S B) :
  respects R m -> (forall a, respects R (k a)) -> respects R (Api.bind m k).
Proof.
  intros Hm Hk s w. unfold Api.bind.
  specialize (Hm s w). destruct (m s w) as [[[a|] s'] w']; simpl in *.
  - eapply R_trans; [exact Hm|]. apply Hk.
  - exact Hm.
Qed.

Lemma respects_try_catch {A} (m h : Api.Client S A) :
  respects R m -> respects R h -> respects R (Api.try_catch m h).
Proof.
  intros Hm Hh s w. unfold Api.try_catch.
  specialize (Hm s w). destruct (m s w) as [[[a|] s'] w']; simpl in *.
  - exact Hm.
  - eapply R_trans; [exact Hm|]. apply Hh.
Qed.

Lemma respects_finally {A} (m : Api.Client S A) (f : Api.Client S unit) :
  respects R m -> respects R f -> respects R (Api.finally m f).
Proof.
  intros Hm Hf s w. unfold Api.finally.
  specialize (Hm s w). destruct (m s w) as [[r s'] w'].
  specialize (Hf s' w'). destruct (f s' w') as [[r' s''] w'']. simpl in *.
  eapply R_trans; eassumption.
Qed.

Lemma respects_all {A} (ms : list (Api.Client S A)) :
  Forall (respects R) ms -> respects R (Api.all ms).
Proof.
  induction 1 as [|m ms Hm _ IH]; simpl; [apply respects_ret|].
  intros s w. specialize (Hm s w). destruct (m s w) as [[r s'] w'].
  specialize (IH s' w'). destruct (Api.all ms s' w') as [[rs s''] w''].
  simpl in *. eapply R_trans; eassumption.
Qed.

Lemma respects_request cfg (c : ApiCall) :
  (forall reg, R reg (Backend.serve cfg c reg).1) ->
  respects R (Api.request (S:=S) cfg c).
Proof.
  intros Hc s [reg sent]. unfold Api.request.
  specialize (Hc reg). now destruct (Backend.serve cfg c reg) as [reg' resp].
Qed.

(** A property established by the first part and stable under [R]
    survives a rest that respects [R]. *)
Variable P : Registry.t -> Prop.
Hypothesis P_stable : forall reg reg', P reg -> R reg reg' -> P reg'.

Lemma establishes_bind {A B} (m : Api.Client S A) (k : A -> Api.Client S B) :
  establishes P m -> (forall a, respects R (k a)) -> establishes P (Api.bind m k).
Proof.
  intros Hm Hk s w. unfold Api.bind.
  specialize (Hm s w). destruct (m s w) as [[[a|] s'] w']; simpl in *.
  - eapply P_stable; [exact Hm|]. apply Hk.
  - exact Hm.
Qed.

Lemma establishes_try_catch {A} (m h : Api.Client S A) :
  establishes P m -> respects R h -> establishes P (Api.try_catch m h).
Proof.
  intros Hm Hh s w. unfold Api.try_catch.
  specialize (Hm s w). destruct (m s w) as [[[a|] s'] w']; simpl in *.
  - exact Hm.
  - eapply P_stable; [exact Hm|]. apply Hh.
Qed.

Lemma establishes_finally {A} (m : Api.Client S A) (f : Api.Client S unit) :
  establishes P m -> respects R f -> establishes P (Api.finally m f).
Proof.
  intros Hm Hf s w. unfold Api.finally.
  specialize (Hm s w). destruct (m s w) as [[r s'] w'].
  specialize (Hf s' w'). destruct (f s' w') as [[r' s''] w'']. simpl in *.
  eapply P_stable; eassumption.
Qed.

End Hoare.

Lemma cleanup_refl ids zoneId reg : cleanup ids zoneId reg reg.
Proof. split; [now left|reflexivity]. Qed.

Lemma cleanup_trans ids zoneId a b c :
  cleanup ids zoneId a b -> cleanup ids zoneId b c -> cleanup ids zoneId a c.
Proof.
  intros [Hr1 Hz1] [Hr2 Hz2]. split.
  - intros rid. destruct (Hr2 rid) as [E2|G2]; [|now right].
    rewrite E2. apply Hr1.
  - intros zid Hne. now rewrite Hz2, Hz1.
Qed.

Lemma gone_stable ids zoneId reg reg' :
  gone ids reg -> cleanup ids zoneId reg reg' -> gone ids reg'.
Proof.
  intros Hg [Hr _] rid Hin. destruct (Hr rid) as [E|[_ G]]; [|exact G].
  rewrite E. now apply Hg.
Qed.

Ltac respects_step refl trans :=
  lazymatch goal with
  | |- respects _ (Api.bind _ _) => apply (respects_bind _ trans); [|intros ?]
  | |- respects _ (Api.try_catch _ _) => apply (respects_try_catch _ trans)
  | |- respects _ (Api.finally _ _) => apply (respects_finally _ trans)
  | |- respects _ (Api.ret _) => apply (respects_ret _ refl)
  | |- respects _ Api.get => apply (respects_get _ refl)
  | |- respects _ (Api.modify _) => apply (respects_modify _ refl)
  | |- respects _ Api.throw => apply (respects_throw _ refl)
  | |- respects _ (Api.request _ _) => apply respects_request
  | |- respects _ (match ?x with _ => _ end) => destruct x
  | |- respects _ (Api.fetchSimulationData _) => unfold Api.fetchSimulationData
  | |- respects _ (Api.fetchSafeAreas _) => unfold Api.fetchSafeAreas
  | |- respects _ (Api.allocateResources _ _ _) => unfold Api.allocateResources
  | |- respects _ (Api.dispatchResources _ _) => unfold Api.dispatchResources
  | |- respects _ (Api.requestReinforcements _ _) => unfold Api.requestReinforcements
  | |- respects _ (Api.deleteResource _ _) => unfold Api.deleteResource
  | |- respects _ (Api.deleteDisaster _ _) => unfold Api.deleteDisaster
  | |- respects _ (Api.deleteResourcesBulk _ _) => unfold Api.deleteResourcesBulk
  end.

Section Cleanup.

Variable cfg : Backend.config.

(** The requests that only read leave the registry as it is. *)
Lemma serve_read_only (c : ApiCall) (reg : Registry.t) :
  is_mutation c = false -> (Backend.serve cfg c reg).1 = reg.
Proof. destruct c; try discriminate; reflexivity. Qed.

Lemma serve_DeleteResource_cleanup ids zoneId rid reg :
  In rid ids ->
  cleanup ids zoneId reg (Backend.serve cfg (DeleteResource rid) reg).1.
Proof.
  intros Hin. simpl. unfold Backend.deleteResource.
  destruct (Registry.resources reg !! rid) eqn:E; simpl; [|apply cleanup_refl].
  split; [|reflexivity]. intros rid'. cbn [Registry.resources].
  destruct (decide (rid = rid')) as [<-|Hne].
  - right. split; [exact Hin|apply lookup_delete_eq].
  - left. now apply lookup_delete_ne.
Qed.

Lemma serve_DeleteResource_gone rid reg :
  Registry.resources (Backend.serve cfg (DeleteResource rid) reg).1 !! rid = None.
Proof.
  simpl. unfold Backend.deleteResource.
  destruct (Registry.resources reg !! rid) eqn:E; simpl; [|exact E].
  apply lookup_delete_eq.
Qed.

Lemma serve_DeleteDisaster_cleanup ids zoneId reg :
  cleanup ids zoneId reg (Backend.serve cfg (DeleteDisaster zoneId) reg).1.
Proof.
  simpl. unfold Backend.deleteZone.
  destruct (Registry.zones reg !! zoneId) eqn:E; simpl; [|apply cleanup_refl].
  split; [now left|]. intros zid Hne. cbn [Registry.zones].
  apply lookup_delete_ne. congruence.
Qed.

Lemma bulkDeleteResources_cleanup ids zoneId batch reg :
  (forall rid, In rid batch -> In rid ids) ->
  cleanup ids zoneId reg (Backend.bulkDeleteResources batch reg).1.
Proof.
  revert reg. induction batch as [|rid batch IH]; intros reg Hsub; simpl;
    [apply cleanup_refl|].
  pose proof (serve_DeleteResource_cleanup ids zoneId rid reg (Hsub rid (or_introl eq_refl)))
    as Hone.
  simpl in Hone. destruct (Backend.deleteResource rid reg) as [reg1|].
  - specialize (IH reg1 (fun x Hx => Hsub x (or_intror Hx))).
    destruct (Backend.bulkDeleteResources batch reg1) as [reg2 n]. simpl in *.
    eapply cleanup_trans; eassumption.
  - apply IH. intros x Hx. apply Hsub. now right.
Qed.

Lemma bulkDeleteResources_gone batch reg :
  gone batch (Backend.bulkDeleteResources batch reg).1.
Proof.
  revert reg. induction batch as [|rid batch IH]; intros reg; [intros x []|].
  intros x Hx. simpl.
  pose proof (serve_DeleteResource_gone rid reg) as Hrid. simpl in Hrid.
  assert (Hsub : forall y, In y batch -> In y (rid :: batch)) by (intros; now right).
  destruct (Backend.deleteResource rid reg) as [reg1|].
  - pose proof (bulkDeleteResources_cleanup (rid :: batch) "" batch reg1 Hsub) as [Hc _].
    specialize (IH reg1).
    destruct (Backend.bulkDeleteResources batch reg1) as [reg2 n]. simpl in *.
    destruct Hx as [<-|Hx]; [|now apply IH].
    destruct (Hc rid) as [E|[_ G]]; [now rewrite E|exact G].
  - pose proof (bulkDeleteResources_cleanup (rid :: batch) "" batch reg Hsub) as [Hc _].
    specialize (IH reg).
    destruct Hx as [<-|Hx]; [|now apply IH].
    destruct (Hc rid) as [E|[_ G]]; [now rewrite E|exact G].
Qed.

Lemma loadData_cleanup ids zoneId :
  respects (cleanup ids zoneId) (Simulation.loadData cfg).
Proof.
  unfold Simulation.loadData.
  repeat respects_step (cleanup_refl ids zoneId) (cleanup_trans ids zoneId);
    intros reg; apply cleanup_refl.
Qed.

Lemma loadSimulationData_cleanup ids zoneId :
  respects (cleanup ids zoneId) (OperationOffice.loadSimulationData cfg).
Proof.
  unfold OperationOffice.loadSimulationData.
  repeat respects_step (cleanup_refl ids zoneId) (cleanup_trans ids zoneId);
    intros reg; apply cleanup_refl.
Qed.

(** Sending a delete for each resource of a list: they are all gone
    afterwards, and nothing else has changed. *)
Lemma delete_each_cleanup {S} ids zoneId (rs : list Resource.t) :
  (forall r, In r rs -> In (Resource.id r) ids) ->
  respects (S:=S) (cleanup ids zoneId)
    (Api.all (List.map (fun res => Api.deleteResource cfg (Resource.id res)) rs)).
Proof.
  intros Hsub. apply (respects_all _ (cleanup_refl ids zoneId) (cleanup_trans ids zoneId)).
  apply Forall_forall. intros m Hm.
  apply list_elem_of_In, in_map_iff in Hm as [r [<- Hr]].
  repeat respects_step (cleanup_refl ids zoneId) (cleanup_trans ids zoneId).
  intros reg. apply serve_DeleteResource_cleanup. now apply Hsub.
Qed.

Lemma delete_each_gone {S} (rs : list Resource.t) :
  establishes (S:=S) (gone (List.map Resource.id rs))
    (Api.all (List.map (fun res => Api.deleteResource cfg (Resource.id res)) rs)).
Proof.
  induction rs as [|r rs IH]; intros s w; [intros x []|].
  cbn [List.map Api.all].
  pose proof (delete_each_cleanup (S:=S) (List.map Resource.id (r :: rs)) "" rs) as Hrest.
  destruct (Api.deleteResource cfg (Resource.id r) s w) as [[res s'] w'] eqn:E.
  assert (Hr : Registry.resources w'.1 !! Resource.id r = None).
  { destruct w as [reg sent]. unfold Api.deleteResource, Api.bind, Api.request in E.
    pose proof (serve_DeleteResource_gone (Resource.id r) reg) as Hg.
    destruct (Backend.serve cfg (DeleteResource (Resource.id r)) reg) as [reg1 resp].
    destruct resp; simpl in E; injection E as <- <- <-; exact Hg. }
  specialize (IH s' w'). specialize (Hrest (fun x Hx => in_cons _ _ _ (in_map _ _ _ Hx)) s' w').
  destruct (Api.all _ s' w') as [[rs' s''] w'']. simpl in *.
  intros x [<-|Hx]; [|now apply IH].
  destruct Hrest as [Hc _]. destruct (Hc (Resource.id r)) as [Eq|[_ G]];
    [now rewrite Eq|exact G].
Qed.

End Cleanup.

(** ** Deleting a zone *)

Lemma bind_get {S B} (k : S -> Api.Client S B) s w :
  Api.bind Api.get k s w = k s s w.
Proof. reflexivity. Qed.

Lemma bind_modify {S B} (f : S -> S) (k : unit -> Api.Client S B) s w :
  Api.bind (Api.modify f) k s w = k tt (f s) w.
Proof. reflexivity. Qed.

Lemma cleaned_up_intro ids zoneId reg reg' :
  gone ids reg' -> cleanup ids zoneId reg reg' -> cleaned_up ids zoneId reg reg'.
Proof.
  intros Hg [Hr Hz]. split; [exact Hg|split; [|exact Hz]].
  intros rid Hnot. destruct (Hr rid) as [E|[Hin _]]; [exact E|contradiction].
Qed.

Section DeleteZone.

Variable cfg : Backend.config.

Ltac cleanup_steps ids zoneId :=
  repeat first
    [ apply loadData_cleanup
    | apply loadSimulationData_cleanup
    | respects_step (cleanup_refl ids zoneId) (cleanup_trans ids zoneId) ].

Lemma simulation_handleDeleteZone_cleaned zoneId st w :
  let ids := List.map Resource.id (Simulation.resources st) in
  let reg' := (Simulation.handleDeleteZone cfg zoneId st w).2.1 in
  match find_zone zoneId (Simulation.zones st) with
  | Some _ => cleaned_up ids zoneId w.1 reg'
  | None => reg' = w.1
  end.
Proof.
  cbv zeta. unfold Simulation.handleDeleteZone. rewrite bind_get.
  destruct (find_zone zoneId (Simulation.zones st)) as [zone|]; [|reflexivity].
  rewrite bind_modify.
  set (ids := List.map Resource.id (Simulation.resources st)).
  apply cleaned_up_intro.
  - apply (establishes_finally (cleanup ids zoneId) (gone ids) (gone_stable ids zoneId));
      [|cleanup_steps ids zoneId].
    apply (establishes_try_catch (cleanup ids zoneId) (gone ids) (gone_stable ids zoneId));
      [|cleanup_steps ids zoneId].
    apply (establishes_bind (cleanup ids zoneId) (gone ids) (gone_stable ids zoneId));
      [apply delete_each_gone|].
    intros _. cleanup_steps ids zoneId.
    all: intros reg; first [apply serve_DeleteDisaster_cleanup | apply cleanup_refl].
  - match goal with
    | |- cleanup _ _ _ (?m ?s ?w').2.1 =>
        generalize s w'; change (respects (cleanup ids zoneId) m)
    end.
    cleanup_steps ids zoneId.
    + apply delete_each_cleanup. intros r Hr. now apply in_map.
    + intros reg. apply serve_DeleteDisaster_cleanup.
Qed.

Lemma office_handleDeleteZone_cleaned zoneId st w :
  let ids := List.map Resource.id (OperationOffice.resources st) in
  let reg' := (OperationOffice.handleDeleteZone cfg true zoneId st w).2.1 in
  match find_zone zoneId (OperationOffice.zones st) with
  | Some _ => cleaned_up ids zoneId w.1 reg'
  | None => reg' = w.1
  end.
Proof.
  cbv zeta. unfold OperationOffice.handleDeleteZone. rewrite bind_get.
  destruct (find_zone zoneId (OperationOffice.zones st)) as [zone|]; [|reflexivity].
  cbn [negb]. rewrite bind_modify.
  set (ids := List.map Resource.id (OperationOffice.resources st)).
  assert (Hbulk : forall reg, cleanup ids zoneId reg
                                (Backend.serve cfg (PostBulkDelete ids) reg).1).
  { intros reg. simpl.
    pose proof (bulkDeleteResources_cleanup cfg ids zoneId ids reg (fun _ H => H)) as H.
    now destruct (Backend.bulkDeleteResources ids reg). }
  apply cleaned_up_intro.
  - apply (establishes_finally (cleanup ids zoneId) (gone ids) (gone_stable ids zoneId));
      [|cleanup_steps ids zoneId].
    apply (establishes_try_catch (cleanup ids zoneId) (gone ids) (gone_stable ids zoneId));
      [|cleanup_steps ids zoneId].
    apply (establishes_bind (cleanup ids zoneId) (gone ids) (gone_stable ids zoneId)).
    + destruct ids as [|rid ids'] eqn:Hids; cbn [length Nat.ltb Nat.leb].
      * intros s w' x [].
      * rewrite <- Hids.
        apply (establishes_bind (cleanup ids zoneId) (gone ids) (gone_stable ids zoneId));
          [|intros ?; cleanup_steps ids zoneId].
        apply (establishes_bind (cleanup ids zoneId) (gone ids) (gone_stable ids zoneId));
          [|intros ?; cleanup_steps ids zoneId].
        intros s [reg sent]. unfold Api.request.
        pose proof (bulkDeleteResources_gone cfg ids reg) as Hg.
        simpl. now destruct (Backend.bulkDeleteResources ids reg).
    + intros _. cleanup_steps ids zoneId.
      all: intros reg; first [apply serve_DeleteDisaster_cleanup | apply cleanup_refl].
  - match goal with
    | |- cleanup _ _ _ (?m ?s ?w').2.1 =>
        generalize s w'; change (respects (cleanup ids zoneId) m)
    end.
    cleanup_steps ids zoneId.
    all: try (intros reg; first [apply Hbulk | apply serve_DeleteDisaster_cleanup]).
    all: destruct (0 <? length ids)%nat; cleanup_steps ids zoneId; exact Hbulk.
Qed.

(** C2 (as amended). When a zone of the page is deleted, the cleanup of
    the caller asks the engine to delete every resource of the page's
    current list, tied to the zone or not: afterwards none of them is in
    the registry, while resources outside that list and the other zones
    are as they were.  When the page does not know the zone, or the
    operator declines the confirmation, nothing is sent. *)
Theorem delete_zone_removes_all_listed_resources :
  (forall zoneId (st : Simulation.state) (w : Api.world),
     match find_zone zoneId (Simulation.zones st) with
     | Some _ =>
         cleaned_up (List.map Resource.id (Simulation.resources st)) zoneId
           w.1 (Simulation.handleDeleteZone cfg zoneId st w).2.1
     | None => (Simulation.handleDeleteZone cfg zoneId st w).2 = w
     end)
  /\ (forall zoneId (st : OperationOffice.state) (w : Api.world),
     match find_zone zoneId (OperationOffice.zones st) with
     | Some _ =>
         cleaned_up (List.map Resource.id (OperationOffice.resources st)) zoneId
           w.1 (OperationOffice.handleDeleteZone cfg true zoneId st w).2.1
     | None => (OperationOffice.handleDeleteZone cfg true zoneId st w).2 = w
     end)
  /\ (forall zoneId (st : OperationOffice.state) (w : Api.world),
     (OperationOffice.handleDeleteZone cfg false zoneId st w).2 = w).
Proof.
  split; [|split]; intros zoneId st w.
  - pose proof (simulation_handleDeleteZone_cleaned zoneId st w) as H. cbv zeta in H.
    destruct (find_zone zoneId (Simulation.zones st)) eqn:E; [exact H|].
    unfold Simulation.handleDeleteZone. rewrite bind_get. now rewrite E.
  - pose proof (office_handleDeleteZone_cleaned zoneId st w) as H. cbv zeta in H.
    destruct (find_zone zoneId (OperationOffice.zones st)) eqn:E; [exact H|].
    unfold OperationOffice.handleDeleteZone. rewrite bind_get. now rewrite E.
  - unfold OperationOffice.handleDeleteZone. rewrite bind_get.
    now destruct (find_zone zoneId (OperationOffice.zones st)).
Qed.

End DeleteZone.

(** ** Reinforcements *)

(** C5. [requestReinforcements] sends one request, the reinforcement,
    and plans nothing.  A click in the operation office sends it only
    for a plan with unserved zones, for exactly those zones, and the
    click handler then asks for a new plan; with no plan or no unserved
    zone there is no button and nothing is sent. *)
Theorem reinforcement_only_for_unserved_then_replan (cfg : Backend.config) :
  (forall (S : Type) (zoneIds : list string) (s : S) (reg : Registry.t)
          (sent : list ApiCall),
     (Api.requestReinforcements cfg zoneIds s (reg, sent)).2
     = ((Backend.reinforce cfg zoneIds reg).1, (sent ++ [PostReinforce zoneIds])%list))
  /\ (forall (st : OperationOffice.state) (reg : Registry.t) (sent : list ApiCall),
        let after :=
          (ResourceSidebar.click (office_reinforce_button cfg st) st (reg, sent)).2 in
        match OperationOffice.allocationPlan st with
        | Some p =>
            match AllocationPlan.unserved_zones p with
            | [] => after = (reg, sent)
            | _ :: _ =>
                after
                = ((Backend.reinforce cfg (AllocationPlan.unserved_zones p) reg).1,
                   (sent ++ [PostReinforce (AllocationPlan.unserved_zones p);
                             PostAllocate (OperationOffice.resources st)
                               (OperationOffice.filteredZones st)])%list)
            end
        | None => after = (reg, sent)
        end).
Proof.
  split.
  - reflexivity.
  - intros st reg sent. cbv zeta. unfold office_reinforce_button.
    destruct (OperationOffice.allocationPlan st) as [p|]; [|reflexivity].
    unfold ResourceSidebar.reinforce_button, ResourceSidebar.reinforce_rendered,
      ResourceSidebar.reinforce_onClick.
    destruct (AllocationPlan.unserved_zones p) as [|zid zids]; [reflexivity|].
    cbn. now rewrite <- app_assoc.
Qed.

(** ** Discarding a plan *)

(** C6. Discarding a plan sends nothing and leaves the registry and the
    page's resources and zones as they are; generating a plan and then
    discarding it has sent the planning request only, which is not a
    mutation. *)
Theorem discard_plan_has_no_side_effect (cfg : Backend.config)
    (st : Simulation.state) (w : Api.world) :
  Simulation.discard st w = (Some tt, Simulation.setAllocationPlan None st, w)
  /\ (let generated := Simulation.handleAllocate cfg st w in
      let discarded := Simulation.discard generated.1.2 generated.2 in
      discarded.2.1 = w.1
      /\ discarded.2.2 = (w.2 ++ [PostAllocate (Simulation.resources st)
                                    (Simulation.zones st)])%list
      /\ Forall (fun c => is_mutation c = false)
           [PostAllocate (Simulation.resources st) (Simulation.zones st)]
      /\ Simulation.resources discarded.1.2 = Simulation.resources st
      /\ Simulation.zones discarded.1.2 = Simulation.zones st
      /\ Simulation.allocationPlan discarded.1.2 = None).
Proof.
  split; [reflexivity|]. destruct w as [reg sent]. cbv zeta.
  repeat split. constructor; [reflexivity|constructor].
Qed.

(** What the pages keep of the summary of a dispatch: the operation
    office shows its [message]; the counts are not read. *)
Lemma office_dispatch_shows_message (cfg : Backend.config)
    (st : OperationOffice.state) (w : Api.world) (p : AllocationPlan.t) :
  OperationOffice.allocationPlan st = Some p ->
  let after := (OperationOffice.handleDispatch cfg st w).1.2 in
  OperationOffice.dispatchStatus after
  = Some (DispatchResult.message (Backend.dispatch cfg p w.1).2)
  /\ OperationOffice.allocationPlan after = None.
Proof.
  intros Hplan. destruct w as [reg sent]. cbv zeta.
  unfold OperationOffice.handleDispatch. rewrite bind_get, Hplan, bind_modify.
  cbv [Api.finally Api.try_catch Api.dispatchResources Api.request Api.bind
       Api.modify Api.ret Api.throw OperationOffice.loadSimulationData
       Api.fetchSimulationData Api.fetchSafeAreas Backend.serve].
  cbn [fst snd]. destruct (Backend.dispatch cfg p reg) as [reg' result].
  destruct (Backend.snapshot reg') as [rs zs].
  split; reflexivity.
Qed.

(** ** The scenario *)

Example sample_plan_allocations :
  List.map (fun a => (Allocation.resource_id a, Allocation.zone_id a))
    (AllocationPlan.allocations sample_plan)
  = [("ambulance-1", "zone-flood"); ("ambulance-2", "zone-flood");
     ("truck-1", "zone-fire")].
Proof. vm_compute. reflexivity. Qed.

(** The sample resources have distinct ids, and so has their plan. *)
Lemma plan_no_double_allocation_witness :
  NoDup (List.map Resource.id sample_resources)
  /\ NoDup (List.map Allocation.resource_id
              (AllocationPlan.allocations
                 (Backend.plan sample_cfg sample_resources sample_zones))).
Proof.
  assert (H : NoDup (List.map Resource.id sample_resources)).
  { repeat (apply NoDup_cons_2; [intros Hin; repeat (apply elem_of_cons in Hin as [Hin|Hin];
        [discriminate|]); now apply elem_of_nil in Hin|]).
    apply NoDup_nil_2. }
  split; [exact H|].
  apply (plan_no_double_allocation sample_cfg sample_resources sample_zones H).
Defined.

(** Deleting the flood zone on the simulation page also deletes the fire
    truck, which the plan ties to the wildfire and not to the flood. *)
Lemma delete_zone_removes_untied_resource :
  tied_to (Simulation.allocationPlan sample_page) "truck-1" "zone-flood" = false
  /\ Registry.resources sample_registry !! "truck-1" = Some truck_1
  /\ Registry.resources
       (Simulation.handleDeleteZone sample_cfg "zone-flood" sample_page
          (sample_registry, [])).2.1 !! "truck-1" = None.
Proof. vm_compute. repeat split; reflexivity. Qed.

Example delete_zone_requests :
  (Simulation.handleDeleteZone sample_cfg "zone-flood" sample_page
     (sample_registry, [])).2.2
  = [DeleteResource "ambulance-1"; DeleteResource "ambulance-2";
     DeleteResource "truck-1"; DeleteDisaster "zone-flood";
     GetSimulationData; GetSafeAreas].
Proof. vm_compute. reflexivity. Qed.

(** The ambulance [ambulance-2] is deleted after planning: the dispatch
    of the plan commits the two other allocations and reports one
    dropped; dispatching the same plan again commits nothing. *)
Example dispatch_after_deletion :
  let reg := default sample_registry (Backend.deleteResource "ambulance-2" sample_registry) in
  let first := Backend.dispatch sample_cfg sample_plan reg in
  let second := Backend.dispatch sample_cfg sample_plan first.1 in
  (DispatchResult.committed_count first.2, DispatchResult.dropped_count first.2) = (2, 1)%nat
  /\ (DispatchResult.committed_count second.2, DispatchResult.dropped_count second.2) = (0, 3)%nat
  /\ second.1 = first.1.
Proof. vm_compute. repeat split; reflexivity. Qed.

(** With two ambulances and a flood that needs three, the flood stays
    unserved and the office shows the reinforcement button; a click sends
    the reinforcement request for the flood, then a planning request. *)
Example reinforce_click_requests :
  let shortfall :=
    DisasterZone.mk "zone-flood" "Flood" 9 (Location.mk 19 73.0625) 12000 0.5
      [("Ambulance", 3%nat)] (Some "Active") in
  let p := Backend.plan sample_cfg sample_resources [shortfall] in
  let st := OperationOffice.mk_state sample_resources [shortfall] [] (Some p) false None None in
  AllocationPlan.unserved_zones p = ["zone-flood"]
  /\ (ResourceSidebar.click (office_reinforce_button sample_cfg st) st
        (sample_registry, [])).2.2
     = [PostReinforce ["zone-flood"]; PostAllocate sample_resources [shortfall]].
Proof. vm_compute. split; reflexivity. Qed.

(** * Further properties of the front end *)

(** ** The order of the doubles *)

Ltac order_cases :=
  repeat match goal with
  | H : context [(?a ?= ?b)%Z] |- _ => destruct (Z.compare_spec a b); simpl in H
  | H : context [PosDef.Pos.compare_cont Eq ?a ?b] |- _ =>
      change (PosDef.Pos.compare_cont Eq a b) with (Pos.compare a b) in H;
      destruct (Pos.compare_spec a b); simpl in H
  | |- context [(?a ?= ?b)%Z] => destruct (Z.compare_spec a b); simpl
  | |- context [PosDef.Pos.compare_cont Eq ?a ?b] =>
      change (PosDef.Pos.compare_cont Eq a b) with (Pos.compare a b);
      destruct (Pos.compare_spec a b); simpl
  end;
  try discriminate; try reflexivity; try lia.

Lemma SFcompare_swap (x y : spec_float) :
  SFcompare y x = option_map CompOpp (SFcompare x y).
Proof.
  destruct x as [sx|sx| |sx mx ex], y as [sy|sy| |sy my ey]; simpl;
    try reflexivity; try (destruct sx; reflexivity); try (destruct sy; reflexivity);
    try (destruct sx, sy; reflexivity).
  destruct sx, sy; simpl; try reflexivity; f_equal; order_cases.
Qed.

Lemma SFcompare_chain (x y z : spec_float) (c1 c2 : comparison) :
  SFcompare x y = Some c1 -> SFcompare y z = Some c2 ->
  c1 <> Gt -> c2 <> Gt ->
  SFcompare x z = Some (below c1 c2).
Proof.
  destruct x as [sx|sx| |sx mx ex], y as [sy|sy| |sy my ey], z as [sz|sz| |sz mz ez];
    simpl; try discriminate;
    intros H1 H2; injection H1 as H1; injection H2 as H2; subst c1 c2;
    intros N1 N2; f_equal;
    repeat match goal with s : bool |- _ => destruct s end;
    simpl in *; try congruence; order_cases; congruence.
Qed.

Lemma leb_trans (x y z : float) :
  PrimFloat.leb x y = true -> PrimFloat.leb y z = true -> PrimFloat.leb x z = true.
Proof.
  rewrite !leb_spec. unfold SFleb.
  destruct (SFcompare (Prim2SF x) (Prim2SF y)) as [c1|] eqn:Hxy; [|discriminate].
  destruct (SFcompare (Prim2SF y) (Prim2SF z)) as [c2|] eqn:Hyz;
    [|destruct c1; discriminate].
  intros H1 H2.
  rewrite (SFcompare_chain _ _ _ c1 c2 Hxy Hyz);
    destruct c1, c2; try discriminate; reflexivity.
Qed.

Lemma ltb_leb_trans (x y z : float) :
  PrimFloat.ltb x y = true -> PrimFloat.leb y z = true -> PrimFloat.ltb x z = true.
Proof.
  rewrite !leb_spec, !ltb_spec. unfold SFleb, SFltb.
  destruct (SFcompare (Prim2SF x) (Prim2SF y)) as [c1|] eqn:Hxy; [|discriminate].
  destruct (SFcompare (Prim2SF y) (Prim2SF z)) as [c2|] eqn:Hyz;
    [|destruct c1; discriminate].
  intros H1 H2.
  rewrite (SFcompare_chain _ _ _ c1 c2 Hxy Hyz);
    destruct c1, c2; try discriminate; reflexivity.
Qed.

Lemma ltb_not_leb (x y : float) :
  PrimFloat.ltb x y = true -> PrimFloat.leb y x = false.
Proof.
  rewrite leb_spec, ltb_spec. unfold SFleb, SFltb.
  rewrite (SFcompare_swap (Prim2SF x) (Prim2SF y)).
  destruct (SFcompare (Prim2SF x) (Prim2SF y)) as [[]|]; simpl; congruence.
Qed.

Lemma ltb_not_ltb (x y : float) :
  PrimFloat.ltb x y = true -> PrimFloat.ltb y x = false.
Proof.
  rewrite !ltb_spec. unfold SFltb.
  rewrite (SFcompare_swap (Prim2SF x) (Prim2SF y)).
  destruct (SFcompare (Prim2SF x) (Prim2SF y)) as [[]|]; simpl; congruence.
Qed.

(** ** Severity: labels, colours and the legend *)

(** The bands nest: a severity of at least 8 is at least 5, and one of
    at least 5 is at least 3. *)
Lemma severity_bands (s : float) :
  (PrimFloat.leb 8 s = true -> PrimFloat.leb 5 s = true)
  /\ (PrimFloat.leb 5 s = true -> PrimFloat.leb 3 s = true).
Proof.
  split; intros H; refine (leb_trans _ _ _ _ H); reflexivity.
Qed.

(** X1. [getSeverityLabel] is monotone: of two severities, the greater
    one never gets the milder label (Low < Medium < High < Critical). *)
Theorem severity_label_monotone (a b : float) :
  PrimFloat.leb a b = true ->
  (label_rank (MapUtils.getSeverityLabel a)
   <= label_rank (MapUtils.getSeverityLabel b))%nat.
Proof.
  intros Hab. unfold MapUtils.getSeverityLabel.
  destruct (PrimFloat.leb 8 a) eqn:H8.
  { rewrite (leb_trans _ _ _ H8 Hab). reflexivity. }
  destruct (PrimFloat.leb 5 a) eqn:H5.
  { rewrite (leb_trans _ _ _ H5 Hab). destruct (PrimFloat.leb 8 b); cbn; lia. }
  destruct (PrimFloat.leb 3 a) eqn:H3.
  { rewrite (leb_trans _ _ _ H3 Hab).
    destruct (PrimFloat.leb 8 b), (PrimFloat.leb 5 b); cbn; lia. }
  destruct (PrimFloat.leb 8 b), (PrimFloat.leb 5 b), (PrimFloat.leb 3 b); cbn; lia.
Qed.

Lemma severity_label_monotone_witness :
  PrimFloat.leb 4.5 7 = true
  /\ (label_rank (MapUtils.getSeverityLabel 4.5)
      <= label_rank (MapUtils.getSeverityLabel 7))%nat.
Proof.
  split; [reflexivity|apply (severity_label_monotone 4.5 7); reflexivity].
Defined.

(** X2. The "Zone Severity" legend is truthful: for each of its
    entries, a severity gets the entry's label exactly when it gets the
    colour of the entry's disc; every whole severity in the range the
    entry prints gets that label; and every severity, NaN included,
    gets the label of one of the entries. *)
Theorem severity_legend_is_truthful :
  Forall
    (fun e =>
       (forall s : float,
           MapUtils.getSeverityLabel s = MapLegend.label e
           <-> MapUtils.getSeverityColor s = MapLegend.backgroundColor e)
       /\ exists lo hi : Z,
            range_bounds (MapLegend.range e) = Some (lo, hi)
            /\ forall n : Z, (lo <= n <= hi)%Z ->
                 MapUtils.getSeverityLabel (Js.of_Z n) = MapLegend.label e)
    MapLegend.zone_severity
  /\ forall s : float,
       exists e, In e MapLegend.zone_severity
                 /\ MapUtils.getSeverityLabel s = MapLegend.label e.
Proof.
  split.
  - unfold MapLegend.zone_severity.
    repeat (apply List.Forall_cons; [split|]); [| | | | | | | |apply List.Forall_nil].
    1,3,5,7: intros s; unfold MapLegend.backgroundColor, MapUtils.getSeverityLabel,
      MapUtils.getSeverityColor; cbn [MapLegend.label MapLegend.severity];
      repeat match goal with
        | |- context [PrimFloat.leb ?a ?b] =>
            is_ground a; is_ground b;
            let v := eval vm_compute in (PrimFloat.leb a b) in
            change (PrimFloat.leb a b) with v
        end; cbv iota;
      destruct (PrimFloat.leb 8 s), (PrimFloat.leb 5 s), (PrimFloat.leb 3 s);
      split; (reflexivity || discriminate).
    + exists 8%Z, 10%Z. split; [reflexivity|]. intros n Hn.
      assert (Hc : n = 8%Z \/ n = 9%Z \/ n = 10%Z) by lia.
      destruct Hc as [->|[->| ->]]; reflexivity.
    + exists 5%Z, 7%Z. split; [reflexivity|]. intros n Hn.
      assert (Hc : n = 5%Z \/ n = 6%Z \/ n = 7%Z) by lia.
      destruct Hc as [->|[->| ->]]; reflexivity.
    + exists 3%Z, 4%Z. split; [reflexivity|]. intros n Hn.
      assert (Hc : n = 3%Z \/ n = 4%Z) by lia.
      destruct Hc as [->| ->]; reflexivity.
    + exists 1%Z, 2%Z. split; [reflexivity|]. intros n Hn.
      assert (Hc : n = 1%Z \/ n = 2%Z) by lia.
      destruct Hc as [->| ->]; reflexivity.
  - intros s. unfold MapUtils.getSeverityLabel, MapLegend.zone_severity.
    destruct (PrimFloat.leb 8 s); [eexists; split; [left; reflexivity|reflexivity]|].
    destruct (PrimFloat.leb 5 s);
      [eexists; split; [right; left; reflexivity|reflexivity]|].
    destruct (PrimFloat.leb 3 s);
      [eexists; split; [right; right; left; reflexivity|reflexivity]|].
    eexists; split; [right; right; right; left; reflexivity|reflexivity].
Qed.

(** X3. The three views that colour a zone by its severity agree on the
    bands from 5 upwards and part below: from 3 upwards the heat-map
    circle has the colour of the zone marker, below 3 (and for NaN) the
    circle is yellow while the marker is green; the badge of the sidebar
    is red exactly when the marker is red, orange exactly when it is
    orange, and blue for everything below 5. *)
Theorem severity_colors_across_views (s : float) :
  (PrimFloat.leb 3 s = true ->
     DisasterMap.heat_fillColor s = DisasterMap.createDisasterIcon s)
  /\ (PrimFloat.leb 3 s = false ->
        DisasterMap.heat_fillColor s = MapUtils.yellow
        /\ DisasterMap.createDisasterIcon s = MapUtils.green)
  /\ (ResourceSidebar.severity_badge s = "bg-red-900/50 text-red-500"
      <-> DisasterMap.createDisasterIcon s = MapUtils.red)
  /\ (ResourceSidebar.severity_badge s = "bg-orange-900/50 text-orange-500"
      <-> DisasterMap.createDisasterIcon s = MapUtils.orange)
  /\ (ResourceSidebar.severity_badge s = "bg-blue-900/50 text-blue-500"
      <-> PrimFloat.leb 5 s = false).
Proof.
  destruct (severity_bands s) as [H85 H53].
  unfold DisasterMap.heat_fillColor, DisasterMap.createDisasterIcon,
    MapUtils.getSeverityColor, ResourceSidebar.severity_badge.
  destruct (PrimFloat.leb 8 s) eqn:H8.
  { specialize (H85 eq_refl). rewrite H85 in *. rewrite (H53 eq_refl).
    repeat split; intros; (reflexivity || discriminate). }
  destruct (PrimFloat.leb 5 s) eqn:H5.
  { rewrite (H53 eq_refl). repeat split; intros; (reflexivity || discriminate). }
  destruct (PrimFloat.leb 3 s) eqn:H3;
    repeat split; intros; (reflexivity || discriminate).
Qed.

(** ** Marker sizes and clustering *)

(** X4. [getMarkerSize] is monotone: zooming in never makes the markers
    smaller. *)
Theorem getMarkerSize_monotone (a b : float) :
  PrimFloat.leb a b = true ->
  (MapUtils.getMarkerSize a <= MapUtils.getMarkerSize b)%Z.
Proof.
  intros Hab. unfold MapUtils.getMarkerSize.
  destruct (PrimFloat.leb 13 a) eqn:H13.
  - now rewrite (leb_trans _ _ _ H13 Hab).
  - destruct (PrimFloat.leb 10 a) eqn:H10.
    + rewrite (leb_trans _ _ _ H10 Hab). destruct (PrimFloat.leb 13 b); lia.
    + destruct (PrimFloat.leb 13 b), (PrimFloat.leb 10 b); lia.
Qed.

Lemma getMarkerSize_monotone_witness :
  PrimFloat.leb 11 14 = true
  /\ (MapUtils.getMarkerSize 11 <= MapUtils.getMarkerSize 14)%Z.
Proof.
  split; [reflexivity|apply (getMarkerSize_monotone 11 14); reflexivity].
Defined.

(** X5. At a zoom level where [shouldClusterResources] asks for
    clusters, [getMarkerSize] never gives the large marker: the size is
    32 at most.  The size 40 belongs to zoom levels without clustering. *)
Theorem clustered_markers_are_not_large (zoomLevel : float) :
  MapUtils.shouldClusterResources zoomLevel = true ->
  (MapUtils.getMarkerSize zoomLevel <= 32)%Z.
Proof.
  unfold MapUtils.shouldClusterResources, MapUtils.getMarkerSize. intros Hz.
  assert (H13 : PrimFloat.leb 13 zoomLevel = false).
  { apply ltb_not_leb. apply (ltb_leb_trans _ 12); [exact Hz|reflexivity]. }
  rewrite H13. destruct (PrimFloat.leb 10 zoomLevel); lia.
Qed.

Lemma clustered_markers_are_not_large_witness :
  MapUtils.shouldClusterResources 11.5 = true
  /\ (MapUtils.getMarkerSize 11.5 <= 32)%Z.
Proof.
  split; [reflexivity|apply (clustered_markers_are_not_large 11.5); reflexivity].
Defined.

(** ** The heat map *)

Lemma binary_round_aux_unsigned m e l :
  unsigned (binary_round_aux prec emax false m e l) = true.
Proof.
  unfold binary_round_aux.
  destruct (shr_fexp prec emax m e l) as [mrs' e'].
  destruct (shr_fexp prec emax _ e' loc_Exact) as [mrs'' e''].
  destruct (shr_m mrs''); [reflexivity| |reflexivity].
  now destruct (e'' <=? emax - prec)%Z.
Qed.

Lemma SFmul_unsigned (a b : spec_float) :
  unsigned a = true -> unsigned b = true -> unsigned (SFmul prec emax a b) = true.
Proof.
  unfold SFmul.
  destruct a as [sa|sa| |sa ma ea], b as [sb|sb| |sb mb eb];
    cbn [unsigned]; try reflexivity; intros Ha Hb;
    try (apply negb_true_iff in Ha; subst sa);
    try (apply negb_true_iff in Hb; subst sb);
    try reflexivity.
  apply binary_round_aux_unsigned.
Qed.

(** Dividing by a positive number keeps the sign. *)
Lemma SFdiv_unsigned (a : spec_float) (mb : positive) (eb : Z) :
  unsigned a = true ->
  unsigned (SFdiv prec emax a (S754_finite false mb eb)) = true.
Proof.
  unfold SFdiv.
  destruct a as [sa|sa| |sa ma ea]; cbn [unsigned]; try reflexivity; intros Ha;
    try (apply negb_true_iff in Ha; subst sa); try reflexivity.
  destruct (SFdiv_core_binary _ _ _ _ _ _) as [[mz ez] lz].
  apply binary_round_aux_unsigned.
Qed.

Lemma of_Z_unsigned (z : Z) : (0 <= z)%Z -> unsigned (Prim2SF (Js.of_Z z)) = true.
Proof.
  intros Hz. unfold Js.of_Z.
  destruct (Z.ltb_spec z 0) as [Hneg|_]; [lia|].
  rewrite of_uint63_spec.
  pose proof (Uint63.to_Z_bounded (Uint63.of_Z z)) as [Hlo _].
  destruct (Uint63.to_Z (Uint63.of_Z z)) as [|p|p]; [reflexivity| |lia].
  unfold binary_normalize, binary_round.
  destruct (shl_align _ _ _) as [mz ez]. apply binary_round_aux_unsigned.
Qed.

Lemma unsigned_not_below_zero (x : float) :
  unsigned (Prim2SF x) = true -> PrimFloat.ltb x 0 = false.
Proof.
  rewrite ltb_spec. change (Prim2SF 0) with (S754_zero false).
  destruct (Prim2SF x) as [s|s| |s m e]; try reflexivity; destruct s;
    (discriminate || reflexivity).
Qed.

Lemma Math_min_one (x : float) :
  unsigned (Prim2SF x) = true ->
  PrimFloat.ltb (Js.Math_min x 1) 0 = false
  /\ PrimFloat.ltb 1 (Js.Math_min x 1) = false.
Proof.
  intros Hx. unfold Js.Math_min.
  destruct (is_nan x || is_nan 1); [split; reflexivity|].
  destruct (PrimFloat.ltb x 1) eqn:Hlt.
  { split; [now apply unsigned_not_below_zero|now apply ltb_not_ltb]. }
  destruct (PrimFloat.ltb 1 x) eqn:Hgt; [split; reflexivity|].
  destruct (get_sign x); [|split; reflexivity].
  split; [now apply unsigned_not_below_zero|exact Hgt].
Qed.

Lemma not_below_zero_unsigned (x : float) :
  PrimFloat.ltb x 0 = false -> unsigned (Prim2SF x) = true.
Proof.
  rewrite ltb_spec. change (Prim2SF 0) with (S754_zero false).
  destruct (Prim2SF x) as [s|s| |s m e]; try reflexivity; destruct s;
    (discriminate || reflexivity).
Qed.

(** The intensity of any two numbers that are not below zero. *)
Lemma intensity_unsigned (severity affected_population : float) :
  unsigned (Prim2SF severity) = true ->
  unsigned (Prim2SF affected_population) = true ->
  unsigned (Prim2SF (severity / 10 * (affected_population / 10000))) = true.
Proof.
  intros Hs Hp. rewrite mul_spec, !div_spec.
  apply SFmul_unsigned;
    [change (Prim2SF 10) with (S754_finite false 5629499534213120 (-49))
    |change (Prim2SF 10000) with (S754_finite false 5497558138880000 (-39))];
    now apply SFdiv_unsigned.
Qed.

(** X6. The intensity [generateHeatmapData] computes,
    [Math.min((severity / 10) * (affected_population / 10000), 1)], is
    never below 0 and never above 1, for any two numbers of which none
    is below zero, whole or not.  [generateHeatmapData] gives one point
    per zone, in the order of the zones and at the coordinates of the
    zone, with that intensity; for zones whose severity and affected
    population are whole numbers from 0 to [Number.MAX_SAFE_INTEGER]
    the intensity of every point is in that range. *)
Theorem heatmap_intensity_in_unit_range :
  (forall severity affected_population : float,
     PrimFloat.ltb severity 0 = false ->
     PrimFloat.ltb affected_population 0 = false ->
     let intensity := (severity / 10 * (affected_population / 10000))%float in
     PrimFloat.ltb (Js.Math_min intensity 1) 0 = false
     /\ PrimFloat.ltb 1 (Js.Math_min intensity 1) = false)
  /\ (forall zones : list DisasterZone.t,
        Forall (fun z => (0 <= DisasterZone.severity z <= Js.MAX_SAFE_INTEGER)%Z
                         /\ (0 <= DisasterZone.affected_population z
                              <= Js.MAX_SAFE_INTEGER)%Z) zones ->
        Forall2
          (fun z p =>
             p.1.1 = Location.lat (DisasterZone.location z)
             /\ p.1.2 = Location.lng (DisasterZone.location z)
             /\ p.2 = Js.Math_min
                        (Js.of_Z (DisasterZone.severity z) / 10
                         * (Js.of_Z (DisasterZone.affected_population z) / 10000))%float 1
             /\ PrimFloat.ltb p.2 0 = false
             /\ PrimFloat.ltb 1 p.2 = false)
          zones (generateHeatmapData zones)).
Proof.
  split.
  - intros severity affected_population Hs Hp. cbv zeta.
    apply Math_min_one, intensity_unsigned; now apply not_below_zero_unsigned.
  - induction 1 as [|z zones [Hs Hp] _ IH]; [constructor|].
    cbn [generateHeatmapData List.map]. constructor; [|exact IH].
    cbn [fst snd]. do 3 (split; [reflexivity|]).
    apply Math_min_one, intensity_unsigned; apply of_Z_unsigned; lia.
Qed.

Lemma heatmap_intensity_in_unit_range_witness :
  Forall (fun z => (0 <= DisasterZone.severity z <= Js.MAX_SAFE_INTEGER)%Z
                   /\ (0 <= DisasterZone.affected_population z
                        <= Js.MAX_SAFE_INTEGER)%Z) sample_zones
  /\ Forall2
       (fun z p =>
          p.1.1 = Location.lat (DisasterZone.location z)
          /\ p.1.2 = Location.lng (DisasterZone.location z)
          /\ p.2 = Js.Math_min
                     (Js.of_Z (DisasterZone.severity z) / 10
                      * (Js.of_Z (DisasterZone.affected_population z) / 10000))%float 1
          /\ PrimFloat.ltb p.2 0 = false
          /\ PrimFloat.ltb 1 p.2 = false)
       sample_zones (generateHeatmapData sample_zones)
  /\ PrimFloat.ltb (Js.Math_min (7.5 / 10 * (12500.5 / 10000))%float 1) 0 = false
  /\ PrimFloat.ltb 1 (Js.Math_min (7.5 / 10 * (12500.5 / 10000))%float 1) = false.
Proof.
  assert (H : Forall (fun z => (0 <= DisasterZone.severity z <= Js.MAX_SAFE_INTEGER)%Z
                               /\ (0 <= DisasterZone.affected_population z
                                    <= Js.MAX_SAFE_INTEGER)%Z)
                sample_zones).
  { repeat constructor; discriminate. }
  split; [exact H|].
  split; [apply (proj2 heatmap_intensity_in_unit_range sample_zones H)|].
  apply (proj1 heatmap_intensity_in_unit_range 7.5%float 12500.5%float); reflexivity.
Defined.

(** The intensities of the sample zones: 0.6 * 0.3, and 0.9 * 1.2 capped. *)
Example heatmap_sample :
  List.map snd (generateHeatmapData sample_zones) = [0.18; 1]%float.
Proof. vm_compute. reflexivity. Qed.

(** ** Route points *)

Lemma SFadd_comm prec emax (x y : spec_float) :
  SFadd prec emax x y = SFadd prec emax y x.
Proof.
  destruct x as [sx|sx| |sx mx ex], y as [sy|sy| |sy my ey]; simpl;
    try reflexivity; try (destruct sx, sy; reflexivity).
  now rewrite (Z.min_comm ey ex), Z.add_comm.
Qed.

Lemma float_add_comm (x y : float) : (x + y = y + x)%float.
Proof. apply Prim2SF_inj. rewrite !add_spec. apply SFadd_comm. Qed.

(** X19. The route points from [b] to [a] are the route points from
    [a] to [b] in reverse order, double for double: the bend point does
    not depend on the direction, so the two routes between a pair of
    places are drawn on top of each other. *)
Theorem route_points_reverse (a b : Location.t) :
  calculateRoutePoints b a = rev (calculateRoutePoints a b)
  /\ (forall p, In p (calculateRoutePoints a b) <-> In p (calculateRoutePoints b a)).
Proof.
  assert (H : calculateRoutePoints b a = rev (calculateRoutePoints a b)).
  { unfold calculateRoutePoints. cbv zeta. cbn [rev app].
    now rewrite (float_add_comm (Location.lat b)), (float_add_comm (Location.lng b)). }
  split; [exact H|]. intros p. rewrite H, <- in_rev. reflexivity.
Qed.

(** ** The resource marker *)

(** X7. The status badge of a resource marker has the colour of its
    disc exactly for the statuses "Available" and "Deployed", spelled
    so, and for "returning" in any letter case; among the four statuses
    of the enumeration, an "En Route" resource alone gets a badge
    (yellow) that differs from its disc (blue). *)
Theorem resource_badge_agrees_with_disc (status : string) :
  (DisasterMap.status_badge (DisasterMap.createResourceIcon status)
   = DisasterMap.disc (DisasterMap.createResourceIcon status)
   <-> status = "Available" \/ status = "Deployed"
       \/ Js.toLowerCase status = "returning")
  /\ (forall s : ResourceStatus,
        DisasterMap.status_badge (DisasterMap.createResourceIcon (status_label s))
        = DisasterMap.disc (DisasterMap.createResourceIcon (status_label s))
        <-> s = Available \/ s = Deployed \/ s = Returning).
Proof.
  split.
  - unfold DisasterMap.createResourceIcon, MapUtils.getResourceStatusColor.
    cbn [DisasterMap.status_badge DisasterMap.disc].
    destruct (String.eqb_spec status "Available") as [->|Ha].
    { split; [now left|reflexivity]. }
    destruct (String.eqb_spec status "Deployed") as [->|Hd].
    { split; [now right; left|reflexivity]. }
    destruct (String.eqb_spec (Js.toLowerCase status) "available") as [Ea|_].
    { split; [discriminate|]. intros [?|[?|E]]; [contradiction..|].
      rewrite Ea in E. discriminate. }
    destruct (String.eqb_spec (Js.toLowerCase status) "deployed") as [Ed|_].
    { split; [discriminate|]. intros [?|[?|E]]; [contradiction..|].
      rewrite Ed in E. discriminate. }
    destruct (String.eqb_spec (Js.toLowerCase status) "returning") as [Er|Nr].
    { split; [now right; right|reflexivity]. }
    destruct (String.eqb (Js.toLowerCase status) "en route");
      (split; [discriminate|]); intros [?|[?|?]]; contradiction.
  - intros s. destruct s; cbn; split; intros H;
      try reflexivity; try discriminate; try tauto;
      destruct H as [H|[H|H]]; discriminate.
Qed.

(** ** The briefing of the sidebar *)

Lemma ltb_sub_swap (x y : float) :
  PrimFloat.ltb (x - y) 0 = true -> PrimFloat.ltb (y - x) 0 = false.
Proof.
  rewrite !ltb_spec, !sub_spec.
  change (Prim2SF 0) with (S754_zero false).
  destruct (SFsub_swap prec emax (Prim2SF x) (Prim2SF y)) as [E|[E1 E2]].
  - unfold SF64sub. rewrite E.
    destruct (SFsub prec emax (Prim2SF x) (Prim2SF y)) as [s|s| |s m e];
      try destruct s; cbn; intros H; (reflexivity || discriminate H).
  - unfold SF64sub. rewrite E1. discriminate.
Qed.

Lemma insert_by_dist_sorted x l :
  Sorted in_order l -> Sorted in_order (Sidebar.insert_by_dist x l).
Proof.
  induction l as [|y l IH]; simpl; intros Hs.
  - repeat constructor.
  - destruct (PrimFloat.ltb (snd x - snd y) 0) eqn:Hlt.
    + constructor; [exact Hs|]. constructor. now apply ltb_sub_swap.
    + inversion Hs as [|? ? Hs' Hhd]; subst.
      constructor; [now apply IH|].
      destruct l as [|z l]; simpl.
      * constructor. exact Hlt.
      * destruct (PrimFloat.ltb (snd x - snd z) 0); constructor;
          [exact Hlt|now inversion Hhd].
Qed.

Lemma insert_by_dist_perm x l : Sidebar.insert_by_dist x l ≡ₚ x :: l.
Proof.
  induction l as [|y l IH]; simpl; [reflexivity|].
  destruct (PrimFloat.ltb _ 0); [reflexivity|].
  rewrite IH. apply Permutation_swap.
Qed.

Lemma sort_by_dist_sorted l : Sorted in_order (Sidebar.sort_by_dist l).
Proof.
  unfold Sidebar.sort_by_dist.
  induction (reverse l) as [|x l' IH]; simpl; [constructor|].
  now apply insert_by_dist_sorted.
Qed.

Lemma sort_by_dist_perm l : Sidebar.sort_by_dist l ≡ₚ l.
Proof.
  unfold Sidebar.sort_by_dist.
  rewrite <- (reverse_Permutation l) at 2.
  induction (reverse l) as [|x l' IH]; simpl; [reflexivity|].
  now rewrite insert_by_dist_perm, IH.
Qed.

(** X8. The [nearby] list of [handleAnalyzeSituation] is a rearrangement
    of the resources whose distance estimate is under 200 km, none
    dropped and none repeated, in the order of the comparator: no entry
    is followed by one that the comparator puts strictly before it. *)
Theorem nearby_is_sorted_selection (resources : list Resource.t) (zone : DisasterZone.t) :
  Sorted in_order (Sidebar.nearby resources zone)
  /\ List.map fst (Sidebar.nearby resources zone)
     ≡ₚ List.filter
          (fun r => PrimFloat.ltb
                      (Sidebar.dist (Resource.location r) (DisasterZone.location zone)) 200)
          resources.
Proof.
  split; [apply sort_by_dist_sorted|].
  unfold Sidebar.nearby. rewrite sort_by_dist_perm.
  induction resources as [|r rs IH]; simpl; [reflexivity|].
  destruct (PrimFloat.ltb _ 200); simpl; now rewrite IH.
Qed.

Lemma nearby_nil (resources : list Resource.t) (zone : DisasterZone.t) :
  Sidebar.nearby resources zone = [] <->
  forall r, In r resources ->
    PrimFloat.ltb (Sidebar.dist (Resource.location r) (DisasterZone.location zone)) 200
    = false.
Proof.
  split.
  - intros Hnil r Hr.
    destruct (PrimFloat.ltb _ 200) eqn:Hlt; [|reflexivity].
    assert (Hin : In (r, Sidebar.dist (Resource.location r) (DisasterZone.location zone))
                    (Sidebar.nearby resources zone)).
    { unfold Sidebar.nearby. rewrite In_sort_by_dist, filter_In. split; [|exact Hlt].
      apply in_map_iff. now exists r. }
    rewrite Hnil in Hin. destruct Hin.
  - intros Hfar. destruct (Sidebar.nearby resources zone) as [|[r d] l] eqn:Hn;
      [reflexivity|].
    assert (Hin : In (r, d) (Sidebar.nearby resources zone)) by (rewrite Hn; now left).
    unfold Sidebar.nearby in Hin.
    rewrite In_sort_by_dist, filter_In, in_map_iff in Hin.
    destruct Hin as [[r' [[= <- <-] Hr]] Hlt]. cbn [snd] in Hlt.
    rewrite (Hfar _ Hr) in Hlt. discriminate.
Qed.

(** X9. For a selected zone that the sidebar lists, the briefing of
    [handleAnalyzeSituation] carries the warning that no asset is within
    200 km exactly when no resource has a distance estimate below 200 km
    to the zone; otherwise it carries the header of the available
    assets and one line for each nearby resource, nearest first. *)
Theorem briefing_warns_iff_no_asset_in_range (resources : list Resource.t)
    (zones : list DisasterZone.t) (zid : string) (zone : DisasterZone.t) :
  let context := snd (Sidebar.briefing resources zones (Some zid)) in
  String.eqb zid "" = false ->
  find_zone zid zones = Some zone ->
  (context = Sidebar.no_assets_warning
   <-> forall r, In r resources ->
         PrimFloat.ltb (Sidebar.dist (Resource.location r) (DisasterZone.location zone)) 200
         = false)
  /\ (context = Sidebar.no_assets_warning
      \/ context
         = Sidebar.assets_header
           ++ String.concat Js.LF
                (List.map Sidebar.nearby_line (Sidebar.nearby resources zone))).
Proof.
  cbv zeta. intros Hzid Hzone. unfold Sidebar.briefing. rewrite Hzid, Hzone. cbn [snd].
  rewrite <- nearby_nil.
  destruct (Sidebar.nearby resources zone) as [|p l] eqn:Hn; cbn [length Nat.ltb Nat.leb].
  - split; [now split|now left].
  - split; [|now right]. split; [|discriminate].
    unfold Sidebar.assets_header, Sidebar.no_assets_warning, Js.LF.
    cbn [String.append]. discriminate.
Qed.

Lemma briefing_warns_iff_no_asset_in_range_witness :
  String.eqb "zone-flood" "" = false
  /\ find_zone "zone-flood" sample_zones = Some flood
  /\ snd (Sidebar.briefing [truck_1] sample_zones (Some "zone-flood"))
     = Sidebar.no_assets_warning.
Proof.
  split; [reflexivity|]. split; [reflexivity|].
  apply (briefing_warns_iff_no_asset_in_range [truck_1] sample_zones "zone-flood" flood
           eq_refl eq_refl).
  intros r [<-|[]]. vm_compute. reflexivity.
Defined.

(** The briefing for the flood zone with the three sample resources:
    the two ambulances, the nearer one first. *)
Example briefing_sample :
  snd (Sidebar.briefing sample_resources sample_zones (Some "zone-flood"))
  = Sidebar.assets_header
    ++ "- Ambulance (Available) at 7km" ++ Js.LF
    ++ "- Ambulance (Available) at 56km".
Proof. vm_compute. reflexivity. Qed.

(** ** Loading the weather *)

Section WeatherLoad.

Variable JSON_parse : string -> option Json.value.
Variable StringToNumber : string -> float.
Variable ToPrimitiveString : Json.value -> string.
Variable fetchWeather : string -> option Json.value.
Variable JSON_stringify : Json.value -> string.

#[local] Abbreviation getCachedWeather :=
  (WeatherWidget.getCachedWeather JSON_parse StringToNumber ToPrimitiveString).
#[local] Abbreviation served :=
  (WeatherWidget.served JSON_parse StringToNumber ToPrimitiveString).
#[local] Abbreviation loadWeather :=
  (WeatherWidget.loadWeather JSON_parse StringToNumber ToPrimitiveString
     fetchWeather JSON_stringify).

Lemma truthy_not_null (x : option Json.value) :
  WeatherWidget.truthy x = true -> x <> Some Json.Null.
Proof. intros H ->. discriminate H. Qed.

(** X10. When the weather service answers, [loadWeather] shows the
    answer without an error and caches it: as long as [JSON.parse] reads
    back what [JSON.stringify] wrote, a later [getCachedWeather] for the
    same city within [CACHE_DURATION] of the answer returns that
    answer, one for any other city returns [null], and no key of the
    storage other than [CACHE_KEY] has changed. *)
Theorem loadWeather_caches_what_it_shows localStorage w city now later t
    (data : Json.value) :
  let entry := Json.Obj [("data", data); ("timestamp", Json.Num later);
                         ("city", Json.Str city)] in
  let after := loadWeather localStorage w city now later in
  fetchWeather city = Some data ->
  JSON_parse (JSON_stringify entry) = Some entry ->
  JSON_stringify entry <> "" ->
  PrimFloat.ltb (t - later) WeatherWidget.CACHE_DURATION = true ->
  WeatherWidget.weather (WeatherWidget.shown after) = Some data
  /\ WeatherWidget.error (WeatherWidget.shown after) = None
  /\ WeatherWidget.loading (WeatherWidget.shown after) = false
  /\ WeatherWidget.returned (getCachedWeather (WeatherWidget.storage after) city t)
     = Some data
  /\ (forall other, other <> city ->
        WeatherWidget.returned (getCachedWeather (WeatherWidget.storage after) other t)
        = Some Json.Null)
  /\ (forall key, key <> WeatherWidget.CACHE_KEY ->
        WeatherWidget.storage after !! key = localStorage !! key).
Proof.
  cbv zeta. intros Hfetch Hparse Hne Hfresh.
  unfold WeatherWidget.loadWeather. rewrite Hfetch.
  cbn [WeatherWidget.shown WeatherWidget.storage WeatherWidget.weather
       WeatherWidget.error WeatherWidget.loading].
  split; [reflexivity|]. split; [reflexivity|]. split; [reflexivity|].
  split; [now apply written_cache_is_served|].
  split.
  - intros other Hother.
    unfold WeatherWidget.getCachedWeather, WeatherWidget.setCachedWeather.
    rewrite lookup_insert_eq, Hparse.
    destruct (String.eqb _ ""); [reflexivity|].
    change (Json.prop _ "city") with (Some (Some (Json.Str city))).
    unfold Json.strict_eq_string.
    destruct (String.eqb_spec city other) as [E|_]; [now contradiction Hother|].
    reflexivity.
  - intros key Hkey. unfold WeatherWidget.setCachedWeather.
    now apply lookup_insert_ne.
Qed.

(** X11. When the weather service fails, [loadWeather] leaves the
    storage as it is, reports the failure and stops loading; what it
    then shows is [null] or the data of a cache entry for the selected
    city that is less than [CACHE_DURATION] old, never anything else:
    weather shown before the call does not survive a failed refresh. *)
Theorem loadWeather_failure_shows_fresh_cache_only localStorage w city now later :
  let after := loadWeather localStorage w city now later in
  fetchWeather city = None ->
  WeatherWidget.storage after = localStorage
  /\ WeatherWidget.error (WeatherWidget.shown after) = Some "Failed to fetch weather data"
  /\ WeatherWidget.loading (WeatherWidget.shown after) = false
  /\ (WeatherWidget.weather (WeatherWidget.shown after) = Some Json.Null
      \/ exists entry ts,
           served localStorage city now entry ts
           /\ Json.prop entry "data"
              = Some (WeatherWidget.weather (WeatherWidget.shown after))).
Proof.
  cbv zeta. intros Hfetch. unfold WeatherWidget.loadWeather. rewrite Hfetch.
  cbn [WeatherWidget.shown WeatherWidget.storage WeatherWidget.weather
       WeatherWidget.error WeatherWidget.loading].
  repeat (split; [reflexivity|]).
  destruct (WeatherWidget.truthy _) eqn:Htruthy; [|now left].
  right. cbn [WeatherWidget.weather].
  apply returned_not_null_served, truthy_not_null, Htruthy.
Qed.

End WeatherLoad.

Lemma loadWeather_caches_what_it_shows_witness :
  let after :=
    WeatherWidget.loadWeather sample_parse (fun _ => PrimFloat.nan) (fun _ => "")
      sample_fetch sample_stringify ∅ sample_widget "Mumbai"
      1699999999000 1700000000000 in
  sample_fetch "Mumbai" = Some sample_weather
  /\ PrimFloat.ltb (1700000240000 - 1700000000000) WeatherWidget.CACHE_DURATION = true
  /\ WeatherWidget.weather (WeatherWidget.shown after) = Some sample_weather
  /\ WeatherWidget.returned
       (WeatherWidget.getCachedWeather sample_parse (fun _ => PrimFloat.nan) (fun _ => "")
          (WeatherWidget.storage after) "Mumbai" 1700000240000)
     = Some sample_weather.
Proof.
  cbv zeta.
  pose proof (loadWeather_caches_what_it_shows sample_parse (fun _ => PrimFloat.nan)
                (fun _ => "") sample_fetch sample_stringify ∅ sample_widget "Mumbai"
                1699999999000 1700000000000 1700000240000 sample_weather
                eq_refl eq_refl) as H.
  cbv zeta in H.
  destruct H as (Hw & _ & _ & Hc & _); [discriminate|reflexivity|].
  split; [reflexivity|]. split; [reflexivity|]. split; [exact Hw|exact Hc].
Defined.

Lemma loadWeather_failure_shows_fresh_cache_only_witness :
  let after :=
    WeatherWidget.loadWeather sample_parse (fun _ => PrimFloat.nan) (fun _ => "")
      (fun _ => None) sample_stringify sample_storage sample_widget "Mumbai"
      1700000240000 1700000241000 in
  WeatherWidget.storage after = sample_storage
  /\ WeatherWidget.error (WeatherWidget.shown after) = Some "Failed to fetch weather data"
  /\ WeatherWidget.loading (WeatherWidget.shown after) = false
  /\ (WeatherWidget.weather (WeatherWidget.shown after) = Some Json.Null
      \/ exists entry ts,
           WeatherWidget.served sample_parse (fun _ => PrimFloat.nan) (fun _ => "")
             sample_storage "Mumbai" 1700000240000 entry ts
           /\ Json.prop entry "data"
              = Some (WeatherWidget.weather (WeatherWidget.shown after))).
Proof.
  exact (loadWeather_failure_shows_fresh_cache_only sample_parse (fun _ => PrimFloat.nan)
           (fun _ => "") (fun _ => None) sample_stringify sample_storage sample_widget
           "Mumbai" 1700000240000 1700000241000 eq_refl).
Defined.

(** After the failed refresh the widget shows the cached entry of four
    minutes ago. *)
Example loadWeather_failure_sample :
  WeatherWidget.weather
    (WeatherWidget.shown
       (WeatherWidget.loadWeather sample_parse (fun _ => PrimFloat.nan) (fun _ => "")
          (fun _ => None) sample_stringify sample_storage sample_widget "Mumbai"
          1700000240000 1700000241000))
  = Some sample_weather.
Proof. vm_compute. reflexivity. Qed.

(** ** The weather icon *)

Lemma toLowerCase_app (a b : string) :
  Js.toLowerCase (a ++ b) = Js.toLowerCase a ++ Js.toLowerCase b.
Proof. induction a as [|c a IH]; simpl; [reflexivity|now rewrite IH]. Qed.

Lemma prefix_app (w b : string) : String.prefix w (w ++ b) = true.
Proof.
  induction w as [|c w IH]; simpl; [now destruct b|].
  destruct (ascii_dec c c) as [_|N]; [exact IH|now contradiction N].
Qed.

Lemma includes_here (s w : string) :
  String.prefix w s = true -> Js.includes s w = true.
Proof. intros H. destruct s; simpl in *; now rewrite H. Qed.

Lemma includes_app (a w b : string) : Js.includes (a ++ w ++ b) w = true.
Proof.
  induction a as [|c a IH].
  - change ("" ++ w ++ b) with (w ++ b). apply includes_here, prefix_app.
  - change (Js.includes (String c a ++ w ++ b) w)
      with (String.prefix w (String c (a ++ w ++ b)) || Js.includes (a ++ w ++ b) w).
    rewrite IH. apply orb_true_r.
Qed.

(** X18. A condition that mentions rain or storm, in any letter case
    and whatever stands before or after the word, gets the rain icon:
    the test for rain and storm comes first, so that "Rain and snow"
    or "Thunderstorm with clouds" are drawn as rain.  The sun is drawn
    only when the lower-cased condition contains none of the four
    words. *)
Theorem rain_or_storm_gets_the_rain_icon :
  (forall before word after : string,
     Js.toLowerCase word = "rain" \/ Js.toLowerCase word = "storm" ->
     WeatherWidget.getWeatherIcon (before ++ word ++ after) = WeatherWidget.CloudRain)
  /\ (forall condition,
        WeatherWidget.getWeatherIcon condition = WeatherWidget.Sun <->
        Forall (fun w => Js.includes (Js.toLowerCase condition) w = false)
          ["rain"; "storm"; "cloud"; "snow"]).
Proof.
  split.
  - intros before word after Hword.
    unfold WeatherWidget.getWeatherIcon. cbv zeta.
    rewrite !toLowerCase_app.
    destruct Hword as [-> | ->]; rewrite includes_app;
      [reflexivity|now rewrite orb_true_r].
  - intros condition. unfold WeatherWidget.getWeatherIcon. cbv zeta.
    destruct (Js.includes _ "rain") eqn:Hrain; cbn [orb].
    { split; [discriminate|]. intros H. apply List.Forall_inv in H. congruence. }
    destruct (Js.includes _ "storm") eqn:Hstorm.
    { split; [discriminate|]. intros H.
      apply List.Forall_inv_tail, List.Forall_inv in H. congruence. }
    destruct (Js.includes _ "cloud") eqn:Hcloud.
    { split; [discriminate|]. intros H.
      do 2 apply List.Forall_inv_tail in H. apply List.Forall_inv in H. congruence. }
    destruct (Js.includes _ "snow") eqn:Hsnow.
    { split; [discriminate|]. intros H.
      do 3 apply List.Forall_inv_tail in H. apply List.Forall_inv in H. congruence. }
    split; [|reflexivity]. intros _. repeat constructor; assumption.
Qed.

Example weather_icon_samples :
  List.map WeatherWidget.getWeatherIcon
    ["Light Rain and snow"; "THUNDERSTORM"; "Partly cloudy"; "Snow"; "Clear"]
  = [WeatherWidget.CloudRain; WeatherWidget.CloudRain; WeatherWidget.Cloud;
     WeatherWidget.CloudSnow; WeatherWidget.Sun].
Proof. vm_compute. reflexivity. Qed.

(** ** What the handlers send *)

Lemma bind_run {S A B} (m : Api.Client S A) (k : A -> Api.Client S B) s w :
  Api.bind m k s w
  = match m s w with
    | (Some a, s', w') => k a s' w'
    | (None, s', w') => (None, s', w')
    end.
Proof. reflexivity. Qed.

Lemma bind_ret {S A B} (a : A) (k : A -> Api.Client S B) s w :
  Api.bind (Api.ret a) k s w = k a s w.
Proof. reflexivity. Qed.

Lemma without_zone_allocations zoneId p a :
  In a (AllocationPlan.allocations (Simulation.without_zone zoneId p)) <->
  In a (AllocationPlan.allocations p) /\ Allocation.zone_id a <> zoneId.
Proof.
  unfold Simulation.without_zone. cbn [AllocationPlan.allocations].
  rewrite filter_In, negb_true_iff. split; intros [Hin Hz]; (split; [exact Hin|]).
  - intros E. rewrite E, String.eqb_refl in Hz. discriminate.
  - now apply String.eqb_neq.
Qed.

Section Traces.

Variable cfg : Backend.config.

(** One delete request: what it leaves, answered or rejected. *)
Lemma deleteResource_run {S} (rid : string) (s : S) (reg : Registry.t)
    (sent : list ApiCall) :
  Api.deleteResource cfg rid s (reg, sent)
  = match Backend.deleteResource rid reg with
    | Some reg' => (Some (Backend.reply_message cfg (DeleteResource rid)), s,
                    (reg', (sent ++ [DeleteResource rid])%list))
    | None => (None, s, (reg, (sent ++ [DeleteResource rid])%list))
    end.
Proof.
  unfold Api.deleteResource, Api.bind, Api.request. simpl.
  now destruct (Backend.deleteResource rid reg).
Qed.

Lemma deleteDisaster_run {S} (zid : string) (s : S) (reg : Registry.t)
    (sent : list ApiCall) :
  Api.deleteDisaster cfg zid s (reg, sent)
  = match Backend.deleteZone zid reg with
    | Some reg' => (Some (Backend.reply_message cfg (DeleteDisaster zid)), s,
                    (reg', (sent ++ [DeleteDisaster zid])%list))
    | None => (None, s, (reg, (sent ++ [DeleteDisaster zid])%list))
    end.
Proof.
  unfold Api.deleteDisaster, Api.bind, Api.request. simpl.
  now destruct (Backend.deleteZone zid reg).
Qed.

Lemma deleteResourcesBulk_run {S} ids (s : S) reg sent :
  Api.deleteResourcesBulk cfg ids s (reg, sent)
  = (Some (Backend.reply_message cfg (PostBulkDelete ids),
           (Backend.bulkDeleteResources ids reg).2),
     s, ((Backend.bulkDeleteResources ids reg).1, (sent ++ [PostBulkDelete ids])%list)).
Proof.
  unfold Api.deleteResourcesBulk, Api.bind, Api.request. cbn [Backend.serve].
  now destruct (Backend.bulkDeleteResources ids reg).
Qed.

Lemma allocateResources_run {S} rs zs (s : S) reg sent :
  Api.allocateResources cfg rs zs s (reg, sent)
  = (Some (Backend.plan cfg rs zs), s, (reg, (sent ++ [PostAllocate rs zs])%list)).
Proof. reflexivity. Qed.

Lemma dispatchResources_run {S} p (s : S) reg sent :
  Api.dispatchResources cfg p s (reg, sent)
  = (Some (Api.mk_reply (DispatchResult.status (Backend.dispatch cfg p reg).2)
             (DispatchResult.message (Backend.dispatch cfg p reg).2)),
     s, ((Backend.dispatch cfg p reg).1, (sent ++ [PostDispatch p])%list)).
Proof.
  unfold Api.dispatchResources, Api.bind, Api.request. cbn [Backend.serve].
  now destruct (Backend.dispatch cfg p reg).
Qed.

Lemma loadData_run (s : Simulation.state) reg sent :
  Simulation.loadData cfg s (reg, sent)
  = (Some tt,
     Simulation.setSafeAreas (Backend.safe_areas cfg)
       (Simulation.setZones (Backend.snapshot reg).2
          (Simulation.setResources (Backend.snapshot reg).1 s)),
     (reg, (sent ++ [GetSimulationData; GetSafeAreas])%list)).
Proof.
  unfold Simulation.loadData, Api.try_catch, Api.fetchSimulationData,
    Api.fetchSafeAreas, Api.bind, Api.request, Api.modify, Api.ret.
  cbn [Backend.serve]. destruct (Backend.snapshot reg) as [rs zs].
  cbn. now rewrite <- app_assoc.
Qed.

Lemma loadSimulationData_run (s : OperationOffice.state) reg sent :
  OperationOffice.loadSimulationData cfg s (reg, sent)
  = (Some tt,
     OperationOffice.setLoading false
       (OperationOffice.setSafeAreas (Backend.safe_areas cfg)
          (OperationOffice.setZones (Backend.snapshot reg).2
             (OperationOffice.setResources (Backend.snapshot reg).1
                (OperationOffice.setLoading true s)))),
     (reg, (sent ++ [GetSimulationData; GetSafeAreas])%list)).
Proof.
  unfold OperationOffice.loadSimulationData, Api.try_catch, Api.fetchSimulationData,
    Api.fetchSafeAreas, Api.bind, Api.request, Api.modify, Api.ret.
  cbn [Backend.serve]. destruct (Backend.snapshot reg) as [rs zs].
  cbn. now rewrite <- app_assoc.
Qed.

Lemma deleteResource_zones rid reg reg' :
  Backend.deleteResource rid reg = Some reg' -> Registry.zones reg' = Registry.zones reg.
Proof.
  unfold Backend.deleteResource.
  destruct (Registry.resources reg !! rid); [|discriminate].
  now intros [= <-].
Qed.

Lemma deleteResource_keeps_missing rid rid' reg reg' :
  Backend.deleteResource rid reg = Some reg' ->
  Registry.resources reg !! rid' = None -> Registry.resources reg' !! rid' = None.
Proof.
  unfold Backend.deleteResource.
  destruct (Registry.resources reg !! rid); [|discriminate].
  intros [= <-] Hnone. cbn [Registry.resources].
  rewrite lookup_delete_None. now right.
Qed.

Lemma bulkDeleteResources_zones ids reg :
  Registry.zones (Backend.bulkDeleteResources ids reg).1 = Registry.zones reg.
Proof.
  revert reg. induction ids as [|rid ids IH]; intros reg; [reflexivity|].
  simpl. destruct (Backend.deleteResource rid reg) as [reg1|] eqn:Hdel; [|apply IH].
  specialize (IH reg1). destruct (Backend.bulkDeleteResources ids reg1) as [reg2 n].
  simpl in *. rewrite IH. now apply deleteResource_zones in Hdel.
Qed.

(** [Promise.all] over the deletes: every request is sent, in the order
    of the list, whether or not one of them is rejected; the page state
    and the zones are not touched. *)
Lemma delete_each_trace {S} (rs : list Resource.t) (s : S) reg sent :
  let out := Api.all (List.map (fun res => Api.deleteResource cfg (Resource.id res)) rs)
               s (reg, sent) in
  out.1.2 = s
  /\ out.2.2 = (sent ++ List.map (fun r => DeleteResource (Resource.id r)) rs)%list
  /\ Registry.zones out.2.1 = Registry.zones reg.
Proof.
  cbv zeta. revert reg sent. induction rs as [|r rs IH]; intros reg sent.
  - simpl. now rewrite app_nil_r.
  - cbn [List.map Api.all]. rewrite deleteResource_run.
    destruct (Backend.deleteResource (Resource.id r) reg) as [reg1|] eqn:Hdel.
    + specialize (IH reg1 (sent ++ [DeleteResource (Resource.id r)])%list).
      destruct (Api.all _ s _) as [[res s'] [reg' sent']]. simpl in *.
      destruct IH as (-> & -> & ->).
      rewrite <- app_assoc. split; [reflexivity|]. split; [reflexivity|].
      now apply deleteResource_zones in Hdel.
    + specialize (IH reg (sent ++ [DeleteResource (Resource.id r)])%list).
      destruct (Api.all _ s _) as [[res s'] [reg' sent']]. simpl in *.
      destruct IH as (-> & -> & ->).
      rewrite <- app_assoc. repeat split.
Qed.

(** One resource the registry does not hold rejects the whole. *)
Lemma delete_each_rejected {S} (rs : list Resource.t) (s : S) reg sent r :
  In r rs -> Registry.resources reg !! Resource.id r = None ->
  (Api.all (List.map (fun res => Api.deleteResource cfg (Resource.id res)) rs)
     s (reg, sent)).1.1 = None.
Proof.
  revert reg sent. induction rs as [|x rs IH]; intros reg sent Hin Hnone; [destruct Hin|].
  cbn [List.map Api.all]. rewrite deleteResource_run.
  destruct (Backend.deleteResource (Resource.id x) reg) as [reg1|] eqn:Hdel.
  - destruct Hin as [->|Hin].
    { unfold Backend.deleteResource in Hdel. now rewrite Hnone in Hdel. }
    specialize (IH reg1 (sent ++ [DeleteResource (Resource.id x)])%list Hin
                  (deleteResource_keeps_missing _ _ _ _ Hdel Hnone)).
    destruct (Api.all _ s _) as [[res s'] w']. simpl in *. now rewrite IH.
  - now destruct (Api.all _ s _) as [[res s'] w'].
Qed.

(** Resources with distinct ids that the registry holds are all
    deleted, and the whole resolves. *)
Lemma delete_each_resolved {S} (rs : list Resource.t) (s : S) reg sent :
  NoDup (List.map Resource.id rs) ->
  (forall r, In r rs -> is_Some (Registry.resources reg !! Resource.id r)) ->
  is_Some (Api.all (List.map (fun res => Api.deleteResource cfg (Resource.id res)) rs)
             s (reg, sent)).1.1.
Proof.
  revert reg sent. induction rs as [|x rs IH]; intros reg sent Hnd Hall; [now eexists|].
  cbn [List.map Api.all]. rewrite deleteResource_run.
  cbn [List.map] in Hnd. apply NoDup_cons in Hnd as [Hx Hnd].
  unfold Backend.deleteResource.
  destruct (Hall x (or_introl eq_refl)) as [v Hv]. rewrite Hv.
  match goal with |- context [Api.all ?ms s ?w] => specialize (IH (fst w) (snd w) Hnd) end.
  cbn [fst snd] in IH.
  destruct (Api.all _ s _) as [[res s'] w'].
  cbn [fst snd] in *.
  destruct IH as [l Hl]; [|rewrite Hl; now eexists].
  intros r Hr. cbn [Registry.resources].
  destruct (Hall r (or_intror Hr)) as [v' Hv'].
  exists v'. rewrite lookup_delete_ne; [exact Hv'|].
  intros E. apply Hx. rewrite E. apply list_elem_of_In. now apply in_map.
Qed.

(** X12. On the simulation page a zone is deleted only after every
    delete of a listed resource was answered.  When the page still
    lists a resource the registry no longer holds, [handleDeleteZone]
    sends the delete of every listed resource and nothing else: no
    delete of the zone, so the zones of the registry are as before; the
    page reports the failure and keeps its lists, its plan and its
    message.  The cleanup is not undone: none of the listed resources
    is in the registry afterwards. *)
Theorem simulation_delete_zone_needs_every_delete zoneId st reg sent zone r :
  let after := Simulation.handleDeleteZone cfg zoneId st (reg, sent) in
  find_zone zoneId (Simulation.zones st) = Some zone ->
  In r (Simulation.resources st) ->
  Registry.resources reg !! Resource.id r = None ->
  Registry.zones after.2.1 = Registry.zones reg
  /\ after.2.2
     = (sent ++ List.map (fun r => DeleteResource (Resource.id r))
                  (Simulation.resources st))%list
  /\ after.1.2
     = Simulation.setLoading false
         (Simulation.setError (Some "Failed to remove disaster data.")
            (Simulation.setLoading true st))
  /\ gone (List.map Resource.id (Simulation.resources st)) after.2.1.
Proof.
  cbv zeta. intros Hzone Hin Hnone.
  pose proof (simulation_handleDeleteZone_cleaned cfg zoneId st (reg, sent)) as Hclean.
  cbv zeta in Hclean. rewrite Hzone in Hclean. destruct Hclean as (Hgone & _ & _).
  revert Hgone.
  unfold Simulation.handleDeleteZone. rewrite bind_get, Hzone, bind_modify.
  pose proof (delete_each_trace (Simulation.resources st)
                (Simulation.setLoading true st) reg sent) as Htrace.
  pose proof (delete_each_rejected (Simulation.resources st)
                (Simulation.setLoading true st) reg sent r Hin Hnone) as Hrej.
  cbv zeta in Htrace.
  unfold Api.finally, Api.try_catch. rewrite bind_run.
  destruct (Api.all _ _ _) as [[res s1] [reg1 sent1]].
  cbn [fst snd] in *. destruct Htrace as (-> & -> & Hz). subst res.
  cbn. intros Hgone. now rewrite Hz.
Qed.

(** X13. When the simulation page lists resources with distinct ids
    that the registry all holds, and the registry holds the zone,
    [handleDeleteZone] sends the delete of every listed resource, then
    the delete of the zone, then reloads: the zone is out of the
    registry, the page shows the registry's snapshot and the success
    message, and the plan it keeps has lost the allocations to the
    zone.  The allocations left in that plan still name resources the
    cleanup has just deleted. *)
Theorem simulation_delete_zone_succeeds zoneId st reg sent zone :
  let ids := List.map Resource.id (Simulation.resources st) in
  let after := Simulation.handleDeleteZone cfg zoneId st (reg, sent) in
  let st' := after.1.2 in
  let reg' := after.2.1 in
  find_zone zoneId (Simulation.zones st) = Some zone ->
  NoDup ids ->
  (forall r, In r (Simulation.resources st) ->
     is_Some (Registry.resources reg !! Resource.id r)) ->
  is_Some (Registry.zones reg !! zoneId) ->
  Registry.zones reg' = delete zoneId (Registry.zones reg)
  /\ after.2.2
     = (sent ++ List.map DeleteResource ids
        ++ [DeleteDisaster zoneId; GetSimulationData; GetSafeAreas])%list
  /\ (Simulation.resources st', Simulation.zones st') = Backend.snapshot reg'
  /\ Simulation.message st'
     = Some ("✅ Disaster zone and " ++ Js.show_int (Z.of_nat (length ids))
             ++ " resources removed.")
  /\ Simulation.error st' = Simulation.error st
  /\ Simulation.loading st' = false
  /\ Simulation.allocationPlan st'
     = option_map (Simulation.without_zone zoneId) (Simulation.allocationPlan st)
  /\ (forall p a,
        Simulation.allocationPlan st' = Some p ->
        In a (AllocationPlan.allocations p) ->
        Allocation.zone_id a <> zoneId
        /\ (In (Allocation.resource_id a) ids ->
            Registry.resources reg' !! Allocation.resource_id a = None)).
Proof.
  cbv zeta. intros Hzone Hnd Hall [z Hz].
  pose proof (simulation_handleDeleteZone_cleaned cfg zoneId st (reg, sent)) as Hclean.
  cbv zeta in Hclean. rewrite Hzone in Hclean. destruct Hclean as (Hgone & _ & _).
  revert Hgone.
  unfold Simulation.handleDeleteZone. rewrite bind_get, Hzone, bind_modify.
  pose proof (delete_each_trace (Simulation.resources st)
                (Simulation.setLoading true st) reg sent) as Htrace.
  pose proof (delete_each_resolved (Simulation.resources st)
                (Simulation.setLoading true st) reg sent Hnd Hall) as [l Hres].
  cbv zeta in Htrace.
  unfold Api.finally, Api.try_catch. rewrite bind_run.
  destruct (Api.all _ _ _) as [[res s1] [reg1 sent1]].
  cbn [fst snd] in *. destruct Htrace as (-> & -> & Hzones). subst res.
  rewrite bind_run, deleteDisaster_run. unfold Backend.deleteZone.
  rewrite Hzones, Hz.
  destruct (Simulation.allocationPlan st) as [p0|] eqn:Hp0;
    rewrite ?bind_ret, !bind_modify, loadData_run;
    unfold Simulation.setLoading, Simulation.setSafeAreas, Simulation.setZones,
      Simulation.setResources, Simulation.setMessage, Simulation.setAllocationPlan;
    cbn [fst snd Simulation.resources Simulation.zones Simulation.safeAreas
         Simulation.allocationPlan Simulation.loading Simulation.message
         Simulation.error Registry.zones Registry.resources];
    rewrite ?Hp0, length_map, map_map; intros Hgone;
    (split; [reflexivity|]); (split; [now rewrite <- !app_assoc|]);
    (split; [now destruct (Backend.snapshot _)|]);
    do 4 (split; [reflexivity|]); intros p a; [|discriminate].
  cbn [option_map]. intros [= <-] Ha.
  apply without_zone_allocations in Ha as [_ Hne].
  split; [exact Hne|]. intros Hin. now apply Hgone.
Qed.

(** X14. The operation office deletes the zone whatever its resource
    list holds: the bulk delete is not rejected for an id the registry
    lacks.  After the confirmation, for a zone the page lists and the
    registry holds, [handleDeleteZone] sends the bulk delete (if the
    list is not empty), the delete of the zone and the reload; the zone
    is out of the registry, the page shows the registry's snapshot and
    holds no plan. *)
Theorem office_delete_zone_tolerates_stale_list zoneId st reg sent zone :
  let ids := List.map Resource.id (OperationOffice.resources st) in
  let after := OperationOffice.handleDeleteZone cfg true zoneId st (reg, sent) in
  let st' := after.1.2 in
  let reg' := after.2.1 in
  find_zone zoneId (OperationOffice.zones st) = Some zone ->
  is_Some (Registry.zones reg !! zoneId) ->
  Registry.zones reg' = delete zoneId (Registry.zones reg)
  /\ after.2.2
     = (sent ++ (if (0 <? length ids)%nat then [PostBulkDelete ids] else [])
        ++ [DeleteDisaster zoneId; GetSimulationData; GetSafeAreas])%list
  /\ (OperationOffice.resources st', OperationOffice.zones st') = Backend.snapshot reg'
  /\ OperationOffice.allocationPlan st' = None
  /\ OperationOffice.loading st' = false.
Proof.
  cbv zeta. intros Hzone [z Hz].
  unfold OperationOffice.handleDeleteZone. rewrite bind_get, Hzone.
  cbn [negb]. rewrite bind_modify.
  unfold Api.finally, Api.try_catch. rewrite bind_run.
  set (ids := List.map Resource.id (OperationOffice.resources st)).
  assert (Hbulk : forall s : OperationOffice.state,
            (if (0 <? length ids)%nat
             then Api.bind (Api.deleteResourcesBulk cfg ids) (fun _ => Api.ret tt)
             else Api.ret tt) s (reg, sent)
            = (Some tt, s,
               ((if (0 <? length ids)%nat
                 then (Backend.bulkDeleteResources ids reg).1 else reg),
                (sent ++ (if (0 <? length ids)%nat then [PostBulkDelete ids] else []))%list))).
  { intros s. destruct (0 <? length ids)%nat.
    - now rewrite bind_run, deleteResourcesBulk_run.
    - unfold Api.ret. now rewrite app_nil_r. }
  rewrite Hbulk, bind_run, deleteDisaster_run. unfold Backend.deleteZone.
  assert (Hzones : Registry.zones
                     (if (0 <? length ids)%nat
                      then (Backend.bulkDeleteResources ids reg).1 else reg)
                   = Registry.zones reg).
  { destruct (0 <? length ids)%nat; [apply bulkDeleteResources_zones|reflexivity]. }
  rewrite Hzones, Hz.
  destruct (OperationOffice.allocationPlan st) as [p0|] eqn:Hp0;
    rewrite ?bind_ret, ?bind_modify, loadSimulationData_run;
    unfold OperationOffice.setLoading, OperationOffice.setSafeAreas,
      OperationOffice.setZones, OperationOffice.setResources,
      OperationOffice.setAllocationPlan;
    cbn [fst snd OperationOffice.resources OperationOffice.zones
         OperationOffice.allocationPlan OperationOffice.loading
         Registry.zones Registry.resources];
    rewrite ?Hp0, ?Hzones;
    (split; [reflexivity|]); (split; [now rewrite <- !app_assoc|]);
    (split; [now destruct (Backend.snapshot _)|]); split; reflexivity.
Qed.

(** ** From a plan to its dispatch *)

Lemma simulation_handleAllocate_run (st : Simulation.state) reg sent :
  let p := Backend.plan cfg (Simulation.resources st) (Simulation.zones st) in
  Simulation.handleAllocate cfg st (reg, sent)
  = (Some tt,
     Simulation.setLoading false
       (Simulation.setMessage
          (Some ("Allocation Plan Generated! Score: "
                 ++ Js.toFixed (AllocationPlan.total_score p) 2))
          (Simulation.setAllocationPlan (Some p) (Simulation.setLoading true st))),
     (reg, (sent ++ [PostAllocate (Simulation.resources st) (Simulation.zones st)])%list)).
Proof. reflexivity. Qed.

Lemma simulation_handleDispatch_run (st : Simulation.state) p reg sent :
  Simulation.allocationPlan st = Some p ->
  Simulation.handleDispatch cfg st (reg, sent)
  = (Some tt,
     Simulation.setLoading false
       (Simulation.setAllocationPlan None
          (Simulation.setMessage (Some "Resources Dispatched Successfully (Simulation)!")
             (Simulation.setLoading true st))),
     ((Backend.dispatch cfg p reg).1, (sent ++ [PostDispatch p])%list)).
Proof.
  intros Hp. unfold Simulation.handleDispatch. rewrite bind_get, Hp, bind_modify.
  unfold Api.finally, Api.try_catch. now rewrite bind_run, dispatchResources_run.
Qed.

Lemma office_handleAllocate_run (st : OperationOffice.state) reg sent :
  let p := Backend.plan cfg (OperationOffice.resources st)
             (OperationOffice.filteredZones st) in
  OperationOffice.handleAllocate cfg st (reg, sent)
  = (Some tt,
     OperationOffice.setLoading false
       (OperationOffice.setAllocationPlan (Some p) (OperationOffice.setLoading true st)),
     (reg, (sent ++ [PostAllocate (OperationOffice.resources st)
                       (OperationOffice.filteredZones st)])%list)).
Proof. reflexivity. Qed.

Lemma office_handleDispatch_run (st : OperationOffice.state) p reg sent :
  OperationOffice.allocationPlan st = Some p ->
  let reg' := (Backend.dispatch cfg p reg).1 in
  OperationOffice.handleDispatch cfg st (reg, sent)
  = (Some tt,
     OperationOffice.setLoading false
       (OperationOffice.setLoading false
          (OperationOffice.setSafeAreas (Backend.safe_areas cfg)
             (OperationOffice.setZones (Backend.snapshot reg').2
                (OperationOffice.setResources (Backend.snapshot reg').1
                   (OperationOffice.setLoading true
                      (OperationOffice.setAllocationPlan None
                         (OperationOffice.setDispatchStatus
                            (Some (DispatchResult.message (Backend.dispatch cfg p reg).2))
                            (OperationOffice.setLoading true st)))))))),
     (reg', (sent ++ [PostDispatch p; GetSimulationData; GetSafeAreas])%list)).
Proof.
  intros Hp. cbv zeta.
  unfold OperationOffice.handleDispatch. rewrite bind_get, Hp, bind_modify.
  unfold Api.finally, Api.try_catch.
  rewrite bind_run, dispatchResources_run, !bind_modify, loadSimulationData_run.
  cbn [fst snd Api.message]. now rewrite <- app_assoc.
Qed.

(** X15. On the simulation page, generating a plan and dispatching it
    sends two requests: the allocation of the page's resources and
    zones, and the dispatch of the very plan the engine answered.  The
    page then holds no plan and shows the success message, so that a
    further [handleDispatch] sends nothing and changes nothing: a plan
    is dispatched at most once. *)
Theorem simulation_dispatches_its_plan_once (st : Simulation.state) reg sent :
  let p := Backend.plan cfg (Simulation.resources st) (Simulation.zones st) in
  let after :=
    Api.bind (Simulation.handleAllocate cfg) (fun _ => Simulation.handleDispatch cfg)
      st (reg, sent) in
  after.2
  = ((Backend.dispatch cfg p reg).1,
     (sent ++ [PostAllocate (Simulation.resources st) (Simulation.zones st);
               PostDispatch p])%list)
  /\ Simulation.allocationPlan after.1.2 = None
  /\ Simulation.message after.1.2
     = Some "Resources Dispatched Successfully (Simulation)!"
  /\ Simulation.loading after.1.2 = false
  /\ Simulation.handleDispatch cfg after.1.2 after.2 = (Some tt, after.1.2, after.2).
Proof.
  cbv zeta. rewrite bind_run, simulation_handleAllocate_run. cbv zeta.
  set (p := Backend.plan cfg (Simulation.resources st) (Simulation.zones st)).
  rewrite (simulation_handleDispatch_run _ p) by reflexivity.
  cbn [fst snd]. rewrite <- app_assoc.
  repeat (split; [reflexivity|]). reflexivity.
Qed.

(** X16. In the operation office, a click on an incident restricts the
    next plan to it: after [onAlertClick] with the id of a zone,
    [handleAllocate] asks the engine for a plan over the zones with
    that id only, [handleDispatch] dispatches the plan the engine
    answered and reloads; the page then keeps the selection, holds no
    plan, shows the message of the dispatch and the snapshot of the
    registry.  After [onClearSelection], or a click that carries no id
    or an empty one, [handleAllocate] plans over all the zones. *)
Theorem office_plans_for_the_selected_zone (st : OperationOffice.state) reg sent
    (zid : string) :
  let selected :=
    List.filter (fun z => String.eqb (DisasterZone.id z) zid) (OperationOffice.zones st) in
  let p := Backend.plan cfg (OperationOffice.resources st) selected in
  let after :=
    Api.bind (OperationOffice.onAlertClick (Some zid))
      (fun _ => Api.bind (OperationOffice.handleAllocate cfg)
                  (fun _ => OperationOffice.handleDispatch cfg))
      st (reg, sent) in
  String.eqb zid "" = false ->
  after.2
  = ((Backend.dispatch cfg p reg).1,
     (sent ++ [PostAllocate (OperationOffice.resources st) selected;
               PostDispatch p; GetSimulationData; GetSafeAreas])%list)
  /\ Forall (fun z => DisasterZone.id z = zid) selected
  /\ OperationOffice.selectedZoneId after.1.2 = Some zid
  /\ OperationOffice.allocationPlan after.1.2 = None
  /\ OperationOffice.dispatchStatus after.1.2
     = Some (DispatchResult.message (Backend.dispatch cfg p reg).2)
  /\ (OperationOffice.resources after.1.2, OperationOffice.zones after.1.2)
     = Backend.snapshot (Backend.dispatch cfg p reg).1
  /\ (forall unselect,
        In unselect [OperationOffice.onClearSelection;
                     OperationOffice.onAlertClick None;
                     OperationOffice.onAlertClick (Some "")] ->
        (Api.bind unselect (fun _ => OperationOffice.handleAllocate cfg)
           st (reg, sent)).2.2
        = (sent ++ [PostAllocate (OperationOffice.resources st)
                      (OperationOffice.zones st)])%list).
Proof.
  cbv zeta. intros Hzid.
  set (unselects := [OperationOffice.onClearSelection;
                     OperationOffice.onAlertClick None;
                     OperationOffice.onAlertClick (Some "")]).
  assert (Hall : forall unselect,
             In unselect unselects ->
             (Api.bind unselect (fun _ => OperationOffice.handleAllocate cfg)
                st (reg, sent)).2.2
             = (sent ++ [PostAllocate (OperationOffice.resources st)
                           (OperationOffice.zones st)])%list).
  { intros unselect Hin. subst unselects. simpl in Hin.
    destruct Hin as [<-|[<-|[<-|[]]]]; reflexivity. }
  clearbody unselects.
  unfold OperationOffice.onAlertClick. rewrite Hzid, bind_modify, bind_run.
  rewrite office_handleAllocate_run. cbv zeta.
  unfold OperationOffice.filteredZones, OperationOffice.setSelectedZoneId.
  cbn [OperationOffice.selectedZoneId OperationOffice.zones OperationOffice.resources].
  rewrite Hzid.
  set (selected := List.filter _ (OperationOffice.zones st)).
  set (p := Backend.plan cfg (OperationOffice.resources st) selected).
  rewrite (office_handleDispatch_run _ p) by reflexivity.
  cbn [fst snd]. rewrite <- app_assoc.
  split; [reflexivity|]. split.
  { apply List.Forall_forall. intros z Hz. apply filter_In in Hz as [_ Hz].
    now apply String.eqb_eq. }
  do 3 (split; [reflexivity|]).
  split; [now destruct (Backend.snapshot _)|exact Hall].
Qed.

End Traces.

Lemma simulation_delete_zone_needs_every_delete_witness :
  let after :=
    Simulation.handleDeleteZone sample_cfg "zone-flood" stale_page (sample_registry, []) in
  find_zone "zone-flood" (Simulation.zones stale_page) = Some flood
  /\ In ghost (Simulation.resources stale_page)
  /\ Registry.resources sample_registry !! Resource.id ghost = None
  /\ Registry.zones after.2.1 = Registry.zones sample_registry
  /\ after.2.2
     = ([] ++ List.map (fun r => DeleteResource (Resource.id r))
                (Simulation.resources stale_page))%list
  /\ after.1.2
     = Simulation.setLoading false
         (Simulation.setError (Some "Failed to remove disaster data.")
            (Simulation.setLoading true stale_page))
  /\ gone (List.map Resource.id (Simulation.resources stale_page)) after.2.1.
Proof.
  cbv zeta.
  assert (Hin : In ghost (Simulation.resources stale_page)) by (do 3 right; now left).
  assert (Hnone : Registry.resources sample_registry !! Resource.id ghost = None)
    by (vm_compute; reflexivity).
  split; [reflexivity|]. split; [exact Hin|]. split; [exact Hnone|].
  exact (simulation_delete_zone_needs_every_delete sample_cfg "zone-flood" stale_page
           sample_registry [] flood ghost eq_refl Hin Hnone).
Defined.

Lemma simulation_delete_zone_succeeds_witness :
  let after :=
    Simulation.handleDeleteZone sample_cfg "zone-flood" sample_page (sample_registry, []) in
  find_zone "zone-flood" (Simulation.zones sample_page) = Some flood
  /\ NoDup (List.map Resource.id (Simulation.resources sample_page))
  /\ Registry.zones after.2.1 = delete "zone-flood" (Registry.zones sample_registry)
  /\ after.2.2
     = [DeleteResource "ambulance-1"; DeleteResource "ambulance-2";
        DeleteResource "truck-1"; DeleteDisaster "zone-flood";
        GetSimulationData; GetSafeAreas]
  /\ Simulation.allocationPlan after.1.2
     = option_map (Simulation.without_zone "zone-flood")
         (Simulation.allocationPlan sample_page).
Proof.
  cbv zeta.
  assert (Hnd : NoDup (List.map Resource.id (Simulation.resources sample_page))).
  { apply (bool_decide_unpack _). vm_compute. exact I. }
  assert (Hall : forall r, In r (Simulation.resources sample_page) ->
                   is_Some (Registry.resources sample_registry !! Resource.id r)).
  { intros r [<-|[<-|[<-|[]]]]; apply (bool_decide_unpack _); vm_compute; exact I. }
  assert (Hzone : is_Some (Registry.zones sample_registry !! "zone-flood")).
  { apply (bool_decide_unpack _). vm_compute. exact I. }
  pose proof (simulation_delete_zone_succeeds sample_cfg "zone-flood" sample_page
                sample_registry [] flood eq_refl Hnd Hall Hzone) as H.
  cbv zeta in H. destruct H as (Hz & Hsent & _ & _ & _ & _ & Hplan & _).
  split; [reflexivity|]. split; [exact Hnd|]. split; [exact Hz|].
  split; [exact Hsent|exact Hplan].
Defined.

Lemma office_delete_zone_tolerates_stale_list_witness :
  let after :=
    OperationOffice.handleDeleteZone sample_cfg true "zone-flood" stale_office
      (sample_registry, []) in
  find_zone "zone-flood" (OperationOffice.zones stale_office) = Some flood
  /\ Registry.resources sample_registry !! Resource.id ghost = None
  /\ Registry.zones after.2.1 = delete "zone-flood" (Registry.zones sample_registry)
  /\ after.2.2
     = [PostBulkDelete ["ambulance-1"; "ambulance-2"; "truck-1"; "ambulance-9"];
        DeleteDisaster "zone-flood"; GetSimulationData; GetSafeAreas]
  /\ OperationOffice.allocationPlan after.1.2 = None.
Proof.
  cbv zeta.
  assert (Hzone : is_Some (Registry.zones sample_registry !! "zone-flood")).
  { apply (bool_decide_unpack _). vm_compute. exact I. }
  pose proof (office_delete_zone_tolerates_stale_list sample_cfg "zone-flood" stale_office
                sample_registry [] flood eq_refl Hzone) as H.
  cbv zeta in H. destruct H as (Hz & Hsent & _ & Hplan & _).
  split; [reflexivity|]. split; [vm_compute; reflexivity|]. split; [exact Hz|].
  split; [exact Hsent|exact Hplan].
Defined.

Lemma office_plans_for_the_selected_zone_witness :
  let after :=
    Api.bind (OperationOffice.onAlertClick (Some "zone-flood"))
      (fun _ => Api.bind (OperationOffice.handleAllocate sample_cfg)
                  (fun _ => OperationOffice.handleDispatch sample_cfg))
      stale_office (sample_registry, []) in
  String.eqb "zone-flood" "" = false
  /\ List.map
       (fun c => match c with
                 | PostAllocate _ zs => List.map DisasterZone.id zs
                 | _ => []
                 end)
       after.2.2
     = [["zone-flood"]; []; []; []]
  /\ OperationOffice.selectedZoneId after.1.2 = Some "zone-flood"
  /\ OperationOffice.allocationPlan after.1.2 = None.
Proof.
  cbv zeta.
  pose proof (office_plans_for_the_selected_zone sample_cfg stale_office sample_registry []
                "zone-flood" eq_refl) as H.
  cbv zeta in H. destruct H as (Hw & _ & Hsel & Hplan & _).
  split; [reflexivity|]. split; [rewrite Hw; reflexivity|].
  split; [exact Hsel|exact Hplan].
Defined.
